(** * EduSense AI: the attendance synchronisation engine

    A shallow embedding of the attendance ledger ([main.py]:
    [background_video_analyzer], [endpoint_manual_absen],
    [close_class_session]), of the in-memory face index
    ([identify_face_fast], [reload_face_database_async]) and of the frame
    sampling loops ([main.py] and [helpers/video_extractor.py]), together
    with the properties the specification states about them.

    Conventions.
    - A table is the list of its rows in store order; [.scalars().first()]
      is the first row of that list satisfying the query.  A unit of work
      is a function on the store: what it returns is what the commit
      persists, and a path that raises or returns before the commit leaves
      the store as it was.
    - Operations run one at a time; interleavings of two requests are not
      described.  Failures of the store connection are not described, nor
      are the foreign-key checks of an insert (the referenced rows exist).
    - Timestamps are seconds on one clock shared by the application
      ([datetime.now()]) and the store ([func.now()]); [date_of] is the
      calendar day of a timestamp.
    - Python [int] is [Z].  Python [float] values are exact rationals [Q]:
      scores and frame rates are finite numbers, and rounding errors of the
      floating-point products are left out.
    - A Python [set] is a [gset], the dictionary [detected_students] a
      [gmap]; their loops run in the order of [elements] and [map_to_list],
      which fixes the order in which new rows receive their [log_id] and
      nothing else. *)

From Stdlib Require Import ZArith QArith Qround Lia.
From stdpp Require Import base option list gmap strings pretty sorting.

Local Open Scope string_scope.
Local Open Scope list_scope.
Local Open Scope Z_scope.

(** ** The relational schema ([models.py]) *)

Module Mahasiswa.
(** [mahasiswa]: [embedding_data] is a nullable [Vector(512)]. *)
Record t := mk {
  nim : string;
  user_id : option Z;
  embedding_data : option (list Q)
}.
End Mahasiswa.

Module KelasEnrollment.
Record t := mk {
  enrollment_id : Z;
  nim : string;
  student_class_id : Z
}.
End KelasEnrollment.

Module Jadwal.
(** [student_class_id] is declared [nullable=False]. *)
Record t := mk {
  jadwal_id : Z;
  dosen_username : string;
  kelas_id : option Z;
  student_class_id : Z;
  hari : string;
  jam_mulai : string;
  jam_selesai : string
}.
End Jadwal.

Module VideoTask.
Record t := mk {
  task_db_id : Z;
  task_id : string;
  dosen_username : string;
  jadwal_id : option Z;
  filename : string;
  status : string;
  is_closed : bool;
  created_at : Z
}.

Definition set_status (s : string) (v : t) : t :=
  mk (task_db_id v) (task_id v) (dosen_username v) (jadwal_id v)
     (filename v) s (is_closed v) (created_at v).

Definition set_is_closed (b : bool) (v : t) : t :=
  mk (task_db_id v) (task_id v) (dosen_username v) (jadwal_id v)
     (filename v) (status v) b (created_at v).
End VideoTask.

Module LogAbsensi.
(** [log_absensi].  [jumlah_muncul] is nullable in the schema, but every
    writer of [main.py] stores an integer in it and the merge path applies
    [+=] to it, so it is an integer here. *)
Record t := mk {
  log_id : Z;
  task_id : option string;
  nim : string;
  jadwal_id : option Z;
  waktu_absen : Z;
  metode : string;
  jumlah_muncul : Z;
  emosi_dominan : option string;
  bukti_foto : option string;
  is_disputed : bool;
  keterangan_report : option string
}.

Definition add_jumlah_muncul (n : Z) (r : t) : t :=
  mk (log_id r) (task_id r) (nim r) (jadwal_id r) (waktu_absen r) (metode r)
     (jumlah_muncul r + n) (emosi_dominan r) (bukti_foto r) (is_disputed r)
     (keterangan_report r).

(** The four assignments of the manual force-update. *)
Definition force_manual (now : Z) (r : t) : t :=
  mk (log_id r) (task_id r) (nim r) (jadwal_id r) now "MANUAL_DOSEN"
     (jumlah_muncul r) (emosi_dominan r) (bukti_foto r) false None.
End LogAbsensi.

(** The store: one list per table, and the sequence behind the
    autoincrement primary key of [log_absensi]. *)
Record Database := mkDatabase {
  mahasiswa : list Mahasiswa.t;
  kelas_enrollment : list KelasEnrollment.t;
  jadwal : list Jadwal.t;
  video_tasks : list VideoTask.t;
  log_absensi : list LogAbsensi.t;
  log_id_seq : Z
}.

Definition set_video_tasks (vs : list VideoTask.t) (db : Database) : Database :=
  mkDatabase (mahasiswa db) (kelas_enrollment db) (jadwal db) vs
             (log_absensi db) (log_id_seq db).

Definition set_log_absensi (ls : list LogAbsensi.t) (db : Database) : Database :=
  mkDatabase (mahasiswa db) (kelas_enrollment db) (jadwal db) (video_tasks db)
             ls (log_id_seq db).

(** [func.date(waktu_absen)]: the calendar day of a timestamp. *)
Definition date_of (ts : Z) : Z := ts / 86400.

(** [db.add(LogAbsensi(...))] followed by the flush: the row receives the
    next [log_id] and is appended.  [log_absensi] declares no constraint
    besides its primary key, so the insert is never refused. *)
Definition db_add (row : Z -> LogAbsensi.t) (db : Database) : Database :=
  mkDatabase (mahasiswa db) (kelas_enrollment db) (jadwal db) (video_tasks db)
             (log_absensi db ++ [row (log_id_seq db)]) (log_id_seq db + 1).

(** ** Queries shared by the ledger operations *)

(** [select(Jadwal).where(Jadwal.jadwal_id == jadwal_id)], first row. *)
Definition find_jadwal (db : Database) (jid : Z) : option Jadwal.t :=
  snd <$> list_find (λ j, Jadwal.jadwal_id j = jid) (jadwal db).

(** The strict filter on [(nim, jadwal_id, day)]. *)
Definition log_matches (nim : string) (jid today : Z) (r : LogAbsensi.t) : Prop :=
  LogAbsensi.nim r = nim ∧ LogAbsensi.jadwal_id r = Some jid
  ∧ date_of (LogAbsensi.waktu_absen r) = today.

#[global] Instance log_matches_dec nim jid today r :
  Decision (log_matches nim jid today r).
Proof. unfold log_matches. apply _. Defined.

(** [existing_log]: position and value of the first matching row. *)
Definition find_log (logs : list LogAbsensi.t) (nim : string) (jid today : Z)
  : option (nat * LogAbsensi.t) :=
  list_find (log_matches nim jid today) logs.

(** The nims enrolled in a student class, as the Python [set] built from
    [select(KelasEnrollment.nim).where(student_class_id == ...)]. *)
Definition enrolled_in (db : Database) (cls : Z) : gset string :=
  list_to_set
    (KelasEnrollment.nim <$>
       filter (λ e, KelasEnrollment.student_class_id e = cls) (kelas_enrollment db)).

(** ** Automatic evidence ([background_video_analyzer], store phase) *)

(** One entry of [detected_students]. [emosi] keeps insertion order. *)
Record Meta := mkMeta {
  count : Z;
  emosi : list (string * Z);
  sample : option string
}.

(** [max(d, key=d.get)]: the first key holding the largest value. *)
Fixpoint max_by_value (best : string * Z) (l : list (string * Z)) : string :=
  match l with
  | [] => fst best
  | kv :: l' => if snd best <? snd kv then max_by_value kv l'
                else max_by_value best l'
  end.

Definition dominant_emotion (meta : Meta) : string :=
  match emosi meta with
  | [] => "Neutral"
  | kv :: l => max_by_value kv l
  end.

(** [enrolled_nims is not None and nim not in enrolled_nims]. *)
Definition not_enrolled (enrolled_nims : option (gset string)) (nim : string)
  : bool :=
  match enrolled_nims with
  | Some s => bool_decide (nim ∉ s)
  | None => false
  end.

(** The body of [for nim, meta in detected_students.items()]. *)
Definition smart_upsert (task_id : string) (jid : Z)
    (enrolled_nims : option (gset string)) (now : Z)
    (db : Database) (entry : string * Meta) : Database :=
  let '(nim, meta) := entry in
  if not_enrolled enrolled_nims nim then db
  else
    match find_log (log_absensi db) nim jid (date_of now) with
    | None =>
        db_add (λ id, LogAbsensi.mk id (Some task_id) nim (Some jid) now
                        "AI_VIDEO" (count meta) (Some (dominant_emotion meta))
                        (sample meta) false None) db
    | Some (i, existing_log) =>
        if bool_decide (LogAbsensi.metode existing_log = "AI_VIDEO")
        then set_log_absensi
               (<[i := LogAbsensi.add_jumlah_muncul (count meta) existing_log]>
                  (log_absensi db)) db
        else db
    end.
Arguments smart_upsert : simpl never.

(** The outcome reported through [state.update_task]. *)
Inductive TaskOutcome :=
| completed
| failed (error : string).

(** [task_obj.status = "completed"] on the first task row with this id. *)
Definition complete_task (task_id : string) (db : Database) : Database :=
  match list_find (λ v, VideoTask.task_id v = task_id) (video_tasks db) with
  | Some (i, task_obj) =>
      set_video_tasks
        (<[i := VideoTask.set_status "completed" task_obj]> (video_tasks db)) db
  | None => db
  end.

(** [enrolled_nims]: [None] when the session's [student_class_id] is falsy. *)
Definition enrolled_nims_of (db : Database) (j : Jadwal.t)
  : option (gset string) :=
  if bool_decide (Jadwal.student_class_id j = 0) then None
  else Some (enrolled_in db (Jadwal.student_class_id j)).

(** [background_video_analyzer] from the point where its video loop has
    finished (lines 824-914): the transaction that stores the evidence
    [detected_students] aggregated by the loop.  The loop itself is
    [video_loop] below; detection, cropping and the emotion service only
    build [detected_students].  When the session is missing the function
    returns before the commit, so the store is left as it was.  The
    [except] branch is reached from failures of the video resource, of the
    detector or of the store connection, and writes [VideoTask.status]
    only. *)
Definition background_video_analyzer (task_id : string) (jid : Z)
    (detected_students : gmap string Meta) (now : Z) (db : Database)
  : TaskOutcome * Database :=
  let db1 := complete_task task_id db in
  match find_jadwal db1 jid with
  | None => (failed "Jadwal tidak ditemukan", db)
  | Some jadwal_obj =>
      let enrolled_nims := enrolled_nims_of db1 jadwal_obj in
      (completed,
       foldl (smart_upsert task_id jid enrolled_nims now) db1
             (map_to_list detected_students))
  end.

(** ** Manual entry ([endpoint_manual_absen]) *)

Inductive HTTPException := http_exception (status_code : Z) (detail : string).

(** What an endpoint does: it answers, or raises before any commit. *)
Inductive Response (A : Type) :=
| Ok (a : A)
| Raise (e : HTTPException).
Arguments Ok {A} a.
Arguments Raise {A} e.

Record ManualAbsenSchema := mkManualAbsen {
  manual_nim : string;
  manual_jadwal_id : Z
}.

(** [select(KelasEnrollment).where(nim == ..., student_class_id == ...)]. *)
Definition find_enrollment (db : Database) (nim : string) (cls : Z)
  : option KelasEnrollment.t :=
  snd <$> list_find (λ e, KelasEnrollment.nim e = nim
                          ∧ KelasEnrollment.student_class_id e = cls)
                    (kelas_enrollment db).

Definition endpoint_manual_absen (data : ManualAbsenSchema) (now : Z)
    (db : Database) : Response (string * Database) :=
  let nim := manual_nim data in
  let jid := manual_jadwal_id data in
  match list_find (λ m, Mahasiswa.nim m = nim) (mahasiswa db) with
  | None => Raise (http_exception 404 ("NIM " +:+ nim +:+ " tidak ditemukan."))
  | Some _ =>
    match find_jadwal db jid with
    | None => Raise (http_exception 404 "Jadwal tidak ditemukan.")
    | Some jadwal_obj =>
      match find_enrollment db nim (Jadwal.student_class_id jadwal_obj) with
      | None =>
          Raise (http_exception 403
                   ("Mahasiswa dengan NIM " +:+ nim
                    +:+ " tidak terdaftar di kelas ini."))
      | Some _ =>
        match find_log (log_absensi db) nim jid (date_of now) with
        | Some (i, existing_log) =>
            Ok ("Status presensi " +:+ nim
                +:+ " di kelas ini DIPERBARUI menjadi HADIR.",
                set_log_absensi
                  (<[i := LogAbsensi.force_manual now existing_log]>
                     (log_absensi db)) db)
        | None =>
            Ok ("Mahasiswa " +:+ nim +:+ " DIABSEN manual di kelas ini.",
                db_add (λ id, LogAbsensi.mk id None nim (Some jid) now
                                "MANUAL_DOSEN" 1 (Some "Manual Input") None
                                false None) db)
        end
      end
    end
  end.

(** ** Closing a session ([close_class_session]) *)

(** [select(Mahasiswa.nim).join(KelasEnrollment, ...).where(embedding_data
    IS NOT NULL)], collected into a Python [set]. *)
Definition enrolled_with_face (db : Database) (cls : Z) : gset string :=
  list_to_set
    (m ← mahasiswa db;
     e ← kelas_enrollment db;
     if bool_decide (KelasEnrollment.nim e = Mahasiswa.nim m
                     ∧ KelasEnrollment.student_class_id e = cls
                     ∧ is_Some (Mahasiswa.embedding_data m))
     then [Mahasiswa.nim m] else []).

(** [select(LogAbsensi.nim).where(jadwal_id == ..., date == today)]. *)
Definition present_today (logs : list LogAbsensi.t) (jid today : Z)
  : gset string :=
  list_to_set
    (LogAbsensi.nim <$>
       filter (λ r, LogAbsensi.jadwal_id r = Some jid
                    ∧ date_of (LogAbsensi.waktu_absen r) = today) logs).

Definition alpha_log (nim : string) (jid now : Z) (id : Z) : LogAbsensi.t :=
  LogAbsensi.mk id None nim (Some jid) now "ALPHA_SYSTEM" 0 None None false None.

(** The body of [for nim in enrolled_nims], on the pair of the session's
    pending store and [alpha_count]. *)
Definition mark_alpha (present_nims : gset string) (jid now : Z)
    (acc : Database * Z) (nim : string) : Database * Z :=
  if bool_decide (nim ∉ present_nims)
  then (db_add (alpha_log nim jid now) (fst acc), snd acc + 1)
  else acc.

(** [update(VideoTask).where(jadwal_id == ...).values(is_closed=True)]. *)
Definition close_video_tasks (jid : Z) (db : Database) : Database :=
  set_video_tasks
    ((λ v, if bool_decide (VideoTask.jadwal_id v = Some jid)
           then VideoTask.set_is_closed true v else v) <$> video_tasks db) db.

Record CloseSummary := mkCloseSummary {
  hadir : Z;
  alpha : Z
}.

Definition close_class_session (jid now : Z) (db : Database)
  : Response (CloseSummary * Database) :=
  match find_jadwal db jid with
  | None => Raise (http_exception 404 "Jadwal tidak ditemukan")
  | Some jadwal_obj =>
      let enrolled_nims :=
        enrolled_with_face db (Jadwal.student_class_id jadwal_obj) in
      let present_nims := present_today (log_absensi db) jid (date_of now) in
      let '(db1, alpha_count) :=
        foldl (mark_alpha present_nims jid now) (db, 0)
              (elements enrolled_nims) in
      Ok (mkCloseSummary (Z.of_nat (size present_nims)) alpha_count,
          close_video_tasks jid db1)
  end.

(** ** The strict-binding invariant *)

Definition log_key (r : LogAbsensi.t) : string * option Z * Z :=
  (LogAbsensi.nim r, LogAbsensi.jadwal_id r, date_of (LogAbsensi.waktu_absen r)).

(** At most one row per (student, session, calendar day). *)
Definition unique_per_day (logs : list LogAbsensi.t) : Prop :=
  NoDup (log_key <$> logs).

(** ** Vocabulary of the statements *)

(** Rows of one student. *)
Definition rows_of (nim : string) (logs : list LogAbsensi.t) : list LogAbsensi.t :=
  filter (λ r, LogAbsensi.nim r = nim) logs.

(** A student is enrolled in a class when [kelas_enrollment] holds a row
    joining them. *)
Definition is_enrolled (db : Database) (nim : string) (cls : Z) : Prop :=
  ∃ e, e ∈ kelas_enrollment db ∧ KelasEnrollment.nim e = nim
       ∧ KelasEnrollment.student_class_id e = cls.

(** The enrollment test of the automatic path lets a student through when
    the session carries no class id or the student is enrolled in it. *)
Definition passes_enrollment (db : Database) (j : Jadwal.t) (nim : string) : Prop :=
  Jadwal.student_class_id j = 0
  ∨ is_enrolled db nim (Jadwal.student_class_id j).

(** The store after a request: what the endpoint committed, or the store as
    it was when the endpoint raised. *)
Definition store_after {A : Type} (resp : Response (A * Database))
    (db : Database) : Database :=
  match resp with
  | Ok (_, db') => db'
  | Raise _ => db
  end.

(** The foreign key [kelas_enrollment.nim -> mahasiswa.nim]. *)
Definition enrollment_fk (db : Database) : Prop :=
  ∀ e, e ∈ kelas_enrollment db →
       ∃ m, m ∈ mahasiswa db ∧ Mahasiswa.nim m = KelasEnrollment.nim e.

(** A student with a registered embedding. *)
Definition has_face (db : Database) (nim : string) : Prop :=
  ∃ m, m ∈ mahasiswa db ∧ Mahasiswa.nim m = nim
       ∧ is_Some (Mahasiswa.embedding_data m).

(** A student with any row for the session on the day. *)
Definition recorded_today (logs : list LogAbsensi.t) (nim : string)
    (jid today : Z) : Prop :=
  ∃ r, r ∈ logs ∧ LogAbsensi.nim r = nim ∧ LogAbsensi.jadwal_id r = Some jid
       ∧ date_of (LogAbsensi.waktu_absen r) = today.

(** The rows that closing a session appends for a list of absentees, the
    first of them receiving the primary key [seq]. *)
Fixpoint alpha_rows (nims : list string) (jid now seq : Z) : list LogAbsensi.t :=
  match nims with
  | [] => []
  | nim :: nims' => alpha_log nim jid now seq :: alpha_rows nims' jid now (seq + 1)
  end.

(** What one iteration does to the store. *)
Inductive upsert_effect (task_id : string) (jid : Z)
    (en : option (gset string)) (now : Z) (db : Database) (nim : string)
    (meta : Meta) : Database → Prop :=
| effect_skip :
    not_enrolled en nim = true → upsert_effect task_id jid en now db nim meta db
| effect_insert :
    not_enrolled en nim = false →
    find_log (log_absensi db) nim jid (date_of now) = None →
    upsert_effect task_id jid en now db nim meta
      (db_add (λ id, LogAbsensi.mk id (Some task_id) nim (Some jid) now
                       "AI_VIDEO" (count meta)
                       (Some (dominant_emotion meta)) (sample meta)
                       false None) db)
| effect_merge i r :
    not_enrolled en nim = false →
    find_log (log_absensi db) nim jid (date_of now) = Some (i, r) →
    LogAbsensi.metode r = "AI_VIDEO" →
    upsert_effect task_id jid en now db nim meta
      (set_log_absensi
         (<[i := LogAbsensi.add_jumlah_muncul (count meta) r]>
            (log_absensi db)) db)
| effect_keep i r :
    not_enrolled en nim = false →
    find_log (log_absensi db) nim jid (date_of now) = Some (i, r) →
    LogAbsensi.metode r ≠ "AI_VIDEO" →
    upsert_effect task_id jid en now db nim meta db.

(** ** The identity index ([identify_face_fast], [reload_face_database_async])

    The numerical kernels are parameters: [np_array] is
    [np.array(embedding_val, dtype=np.float32)] ([None] when it raises),
    [l2_normalize v] is [v / np.linalg.norm(v)], and [np_dot row v] is the
    entry that [np.dot(known_matrix, v)] computes for [row].  On arrays of
    one shape the last two do not raise. *)

Definition FACE_SIMILARITY_THRESHOLD : Q := 1 # 2.

(** Python's [x < y] on scores. *)
Definition Qltb (x y : Q) : bool := negb (Qle_bool y x).

(** [np.argmax]: the first position of the largest entry; it raises on an
    empty array. *)
Fixpoint argmax_from (best_idx : nat) (best : Q) (idx : nat) (scores : list Q)
  : nat :=
  match scores with
  | [] => best_idx
  | s :: rest => if Qltb best s then argmax_from idx s (S idx) rest
                 else argmax_from best_idx best (S idx) rest
  end.

Definition np_argmax (scores : list Q) : option nat :=
  match scores with
  | [] => None
  | s :: rest => Some (argmax_from 0 s 1 rest)
  end.

(** What a reload receives from the store: the rows
    [(nim, embedding_data)] with a non-null embedding, or an exception. *)
Inductive FetchResult :=
| fetch_rows (rows : list (string * list Q))
| fetch_error (e : string).

(** The rows the reload query selects from the store. *)
Definition select_embeddings (db : Database) : list (string * list Q) :=
  m ← mahasiswa db;
  match Mahasiswa.embedding_data m with
  | Some v => [(Mahasiswa.nim m, v)]
  | None => []
  end.

Section IdentityIndex.
Context {ndarray : Type}.
Variable np_array : list Q → option ndarray.
Variable l2_normalize : ndarray → ndarray.
Variable np_dot : ndarray → ndarray → Q.

(** The part of [SystemStateManager] that holds the index. *)
Record SystemState := mkSystemState {
  known_ids : list string;
  known_matrix : option (list ndarray);
  last_reload : option Z
}.

(** [SystemStateManager.__init__]. *)
Definition initial_state : SystemState := mkSystemState [] None None.

Definition identify_face_fast (state : SystemState) (embedding : ndarray)
  : string * Q :=
  match known_matrix state with
  | None => ("Unknown", 0%Q)
  | Some matrix =>
      if bool_decide (List.length (known_ids state) = 0%nat)
      then ("Unknown", 0%Q)
      else
        let norm_emb := l2_normalize embedding in
        let scores := (λ row, np_dot row norm_emb) <$> matrix in
        match np_argmax scores with
        | None => ("Error", 0%Q)
        | Some best_idx =>
            match scores !! best_idx with
            | None => ("Error", 0%Q)
            | Some max_score =>
                if Qltb FACE_SIMILARITY_THRESHOLD max_score
                then match known_ids state !! best_idx with
                     | Some nim => (nim, max_score)
                     | None => ("Error", 0%Q)
                     end
                else ("Unknown", 0%Q)
            end
        end
  end.

(** The loop over the fetched rows: a row whose embedding does not load is
    logged and left out. *)
Fixpoint load_rows (rows : list (string * list Q))
  : list string * list ndarray :=
  match rows with
  | [] => ([], [])
  | (nim, embedding_val) :: rest =>
      let '(temp_ids, temp_vectors) := load_rows rest in
      match np_array embedding_val with
      | Some emb_array => (nim :: temp_ids, l2_normalize emb_array :: temp_vectors)
      | None => (temp_ids, temp_vectors)
      end
  end.

Definition reload_face_database_async (fetch : FetchResult) (now : Z)
    (state : SystemState) : SystemState :=
  match fetch with
  | fetch_error _ => state
  | fetch_rows rows =>
      let '(temp_ids, temp_vectors) := load_rows rows in
      match temp_vectors with
      | [] => mkSystemState [] None (last_reload state)
      | _ :: _ => mkSystemState temp_ids (Some temp_vectors) (Some now)
      end
  end.

(** The index holds nobody. *)
Definition index_empty (state : SystemState) : Prop :=
  known_ids state = [] ∧ known_matrix state = None.

(** Ids and matrix rows go in pairs. *)
Definition index_paired (state : SystemState) : Prop :=
  ∀ matrix, known_matrix state = Some matrix →
            List.length matrix = List.length (known_ids state).
End IdentityIndex.

Arguments SystemState : clear implicits.
Arguments mkSystemState {ndarray} _ _ _.

(** ** The frame sampling loops *)

(** A video resource as the loops see it: what [cap.get] answers for the
    frame count and the frame rate, and whether [cap.read()] succeeds after
    a seek to an offset. *)
Record VideoCapture := mkVideoCapture {
  frame_count : Z;
  fps : Q;
  read_ok : Z → bool
}.

(** Python's [int(x)] on a float: truncation towards zero. *)
Definition py_int (x : Q) : Z := Z.quot (Qnum x) (Z.pos (Qden x)).

(** Python's [round(x)]: to the nearest integer, ties to the even one. *)
Definition py_round (x : Q) : Z :=
  let f := Qfloor x in
  let r := (x - inject_Z f)%Q in
  if Qltb r (1 # 2) then f
  else if Qltb (1 # 2) r then f + 1
  else if Z.even f then f else f + 1.

(** The [while True] loop of [background_video_analyzer], as the list of
    its [cap.read()] calls: the offset asked for and whether a frame came
    back.  A frame that came back is analysed.  [None] when [fuel]
    iterations do not reach a [break].  The progress percentage written to
    the task cache at the head of each iteration is left out. *)
Fixpoint video_loop (fuel : nat) (cap : VideoCapture)
    (frame_interval total_frames current_frame_idx : Z)
  : option (list (Z * bool)) :=
  match fuel with
  | O => None
  | S fuel' =>
      if read_ok cap current_frame_idx then
        let next_idx := current_frame_idx + frame_interval in
        if total_frames <=? next_idx then Some [(current_frame_idx, true)]
        else cons (current_frame_idx, true)
               <$> video_loop fuel' cap frame_interval total_frames next_idx
      else Some [(current_frame_idx, false)]
  end.

(** [fps = cap.get(cv2.CAP_PROP_FPS) or 30]. *)
Definition fps_or_30 (cap : VideoCapture) : Q :=
  if Qeq_bool (fps cap) 0 then 30%Q else fps cap.

(** [frame_interval = int(fps * 1.5)]. *)
Definition frame_interval (cap : VideoCapture) : Z :=
  py_int (fps_or_30 cap * (3 # 2)).

Definition analyzer_reads (fuel : nat) (cap : VideoCapture)
  : option (list (Z * bool)) :=
  video_loop fuel cap (frame_interval cap) (frame_count cap) 0.

(** [helpers/video_extractor.py]: the same loop with [INTERVAL_DETIK = 5]
    and no fallback for the frame rate; its progress line divides by the
    frame count and its time stamp divides by the frame rate. *)
Definition INTERVAL_DETIK : Z := 5.

Definition frame_jump (cap : VideoCapture) : Z :=
  py_int (fps cap * inject_Z INTERVAL_DETIK).

Inductive LoopEnd :=
| loop_break
| zero_division_error.

Fixpoint extractor_loop (fuel : nat) (cap : VideoCapture)
    (current_frame_pos : Z) : option (list (Z * bool) * LoopEnd) :=
  match fuel with
  | O => None
  | S fuel' =>
      if frame_count cap =? 0 then Some ([], zero_division_error)
      else if read_ok cap current_frame_pos then
        if Qeq_bool (fps cap) 0
        then Some ([(current_frame_pos, true)], zero_division_error)
        else
          let next_pos := current_frame_pos + frame_jump cap in
          if frame_count cap <=? next_pos
          then Some ([(current_frame_pos, true)], loop_break)
          else prod_map (cons (current_frame_pos, true)) id
                 <$> extractor_loop fuel' cap next_pos
      else Some ([(current_frame_pos, false)], loop_break)
  end.

Definition process_video_background (fuel : nat) (cap : VideoCapture)
  : option (list (Z * bool) * LoopEnd) :=
  extractor_loop fuel cap 0.

(** What a finished run of the loop looks like from [start] with a given
    [step]: the offsets asked for are [start + k * step], each once and in
    this order; every read but the last gave a frame and left the next
    offset below the frame count; the last read either failed or was
    followed by an offset at or beyond the frame count. *)
Definition sampling_run (cap : VideoCapture) (step total start : Z)
    (reads : list (Z * bool)) : Prop :=
  reads ≠ []
  ∧ reads.*1 = (λ k : nat, start + Z.of_nat k * step) <$> seq 0 (List.length reads)
  ∧ (∀ (k : nat) o r, reads !! k = Some (o, r) → r = read_ok cap o)
  ∧ (∀ (k : nat) o r, reads !! k = Some (o, r) → (S k < List.length reads)%nat →
                      r = true ∧ o + step < total)
  ∧ (∀ o r, last reads = Some (o, r) → r = false ∨ total ≤ o + step).

(** ** Sample data

    One session (id 1) of student class 10 with three enrolled students that
    have a registered face, and a student "S9" enrolled elsewhere. *)

Definition sample_jadwal : Jadwal.t :=
  Jadwal.mk 1 "dosen01" (Some 7) 10 "Senin" "08:00" "10:00".

Definition sample_db : Database :=
  mkDatabase
    [Mahasiswa.mk "S1" (Some 11) (Some [1%Q; 0%Q]);
     Mahasiswa.mk "S2" (Some 12) (Some [0%Q; 1%Q]);
     Mahasiswa.mk "S3" (Some 13) (Some [1%Q; 1%Q]);
     Mahasiswa.mk "S9" (Some 19) (Some [1%Q; 2%Q])]
    [KelasEnrollment.mk 1 "S1" 10; KelasEnrollment.mk 2 "S2" 10;
     KelasEnrollment.mk 3 "S3" 10; KelasEnrollment.mk 4 "S9" 20]
    [sample_jadwal]
    [VideoTask.mk 1 "task-a" "dosen01" (Some 1) "a.mp4" "processing" false 0;
     VideoTask.mk 2 "task-b" "dosen01" (Some 1) "b.mp4" "processing" false 0;
     VideoTask.mk 3 "task-c" "dosen01" (Some 2) "c.mp4" "processing" false 0]
    [] 1.

(** The same store after student "S1" was entered by hand at second 50. *)
Definition sample_db_manual : Database :=
  set_log_absensi
    [LogAbsensi.mk 1 None "S1" (Some 1) 50 "MANUAL_DOSEN" 1
       (Some "Manual Input") None false None] sample_db.

(** The same store holding an automatic row for "S9", who is not (or no
    longer) enrolled in the session's class. *)
Definition sample_db_moved : Database :=
  set_log_absensi
    [LogAbsensi.mk 1 (Some "task-a") "S9" (Some 1) 50 "AI_VIDEO" 3
       (Some "Neutral") (Some "/hasil_crop/task-a_S9_0.jpg") false None]
    sample_db.

(** Evidence of two videos. *)
Definition evidence_a : gmap string Meta :=
  <["S1" := mkMeta 3 [("happy", 1)] (Some "/hasil_crop/task-a_S1_0.jpg")]>
    (<["S2" := mkMeta 1 [] None]> ∅).

Definition evidence_b : gmap string Meta :=
  <["S1" := mkMeta 2 [] (Some "/hasil_crop/task-b_S1_45.jpg")]>
    (<["S9" := mkMeta 2 [] (Some "/hasil_crop/task-b_S9_45.jpg")]> ∅).

(** The sample store after the first video has been analysed at second 100. *)
Definition sample_db_after_a : Database :=
  (background_video_analyzer "task-a" 1 evidence_a 100 sample_db).2.

(** Sample kernels on rational vectors: the exact dot product, and unit
    vectors that normalisation leaves as they are. *)
Fixpoint sample_dot (u v : list Q) : Q :=
  match u, v with
  | x :: u', y :: v' => (x * y + sample_dot u' v')%Q
  | _, _ => 0%Q
  end.

Definition sample_state : SystemState (list Q) :=
  mkSystemState ["S1"; "S2"] (Some [[1%Q; 0%Q]; [0%Q; 1%Q]]) (Some 5).

(** An NTSC clip of 100 frames that all read, and a slide show at one frame
    every two seconds. *)
Definition sample_ntsc : VideoCapture :=
  mkVideoCapture 100 (30000 # 1001) (λ o, o <? 100).

Definition sample_slides : VideoCapture :=
  mkVideoCapture 100 (1 # 2) (λ o, o <? 100).

(** * Further operations on the same store *)

(** ** Disputes ([student_submit_report]) *)

(** [.values(is_disputed=True, keterangan_report=alasan,
    bukti_foto=bukti_path)]. *)
Definition report_values (alasan : string) (bukti_path : option string)
    (r : LogAbsensi.t) : LogAbsensi.t :=
  LogAbsensi.mk (LogAbsensi.log_id r) (LogAbsensi.task_id r) (LogAbsensi.nim r)
    (LogAbsensi.jadwal_id r) (LogAbsensi.waktu_absen r) (LogAbsensi.metode r)
    (LogAbsensi.jumlah_muncul r) (LogAbsensi.emosi_dominan r) bukti_path true
    (Some alasan).

(** What became of the optional [foto] field of the form: absent, written
    under [/hasil_crop/reports/], or lost to an exception that the endpoint
    logs and swallows. *)
Inductive FotoUpload :=
| no_foto
| foto_saved (path : string)
| foto_failed.

(** [existing_log.jadwal]: the session the row points to, if any. *)
Definition jadwal_of_log (db : Database) (r : LogAbsensi.t) : option Jadwal.t :=
  match LogAbsensi.jadwal_id r with
  | Some jid => find_jadwal db jid
  | None => None
  end.

(** [existing_log.jadwal and existing_log.jadwal.student_class_id]. *)
Definition report_class (db : Database) (r : LogAbsensi.t) : option Z :=
  match jadwal_of_log db r with
  | Some j => if bool_decide (Jadwal.student_class_id j = 0) then None
              else Some (Jadwal.student_class_id j)
  | None => None
  end.

(** [update(LogAbsensi).where(LogAbsensi.log_id == log_id).values(...)]. *)
Definition update_reported (log_id : Z) (alasan : string)
    (bukti_path : option string) (logs : list LogAbsensi.t)
  : list LogAbsensi.t :=
  (λ r, if bool_decide (LogAbsensi.log_id r = log_id)
        then report_values alasan bukti_path r else r) <$> logs.

(** The endpoint answers with the evidence path it stored. *)
Definition student_submit_report (log_id : Z) (alasan : string)
    (foto : FotoUpload) (username : string) (db : Database)
  : Response (option string * Database) :=
  match list_find (λ r, LogAbsensi.log_id r = log_id) (log_absensi db) with
  | None => Raise (http_exception 404 "Log absensi tidak ditemukan")
  | Some (_, existing_log) =>
      if bool_decide (LogAbsensi.nim existing_log ≠ username)
      then Raise (http_exception 403 "Anda tidak memiliki akses ke log ini")
      else
        let refused :=
          match report_class db existing_log with
          | Some cls =>
              match find_enrollment db username cls with
              | None => true
              | Some _ => false
              end
          | None => false
          end in
        if refused
        then Raise (http_exception 403 "Anda tidak terdaftar di kelas ini")
        else
          let bukti_path :=
            match foto with
            | foto_saved path => Some path
            | no_foto | foto_failed => LogAbsensi.bukti_foto existing_log
            end in
          Ok (bukti_path,
              set_log_absensi
                (update_reported log_id alasan bukti_path (log_absensi db)) db)
  end.

(** ** Enrollment management ([create_enrollment], [bulk_create_enrollment])

    The table [student_class] is not part of [Database]; the endpoints
    receive it beside the store, together with the next value of the
    sequence behind [kelas_enrollment.enrollment_id]. *)

Module StudentClass.
Record t := mk {
  class_id : Z;
  class_name : string
}.
End StudentClass.

Definition set_kelas_enrollment (es : list KelasEnrollment.t) (db : Database)
  : Database :=
  mkDatabase (mahasiswa db) es (jadwal db) (video_tasks db) (log_absensi db)
             (log_id_seq db).

Definition find_student_class (classes : list StudentClass.t) (cls : Z)
  : option StudentClass.t :=
  snd <$> list_find (λ c, StudentClass.class_id c = cls) classes.

Definition find_mahasiswa (db : Database) (nim : string) : option Mahasiswa.t :=
  snd <$> list_find (λ m, Mahasiswa.nim m = nim) (mahasiswa db).

Record EnrollmentCreateSchema := mkEnrollmentCreate {
  enroll_nim : string;
  enroll_student_class_id : Z
}.

Definition create_enrollment (data : EnrollmentCreateSchema)
    (classes : list StudentClass.t) (next_id : Z) (db : Database)
  : Response (string * Database) :=
  let nim := enroll_nim data in
  let cls := enroll_student_class_id data in
  match find_mahasiswa db nim with
  | None =>
      Raise (http_exception 404
               ("Mahasiswa dengan NIM " +:+ nim +:+ " tidak ditemukan"))
  | Some _ =>
    match find_student_class classes cls with
    | None =>
        Raise (http_exception 404
                 ("Student Class dengan ID " +:+ pretty cls
                  +:+ " tidak ditemukan"))
    | Some student_class =>
      match find_enrollment db nim cls with
      | Some _ =>
          Raise (http_exception 400
                   ("Mahasiswa " +:+ nim +:+ " sudah terdaftar di kelas "
                    +:+ StudentClass.class_name student_class))
      | None =>
          Ok ("Mahasiswa " +:+ nim +:+ " berhasil ditambahkan ke kelas "
              +:+ StudentClass.class_name student_class,
              set_kelas_enrollment
                (kelas_enrollment db ++ [KelasEnrollment.mk next_id nim cls]) db)
      end
    end
  end.

(** The bulk schema in force when the endpoint is defined carries the class
    id under the name [kelas_id]. *)
Record EnrollmentBulkSchema := mkEnrollmentBulk {
  bulk_kelas_id : Z;
  bulk_nim_list : list string
}.

(** The state of the loop of [bulk_create_enrollment]: the pending store,
    the next enrollment id, [success_count] and [failed_nims]. *)
Record BulkState := mkBulkState {
  bulk_db : Database;
  bulk_next_id : Z;
  success_count : Z;
  failed_nims : list string
}.

(** The body of [for nim in data.nim_list]; the lookups see the rows added
    by earlier iterations. *)
Definition bulk_enroll_one (cls : Z) (st : BulkState) (nim : string)
  : BulkState :=
  match find_mahasiswa (bulk_db st) nim with
  | None =>
      mkBulkState (bulk_db st) (bulk_next_id st) (success_count st)
                  (failed_nims st ++ [nim +:+ " (tidak ditemukan)"])
  | Some _ =>
      match find_enrollment (bulk_db st) nim cls with
      | Some _ =>
          mkBulkState (bulk_db st) (bulk_next_id st) (success_count st)
                      (failed_nims st ++ [nim +:+ " (sudah terdaftar)"])
      | None =>
          mkBulkState
            (set_kelas_enrollment
               (kelas_enrollment (bulk_db st)
                ++ [KelasEnrollment.mk (bulk_next_id st) nim cls]) (bulk_db st))
            (bulk_next_id st + 1) (success_count st + 1) (failed_nims st)
      end
  end.

Record BulkResult := mkBulkResult {
  bulk_msg : string;
  bulk_success : Z;
  bulk_failed : Z
}.

Definition bulk_create_enrollment (data : EnrollmentBulkSchema)
    (classes : list StudentClass.t) (next_id : Z) (db : Database)
  : Response (BulkResult * Database) :=
  match find_student_class classes (bulk_kelas_id data) with
  | None =>
      Raise (http_exception 404
               ("Student Class dengan ID " +:+ pretty (bulk_kelas_id data)
                +:+ " tidak ditemukan"))
  | Some student_class =>
      let st := foldl (bulk_enroll_one (bulk_kelas_id data))
                      (mkBulkState db next_id 0 []) (bulk_nim_list data) in
      let result_msg :=
        "Berhasil mendaftarkan " +:+ pretty (success_count st)
        +:+ " mahasiswa ke kelas " +:+ StudentClass.class_name student_class in
      let result_msg :=
        match failed_nims st with
        | [] => result_msg
        | _ :: _ => result_msg +:+ ". Gagal: "
                    +:+ String.concat ", " (failed_nims st)
        end in
      Ok (mkBulkResult result_msg (success_count st)
            (Z.of_nat (List.length (failed_nims st))),
          bulk_db st)
  end.

(** No student is enrolled twice in one class. *)
Definition enrollment_unique (db : Database) : Prop :=
  NoDup ((λ e, (KelasEnrollment.nim e, KelasEnrollment.student_class_id e))
           <$> kelas_enrollment db).

(** ** The attendance view of a session ([get_session_attendance_sync])

    The table [users] is not part of [Database]; the view receives it
    beside the store. *)

Module Users.
Record t := mk {
  user_id : Z;
  username : string;
  password : string;
  full_name : string;
  role : string;
  is_active : bool
}.
End Users.

(** [student.user], the relationship behind [mahasiswa.user_id]. *)
Definition user_of (users : list Users.t) (m : Mahasiswa.t) : option Users.t :=
  match Mahasiswa.user_id m with
  | Some uid => snd <$> list_find (λ u, Users.user_id u = uid) users
  | None => None
  end.

(** [select(Mahasiswa).join(KelasEnrollment, ...).where(embedding_data IS NOT
    NULL)]: one entry per joined pair of rows. *)
Definition enrolled_students (db : Database) (cls : Z) : list Mahasiswa.t :=
  m ← mahasiswa db;
  e ← kelas_enrollment db;
  if bool_decide (KelasEnrollment.nim e = Mahasiswa.nim m
                  ∧ KelasEnrollment.student_class_id e = cls
                  ∧ is_Some (Mahasiswa.embedding_data m))
  then [m] else [].

(** [select(LogAbsensi).where(jadwal_id == ..., date == today)]. *)
Definition logs_today (logs : list LogAbsensi.t) (jid today : Z)
  : list LogAbsensi.t :=
  filter (λ r, LogAbsensi.jadwal_id r = Some jid
               ∧ date_of (LogAbsensi.waktu_absen r) = today) logs.

(** [{log.nim: log for log in logs_list}]: a later row replaces an earlier
    one of the same student. *)
Definition attendance_map (logs_list : list LogAbsensi.t)
  : gmap string LogAbsensi.t :=
  foldl (λ m log, <[LogAbsensi.nim log := log]> m) ∅ logs_list.

Record AttendanceRow := mkAttendanceRow {
  row_nim : string;
  row_nama : string;
  row_status : string;
  row_metode : string;
  row_is_disputed : bool;
  row_keterangan_report : option string;
  row_bukti_foto : option string
}.

(** The body of [for student in enrolled_students]. *)
Definition merge_student (users : list Users.t)
    (amap : gmap string LogAbsensi.t) (student : Mahasiswa.t) : AttendanceRow :=
  let log_data := amap !! Mahasiswa.nim student in
  let '(status, metode, is_disputed) :=
    match log_data with
    | Some log =>
        if LogAbsensi.is_disputed log then ("LAPOR", LogAbsensi.metode log, true)
        else if bool_decide (LogAbsensi.metode log = "ALPHA_SYSTEM")
             then ("ALPHA", LogAbsensi.metode log, false)
             else ("HADIR", LogAbsensi.metode log, false)
    | None => ("ALPHA", "-", false)
    end in
  let full_name :=
    match user_of users student with
    | Some u => Users.full_name u
    | None => "Mahasiswa " +:+ Mahasiswa.nim student
    end in
  mkAttendanceRow (Mahasiswa.nim student) full_name status metode is_disputed
    (log_data ≫= LogAbsensi.keterangan_report)
    (log_data ≫= LogAbsensi.bukti_foto).

(** The sort key [(status != 'LAPOR', status != 'HADIR', nama)]. *)
Definition sort_key (row : AttendanceRow) : bool * bool * string :=
  (negb (String.eqb (row_status row) "LAPOR"),
   negb (String.eqb (row_status row) "HADIR"),
   row_nama row).

(** Python's [<] on such tuples: the first differing component decides,
    with [False < True] and strings compared character by character. *)
Definition key_ltb (k1 k2 : bool * bool * string) : bool :=
  let '(a1, b1, s1) := k1 in
  let '(a2, b2, s2) := k2 in
  if negb (Bool.eqb a1 a2) then negb a1
  else if negb (Bool.eqb b1 b2) then negb b1
  else String.ltb s1 s2.

(** [list.sort(key=...)] is a stable sort that compares keys with [<]; it
    is given here as the stable insertion sort. *)
Fixpoint insert_row (x : AttendanceRow) (sorted : list AttendanceRow)
  : list AttendanceRow :=
  match sorted with
  | [] => [x]
  | y :: rest => if key_ltb (sort_key y) (sort_key x) then y :: insert_row x rest
                 else x :: y :: rest
  end.

Definition sort_rows (rows : list AttendanceRow) : list AttendanceRow :=
  foldr insert_row [] rows.

Definition get_session_attendance_sync (jid now : Z) (users : list Users.t)
    (db : Database) : Response (list AttendanceRow) :=
  match find_jadwal db jid with
  | None => Raise (http_exception 404 "Jadwal tidak ditemukan")
  | Some jadwal_obj =>
      if bool_decide (Jadwal.student_class_id jadwal_obj = 0)
      then Raise (http_exception 400
                    "Jadwal tidak memiliki kelas mahasiswa terdaftar")
      else
        let amap :=
          attendance_map (logs_today (log_absensi db) jid (date_of now)) in
        Ok (sort_rows
              (merge_student users amap
                 <$> enrolled_students db (Jadwal.student_class_id jadwal_obj)))
  end.

(** The order the view is sorted by: a sengketa first, then present, then
    absent, and by name inside each group. *)
Definition key_le (k1 k2 : bool * bool * string) : Prop := key_ltb k2 k1 = false.

Definition status_rank (status : string) : Z :=
  if String.eqb status "LAPOR" then 0
  else if String.eqb status "HADIR" then 1 else 2.

(** ** The evidence aggregator (the body of the video loop) *)

(** Python's slice [a[start:stop]] on an axis of length [n]: a negative
    bound counts from the end, and both bounds are clipped to the axis. *)
Definition slice_bound (n x : Z) : Z :=
  if x <? 0 then Z.max 0 (x + n) else Z.min x n.

Definition slice_len (n start stop : Z) : Z :=
  Z.max 0 (slice_bound n stop - slice_bound n start).

(** [face_crop = frame[y1:y2, x1:x2]] for a frame of shape [(h, w, 3)] and
    the box [(b0, b1, b2, b3)]: its height and width. *)
Definition crop_shape (shape : Z * Z) (bbox : Z * Z * Z * Z) : Z * Z :=
  let '(h, w) := shape in
  let '(b0, b1, b2, b3) := bbox in
  let x1 := Z.max 0 b0 in
  let y1 := Z.max 0 b1 in
  let x2 := Z.min w b2 in
  let y2 := Z.min h b3 in
  (slice_len h y1 y2, slice_len w x1 x2).

(** [face_crop.size]. *)
Definition crop_size (shape : Z * Z) (bbox : Z * Z * Z * Z) : Z :=
  (crop_shape shape bbox).1 * (crop_shape shape bbox).2 * 3.

(** [emosi[emotion] += 1] on a [defaultdict(int)]. *)
Definition tally_add (emotion : string) (emosi : list (string * Z))
  : list (string * Z) :=
  match list_find (λ kv, kv.1 = emotion) emosi with
  | Some (i, kv) => <[i := (kv.1, kv.2 + 1)]> emosi
  | None => emosi ++ [(emotion, 1)]
  end.

Definition crop_filename (task_id nim : string) (current_frame_idx : Z)
  : string :=
  task_id +:+ "_" +:+ nim +:+ "_" +:+ pretty current_frame_idx +:+ ".jpg".

Section EvidenceAggregator.
Context {ndarray : Type}.
Variable l2_normalize : ndarray → ndarray.
Variable np_dot : ndarray → ndarray → Q.
(** The index in force while the video is analysed. *)
Variable state : SystemState ndarray.
(** The emotion service, by the name of the posted file: [None] when the
    request fails or does not answer 200, otherwise the field [predicted]
    of the answer, if it has one. *)
Variable emotion_api : string → option (option string).

(** A detected face: its embedding and its box after [astype(int)]. *)
Record Face := mkFace {
  face_embedding : ndarray;
  face_bbox : Z * Z * Z * Z
}.

(** A decoded frame: its height and width, and what [face_app.get]
    returns for it. *)
Record Frame := mkFrame {
  frame_shape : Z * Z;
  frame_faces : list Face
}.

(** The body of [for face in faces]. *)
Definition see_face (task_id : string) (current_frame_idx : Z) (shape : Z * Z)
    (detected_students : gmap string Meta) (face : Face) : gmap string Meta :=
  let nim_result :=
    (identify_face_fast l2_normalize np_dot state (face_embedding face)).1 in
  if bool_decide (nim_result = "Unknown") then detected_students
  else
    let entry := default (mkMeta 0 [] None) (detected_students !! nim_result) in
    let entry := mkMeta (count entry + 1) (emosi entry) (sample entry) in
    match sample entry with
    | Some _ => <[nim_result := entry]> detected_students
    | None =>
        if 0 <? crop_size shape (face_bbox face) then
          let filename := crop_filename task_id nim_result current_frame_idx in
          let entry :=
            mkMeta (count entry) (emosi entry) (Some ("/hasil_crop/" +:+ filename)) in
          match emotion_api filename with
          | Some predicted =>
              <[nim_result :=
                  mkMeta (count entry)
                         (tally_add (default "neutral" predicted) (emosi entry))
                         (sample entry)]> detected_students
          | None => <[nim_result := entry]> detected_students
          end
        else <[nim_result := entry]> detected_students
    end.

(** One analysed frame: its offset and its content. *)
Definition analyze_frame (task_id : string)
    (detected_students : gmap string Meta) (read : Z * Frame)
  : gmap string Meta :=
  foldl (see_face task_id read.1 (frame_shape read.2)) detected_students
        (frame_faces read.2).

(** [detected_students] after the frames of a video, in reading order. *)
Definition aggregate_evidence (task_id : string) (reads : list (Z * Frame))
  : gmap string Meta :=
  foldl (analyze_frame task_id) ∅ reads.

(** The frames that the sampling loop hands to the detector: the reads
    that returned a frame, decoded by [frame_at]. *)
Definition analysed_frames (frame_at : Z → Frame) (reads : list (Z * bool))
  : list (Z * Frame) :=
  omap (λ read : Z * bool,
          if read.2 then Some (read.1, frame_at read.1) else None) reads.

(** How often a list of frames shows a face that the index takes for
    [nim]. *)
Definition sightings (nim : string) (reads : list (Z * Frame)) : Z :=
  Z.of_nat
    (List.length
       (filter (λ face,
                  (identify_face_fast l2_normalize np_dot state
                     (face_embedding face)).1 = nim)
               (reads ≫= λ read : Z * Frame, frame_faces read.2))).
End EvidenceAggregator.

Arguments Face : clear implicits.
Arguments Frame : clear implicits.
Arguments mkFace {ndarray} _ _.
Arguments mkFrame {ndarray} _ _.

(** ** Vocabulary of the further statements *)

(** A row that is still the row of the same student, session and calendar
    day, under the same primary key. *)
Definition same_identity (r r' : LogAbsensi.t) : Prop :=
  LogAbsensi.log_id r' = LogAbsensi.log_id r
  ∧ LogAbsensi.nim r' = LogAbsensi.nim r
  ∧ LogAbsensi.jadwal_id r' = LogAbsensi.jadwal_id r
  ∧ date_of (LogAbsensi.waktu_absen r') = date_of (LogAbsensi.waktu_absen r).

(** What an operation bound to session [jid] on day [today] may do to the
    rows it finds: every row stays where it is and keeps its identity, and a
    row of another session or another day stays as it is. *)
Definition bound_to_session (jid today : Z) (logs logs' : list LogAbsensi.t)
  : Prop :=
  ∀ (k : nat) r,
    logs !! k = Some r →
    ∃ r', logs' !! k = Some r' ∧ same_identity r r'
          ∧ (LogAbsensi.jadwal_id r ≠ Some jid
             ∨ date_of (LogAbsensi.waktu_absen r) ≠ today → r' = r).

(** A student may report a row when it is theirs and, if the row's session
    carries a student class, they are enrolled in that class. *)
Definition may_report (db : Database) (username : string) (r : LogAbsensi.t)
  : Prop :=
  LogAbsensi.nim r = username
  ∧ ∀ cls, report_class db r = Some cls → is_enrolled db username cls.

(** The two flags of a sort key as a number: 1 for a sengketa, 2 for
    present, 3 for absent. *)
Definition key_code (k : bool * bool * string) : Z :=
  (if k.1.1 then 2 else 0) + (if k.1.2 then 1 else 0).

(** The order of the rows of the view. *)
Definition row_le (a b : AttendanceRow) : Prop :=
  key_le (sort_key a) (sort_key b).

(** What the view shows for a student, read off the row that the ledger's
    lookup returns for them. *)
Definition shown_for (found : option LogAbsensi.t) (row : AttendanceRow) : Prop :=
  match found with
  | None =>
      row_status row = "ALPHA" ∧ row_metode row = "-"
      ∧ row_is_disputed row = false
      ∧ row_keterangan_report row = None ∧ row_bukti_foto row = None
  | Some log =>
      row_status row
      = (if LogAbsensi.is_disputed log then "LAPOR"
         else if bool_decide (LogAbsensi.metode log = "ALPHA_SYSTEM")
              then "ALPHA" else "HADIR")
      ∧ row_metode row = LogAbsensi.metode log
      ∧ row_is_disputed row = LogAbsensi.is_disputed log
      ∧ row_keterangan_report row = LogAbsensi.keterangan_report log
      ∧ row_bukti_foto row = LogAbsensi.bukti_foto log
  end.

(** Accounts of the sample students. *)
Definition sample_users : list Users.t :=
  [Users.mk 11 "S1" "x" "Citra" "mahasiswa" true;
   Users.mk 12 "S2" "x" "Budi" "mahasiswa" true;
   Users.mk 13 "S3" "x" "Andi" "mahasiswa" true].

(** The view of session 1 on the sample store after the first video. *)
Definition sample_view : list AttendanceRow :=
  [mkAttendanceRow "S2" "Budi" "HADIR" "AI_VIDEO" false None None;
   mkAttendanceRow "S1" "Citra" "HADIR" "AI_VIDEO" false None
     (Some "/hasil_crop/task-a_S1_0.jpg");
   mkAttendanceRow "S3" "Andi" "ALPHA" "-" false None None].

(** A student with a row in [mahasiswa]. *)
Definition registered (db : Database) (nim : string) : Prop :=
  ∃ m, m ∈ mahasiswa db ∧ Mahasiswa.nim m = nim.

(** [db'] is [db] with the students of [new] enrolled in class [cls]: the
    other tables are as they were, the enrollments are those of [db] and
    those of [new] in [cls], and the store still has no student twice in a
    class and no enrollment without a student. *)
Definition adds_enrollments (cls : Z) (new : string → Prop)
    (db db' : Database) : Prop :=
  mahasiswa db' = mahasiswa db ∧ jadwal db' = jadwal db
  ∧ video_tasks db' = video_tasks db ∧ log_absensi db' = log_absensi db
  ∧ log_id_seq db' = log_id_seq db
  ∧ (∀ n c, is_enrolled db' n c ↔ is_enrolled db n c ∨ (c = cls ∧ new n))
  ∧ (enrollment_unique db → enrollment_unique db')
  ∧ (enrollment_fk db → enrollment_fk db').

(** The student classes beside the sample store. *)
Definition sample_classes : list StudentClass.t :=
  [StudentClass.mk 10 "A11.4109"; StudentClass.mk 20 "A11.4110"].

(** ** Vocabulary of the statements on the evidence aggregator *)

(** [detected_students[nim]['count']], 0 for a student without an entry. *)
Definition count_of (detected_students : gmap string Meta) (nim : string) : Z :=
  default 0 (count <$> detected_students !! nim).

(** The shape of an entry that the video loop builds for [nim]: the student
    was seen, carries at most one emotion vote, and that only together with
    a sample, which is the crop of one of the frames read. *)
Definition well_formed_entry (task_id : string) (offsets : list Z)
    (nim : string) (meta : Meta) : Prop :=
  nim ≠ "Unknown" ∧ 0 < count meta
  ∧ (emosi meta = []
     ∨ ∃ label, emosi meta = [(label, 1)] ∧ is_Some (sample meta))
  ∧ (∀ path, sample meta = Some path →
       ∃ idx, idx ∈ offsets
              ∧ path = "/hasil_crop/" +:+ crop_filename task_id nim idx).

(** Two sample frames: both show the first student of [sample_state], the
    second also a face the index does not know. *)
Definition sample_frames : list (Z * Frame (list Q)) :=
  [(0, mkFrame (480, 640) [mkFace [1%Q; 0%Q] (10, 10, 50, 50)]);
   (45, mkFrame (480, 640) [mkFace [1%Q; 0%Q] (12, 10, 52, 50);
                            mkFace [(-1)%Q; 0%Q] (100, 100, 150, 150)])].

(** An emotion service that answers "happy" to every request. *)
Definition sample_emotion_api (filename : string) : option (option string) :=
  Some (Some "happy").


(** ** The history of a student ([student_get_history])

    The table [kelas] is not part of [Database]; the endpoint receives it
    beside the store. *)

Module Kelas.
Record t := mk {
  kelas_id : Z;
  nama_matkul : string;
  kode_ruang : string
}.
End Kelas.

Record HistoryRow := mkHistoryRow {
  hist_log_id : Z;
  hist_jadwal_id : option Z;
  hist_waktu_absen : Z;
  hist_metode : string;
  hist_is_disputed : bool;
  hist_keterangan_report : option string;
  hist_bukti_foto : option string;
  hist_jumlah_muncul : Z;
  hist_emosi_dominan : option string;
  hist_hari : string;
  hist_jam : option string;
  hist_matkul : string;
  hist_ruang : string
}.

(** The body of [for row in rows]. *)
Definition history_row (log : LogAbsensi.t) (j : Jadwal.t) (k : Kelas.t)
  : HistoryRow :=
  mkHistoryRow (LogAbsensi.log_id log) (LogAbsensi.jadwal_id log)
    (LogAbsensi.waktu_absen log) (LogAbsensi.metode log)
    (LogAbsensi.is_disputed log) (LogAbsensi.keterangan_report log)
    (LogAbsensi.bukti_foto log) (LogAbsensi.jumlah_muncul log)
    (LogAbsensi.emosi_dominan log) (Jadwal.hari j)
    (if bool_decide (Jadwal.jam_mulai j ≠ "" ∧ Jadwal.jam_selesai j ≠ "")
     then Some (Jadwal.jam_mulai j +:+ "-" +:+ Jadwal.jam_selesai j)
     else None)
    (Kelas.nama_matkul k) (Kelas.kode_ruang k).

(** The three joins and the [where] of the statement: one result per
    combination of a row of the student, its session, the course of the
    session and an enrollment of the student in the class of the session. *)
Definition history_join (kelas : list Kelas.t) (nim : string) (db : Database)
  : list HistoryRow :=
  log ← log_absensi db;
  j ← jadwal db;
  k ← kelas;
  e ← kelas_enrollment db;
  if bool_decide (LogAbsensi.jadwal_id log = Some (Jadwal.jadwal_id j)
                  ∧ Jadwal.kelas_id j = Some (Kelas.kelas_id k)
                  ∧ KelasEnrollment.student_class_id e = Jadwal.student_class_id j
                  ∧ KelasEnrollment.nim e = nim
                  ∧ LogAbsensi.nim log = nim)
  then [history_row log j k] else [].

(** [order_by(desc(LogAbsensi.waktu_absen))]. *)
Definition later_first (a b : HistoryRow) : Prop :=
  hist_waktu_absen b ≤ hist_waktu_absen a.

#[global] Instance later_first_dec a b : Decision (later_first a b).
Proof. unfold later_first. apply _. Defined.

Definition student_get_history (kelas : list Kelas.t) (username : string)
    (db : Database) : list HistoryRow :=
  merge_sort later_first (history_join kelas username db).

(** The course of the sample session. *)
Definition sample_kelas : list Kelas.t :=
  [Kelas.mk 7 "Kecerdasan Buatan" "H.4.1"].
(** * Properties *)

(** ** First match, filter and in-place update on rows *)

Section RowLists.
Context {A : Type} (P : A → Prop) `{!∀ x, Decision (P x)}.

Lemma list_find_snoc_miss (l : list A) (x : A) :
  ¬ P x → list_find P (l ++ [x]) = list_find P l.
Proof.
  intros Hx. induction l as [|a l IH]; simpl.
  - by rewrite decide_False.
  - case_decide; [done|]. by rewrite IH.
Qed.

Lemma list_find_snoc_new (l : list A) (x : A) :
  list_find P l = None → P x → list_find P (l ++ [x]) = Some (List.length l, x).
Proof.
  intros Hn Hx. induction l as [|a l IH]; simpl in *.
  - by rewrite decide_True.
  - case_decide; [done|].
    destruct (list_find P l) eqn:E; [done|]. by rewrite IH.
Qed.

Lemma list_find_insert_miss (l : list A) (i : nat) (x y : A) :
  l !! i = Some x → ¬ P x → ¬ P y → list_find P (<[i:=y]> l) = list_find P l.
Proof.
  revert i. induction l as [|a l IH]; intros [|i] Hi Hx Hy; simplify_eq/=.
  - by rewrite !decide_False.
  - case_decide; [done|]. by rewrite (IH i).
Qed.

Lemma list_find_insert_hit (l : list A) (i : nat) (x y : A) :
  list_find P l = Some (i, x) → P y → list_find P (<[i:=y]> l) = Some (i, y).
Proof.
  revert i. induction l as [|a l IH]; intros i Hf Hy; simpl in *; [done|].
  case_decide.
  - simplify_eq/=. by rewrite decide_True.
  - destruct (list_find P l) as [[j z]|] eqn:E; simplify_eq/=.
    rewrite decide_False by done. by rewrite (IH j).
Qed.

Lemma filter_snoc_miss (l : list A) (x : A) :
  ¬ P x → filter P (l ++ [x]) = filter P l.
Proof.
  intros Hx. rewrite filter_app, filter_cons_False, filter_nil by done.
  apply app_nil_r.
Qed.

Lemma filter_insert_miss (l : list A) (i : nat) (x y : A) :
  l !! i = Some x → ¬ P x → ¬ P y → filter P (<[i:=y]> l) = filter P l.
Proof.
  revert i. induction l as [|a l IH]; intros [|i] Hi Hx Hy; simplify_eq/=.
  - by rewrite !filter_cons_False.
  - rewrite !filter_cons. by rewrite (IH i).
Qed.
End RowLists.



Lemma elem_of_enrolled_in db nim cls :
  nim ∈ enrolled_in db cls ↔ is_enrolled db nim cls.
Proof.
  unfold enrolled_in, is_enrolled. rewrite elem_of_list_to_set, list_elem_of_fmap.
  split.
  - intros (e & -> & [He Hin]%list_elem_of_filter). eauto.
  - intros (e & Hin & Hn & Hc). exists e. split; [done|].
    apply list_elem_of_filter. done.
Qed.

Lemma find_enrollment_Some db nim cls :
  is_Some (find_enrollment db nim cls) ↔ is_enrolled db nim cls.
Proof.
  unfold find_enrollment, is_enrolled. rewrite fmap_is_Some. split.
  - intros [[i e] (Hi & [? ?] & _)%list_find_Some].
    exists e. split_and!; [|done..]. by eapply list_elem_of_lookup_2.
  - intros (e & Hin & Hn & Hc).
    eapply list_find_elem_of; [exact Hin|done].
Qed.


Lemma not_enrolled_false db j nim :
  not_enrolled (enrolled_nims_of db j) nim = false ↔ passes_enrollment db j nim.
Proof.
  unfold enrolled_nims_of, passes_enrollment, not_enrolled.
  case_bool_decide as Hc; [naive_solver|].
  rewrite bool_decide_eq_false, <- elem_of_enrolled_in.
  split; [intros ?%dec_stable; auto | intros [?|?] ?; done].
Qed.

Lemma not_enrolled_true db j nim :
  not_enrolled (enrolled_nims_of db j) nim = true ↔
  Jadwal.student_class_id j ≠ 0 ∧ ¬ is_enrolled db nim (Jadwal.student_class_id j).
Proof.
  rewrite <- not_false_iff_true, not_enrolled_false.
  unfold passes_enrollment. split.
  - intros Hn. split; intros ?; apply Hn; [by left | by right].
  - intros [Hc He] [?|?]; done.
Qed.

(** ** The automatic path, one student at a time *)

Section SmartUpsert.
Variables (task_id : string) (jid : Z) (en : option (gset string)) (now : Z).

Local Abbreviation step := (smart_upsert task_id jid en now).

Lemma smart_upsert_effect db nim meta :
  upsert_effect task_id jid en now db nim meta (step db (nim, meta)).
Proof.
  unfold smart_upsert.
  destruct (not_enrolled en nim) eqn:Hen; [by constructor|].
  destruct (find_log _ _ _ _) as [[i r]|] eqn:Hf; [|by constructor].
  case_bool_decide; [by eapply effect_merge | by eapply effect_keep].
Qed.

(** The other tables are outside the loop's reach. *)
Lemma smart_upsert_tables db entry :
  mahasiswa (step db entry) = mahasiswa db
  ∧ kelas_enrollment (step db entry) = kelas_enrollment db
  ∧ jadwal (step db entry) = jadwal db
  ∧ video_tasks (step db entry) = video_tasks db.
Proof.
  destruct entry as [nim meta].
  destruct (smart_upsert_effect db nim meta); done.
Qed.

(** A row is rewritten only if it belongs to the iteration's student and
    was written by the automatic path. *)
Lemma smart_upsert_lookup db nim meta (k : nat) (r : LogAbsensi.t) :
  log_absensi db !! k = Some r →
  LogAbsensi.nim r ≠ nim ∨ LogAbsensi.metode r ≠ "AI_VIDEO" →
  log_absensi (step db (nim, meta)) !! k = Some r.
Proof.
  intros Hk Hr.
  destruct (smart_upsert_effect db nim meta) as [|? ?|i r0 ? Hf Hm|]; simpl;
    [done| by apply lookup_app_l_Some | |done].
  apply list_find_Some in Hf as (Hi & (Hn & _) & _).
  destruct (decide (k = i)) as [->|Hne].
  - simplify_eq. destruct Hr; done.
  - by rewrite list_lookup_insert_ne.
Qed.

(** Iterations for other students leave a student's lookup alone. *)
Lemma smart_upsert_find_other db nim meta nim0 jid0 today0 :
  nim0 ≠ nim →
  find_log (log_absensi (step db (nim, meta))) nim0 jid0 today0
  = find_log (log_absensi db) nim0 jid0 today0.
Proof.
  intros Hne. unfold find_log.
  destruct (smart_upsert_effect db nim meta) as [|? ?|i r0 ? Hf Hm|]; simpl;
    [done| | |done].
  - apply list_find_snoc_miss. intros (? & _); simpl in *; congruence.
  - apply list_find_Some in Hf as (Hi & (Hn & _) & _).
    eapply list_find_insert_miss; [exact Hi| |];
      intros (? & _); simpl in *; congruence.
Qed.

Lemma smart_upsert_rows_other db nim meta nim0 :
  nim0 ≠ nim →
  rows_of nim0 (log_absensi (step db (nim, meta)))
  = rows_of nim0 (log_absensi db).
Proof.
  intros Hne. unfold rows_of.
  destruct (smart_upsert_effect db nim meta) as [|? ?|i r0 ? Hf Hm|]; simpl;
    [done| | |done].
  - apply filter_snoc_miss. simpl. congruence.
  - apply list_find_Some in Hf as (Hi & (Hn & _) & _).
    eapply filter_insert_miss; [exact Hi| |]; simpl; congruence.
Qed.
End SmartUpsert.

(** ** The automatic path over a whole evidence dictionary *)

Section UpsertLoop.
Variables (task_id : string) (jid : Z) (en : option (gset string)) (now : Z).

Local Abbreviation loop := (foldl (smart_upsert task_id jid en now)).

Lemma loop_tables entries db :
  mahasiswa (loop db entries) = mahasiswa db
  ∧ kelas_enrollment (loop db entries) = kelas_enrollment db
  ∧ jadwal (loop db entries) = jadwal db
  ∧ video_tasks (loop db entries) = video_tasks db.
Proof.
  revert db. induction entries as [|e es IH]; intros db; simpl; [done|].
  destruct (IH (smart_upsert task_id jid en now db e)) as (-> & -> & -> & ->).
  apply smart_upsert_tables.
Qed.

Lemma loop_lookup_keep entries db (k : nat) (r : LogAbsensi.t) :
  log_absensi db !! k = Some r →
  LogAbsensi.metode r ≠ "AI_VIDEO" →
  log_absensi (loop db entries) !! k = Some r.
Proof.
  revert db. induction entries as [|[nim meta] es IH]; intros db Hk Hm; simpl;
    [done|].
  apply IH; [|done]. apply smart_upsert_lookup; auto.
Qed.

Lemma loop_lookup_other entries db (k : nat) (r : LogAbsensi.t) :
  log_absensi db !! k = Some r →
  LogAbsensi.nim r ∉ entries.*1 →
  log_absensi (loop db entries) !! k = Some r.
Proof.
  revert db. induction entries as [|[nim meta] es IH]; intros db Hk Hn; simpl;
    [done|].
  apply not_elem_of_cons in Hn as [Hne Hn].
  apply IH; [|done]. apply smart_upsert_lookup; auto.
Qed.

Lemma loop_find_other entries db nim0 jid0 today0 :
  nim0 ∉ entries.*1 →
  find_log (log_absensi (loop db entries)) nim0 jid0 today0
  = find_log (log_absensi db) nim0 jid0 today0.
Proof.
  revert db. induction entries as [|[nim meta] es IH]; intros db Hn; simpl;
    [done|].
  apply not_elem_of_cons in Hn as [Hne Hn].
  rewrite IH by done. by apply smart_upsert_find_other.
Qed.

Lemma loop_rows_other entries db nim0 :
  nim0 ∉ entries.*1 →
  rows_of nim0 (log_absensi (loop db entries)) = rows_of nim0 (log_absensi db).
Proof.
  revert db. induction entries as [|[nim meta] es IH]; intros db Hn; simpl;
    [done|].
  apply not_elem_of_cons in Hn as [Hne Hn].
  rewrite IH by done. by apply smart_upsert_rows_other.
Qed.

(** A student the enrollment test turns away keeps exactly the rows they
    had, whatever the dictionary holds. *)
Lemma loop_rows_skip entries db nim0 :
  not_enrolled en nim0 = true →
  rows_of nim0 (log_absensi (loop db entries)) = rows_of nim0 (log_absensi db).
Proof.
  intros Hen. revert db.
  induction entries as [|[nim meta] es IH]; intros db; simpl; [done|].
  rewrite IH. destruct (decide (nim0 = nim)) as [->|Hne].
  - unfold smart_upsert. by rewrite Hen.
  - by apply smart_upsert_rows_other.
Qed.

(** A student whose row for this session and day was not written by the
    automatic path keeps exactly the rows they had. *)
Lemma loop_rows_keep entries db nim0 (i : nat) (r : LogAbsensi.t) :
  find_log (log_absensi db) nim0 jid (date_of now) = Some (i, r) →
  LogAbsensi.metode r ≠ "AI_VIDEO" →
  rows_of nim0 (log_absensi (loop db entries)) = rows_of nim0 (log_absensi db).
Proof.
  revert db. induction entries as [|[nim meta] es IH]; intros db Hf Hm; simpl;
    [done|].
  destruct (decide (nim0 = nim)) as [->|Hne].
  - assert (smart_upsert task_id jid en now db (nim, meta) = db) as ->; [|eauto].
    unfold smart_upsert. destruct (not_enrolled en nim); [done|].
    rewrite Hf. by rewrite bool_decide_eq_false_2.
  - rewrite IH; [by apply smart_upsert_rows_other| |done].
    by rewrite smart_upsert_find_other.
Qed.

(** The merge: the row the lookup returns for an admitted student is an
    automatic one, the dictionary holds evidence for them, and the loop adds
    the evidence count to that row and to nothing else of it. *)
Lemma loop_merge entries db nim meta (i : nat) (r : LogAbsensi.t) :
  NoDup entries.*1 →
  (nim, meta) ∈ entries →
  not_enrolled en nim = false →
  find_log (log_absensi db) nim jid (date_of now) = Some (i, r) →
  LogAbsensi.metode r = "AI_VIDEO" →
  find_log (log_absensi (loop db entries)) nim jid (date_of now)
  = Some (i, LogAbsensi.add_jumlah_muncul (count meta) r).
Proof.
  revert db. induction entries as [|[nim' meta'] es IH];
    intros db Hnd Hin Hen Hf Hm; [by apply elem_of_nil in Hin|].
  simpl in *. apply NoDup_cons in Hnd as [Hfresh Hnd].
  apply elem_of_cons in Hin as [Heq|Hin].
  - simplify_eq. rewrite loop_find_other by done.
    unfold smart_upsert. rewrite Hen, Hf, bool_decide_eq_true_2 by done. simpl.
    eapply list_find_insert_hit; [exact Hf|].
    apply list_find_Some in Hf as (_ & Hp & _). exact Hp.
  - assert (nim ≠ nim') as Hne.
    { intros ->. apply Hfresh. apply list_elem_of_fmap. by exists (nim', meta). }
    apply IH; [done..| |done]. by rewrite smart_upsert_find_other.
Qed.

(** The first evidence: an admitted student without a row for this session
    and day receives one, built from the evidence alone. *)
Lemma loop_insert entries db nim meta :
  NoDup entries.*1 →
  (nim, meta) ∈ entries →
  not_enrolled en nim = false →
  find_log (log_absensi db) nim jid (date_of now) = None →
  ∃ (i : nat) (id : Z),
    find_log (log_absensi (loop db entries)) nim jid (date_of now)
    = Some (i, LogAbsensi.mk id (Some task_id) nim (Some jid) now "AI_VIDEO"
                 (count meta) (Some (dominant_emotion meta)) (sample meta)
                 false None).
Proof.
  revert db. induction entries as [|[nim' meta'] es IH];
    intros db Hnd Hin Hen Hf; [by apply elem_of_nil in Hin|].
  simpl in *. apply NoDup_cons in Hnd as [Hfresh Hnd].
  apply elem_of_cons in Hin as [Heq|Hin].
  - simplify_eq. exists (List.length (log_absensi db)), (log_id_seq db).
    rewrite loop_find_other by done.
    unfold smart_upsert. rewrite Hen, Hf. simpl.
    apply list_find_snoc_new; [exact Hf|done].
  - assert (nim ≠ nim') as Hne.
    { intros ->. apply Hfresh. apply list_elem_of_fmap. by exists (nim', meta). }
    apply IH; [done..|]. by rewrite smart_upsert_find_other.
Qed.
End UpsertLoop.

Lemma complete_task_tables task_id db :
  mahasiswa (complete_task task_id db) = mahasiswa db
  ∧ kelas_enrollment (complete_task task_id db) = kelas_enrollment db
  ∧ jadwal (complete_task task_id db) = jadwal db
  ∧ log_absensi (complete_task task_id db) = log_absensi db
  ∧ log_id_seq (complete_task task_id db) = log_id_seq db.
Proof. unfold complete_task. by destruct (list_find _ _) as [[??]|]. Qed.

(** A run on an existing session: the outcome and the loop it amounts to. *)
Lemma analyzer_unfold task_id jid detected now db j :
  find_jadwal db jid = Some j →
  background_video_analyzer task_id jid detected now db
  = (completed,
     foldl (smart_upsert task_id jid (enrolled_nims_of db j) now)
           (complete_task task_id db) (map_to_list detected)).
Proof.
  intros Hj. unfold background_video_analyzer.
  destruct (complete_task_tables task_id db) as (_ & He & Hjs & _).
  unfold find_jadwal in *. rewrite Hjs, Hj.
  unfold enrolled_nims_of, enrolled_in. by rewrite He.
Qed.

Lemma analyzer_missing task_id jid detected now db :
  find_jadwal db jid = None →
  background_video_analyzer task_id jid detected now db
  = (failed "Jadwal tidak ditemukan", db).
Proof.
  intros Hj. unfold background_video_analyzer.
  destruct (complete_task_tables task_id db) as (_ & _ & Hjs & _).
  unfold find_jadwal in *. by rewrite Hjs, Hj.
Qed.

(** ** Manual entry *)

Lemma log_matches_force_manual nim jid now r :
  log_matches nim jid (date_of now) r →
  log_matches nim jid (date_of now) (LogAbsensi.force_manual now r).
Proof. intros (? & ? & ?). by split_and!. Qed.

Lemma manual_absen_raises data now db :
  (∀ j, find_jadwal db (manual_jadwal_id data) = Some j →
        ¬ is_enrolled db (manual_nim data) (Jadwal.student_class_id j)) →
  ∃ e, endpoint_manual_absen data now db = Raise e.
Proof.
  intros Hne. unfold endpoint_manual_absen.
  destruct (list_find _ (mahasiswa db)); [|by eexists].
  destruct (find_jadwal db _) as [j|] eqn:Hj; [|by eexists].
  destruct (find_enrollment db _ _) eqn:He; [|by eexists].
  destruct (Hne j eq_refl). apply find_enrollment_Some. by rewrite He.
Qed.

Lemma manual_absen_accepts data now db j :
  enrollment_fk db →
  find_jadwal db (manual_jadwal_id data) = Some j →
  is_enrolled db (manual_nim data) (Jadwal.student_class_id j) →
  ∃ msg,
    endpoint_manual_absen data now db
    = Ok (msg,
          match find_log (log_absensi db) (manual_nim data)
                  (manual_jadwal_id data) (date_of now) with
          | Some (i, existing_log) =>
              set_log_absensi
                (<[i := LogAbsensi.force_manual now existing_log]>
                   (log_absensi db)) db
          | None =>
              db_add (λ id, LogAbsensi.mk id None (manual_nim data)
                              (Some (manual_jadwal_id data)) now "MANUAL_DOSEN"
                              1 (Some "Manual Input") None false None) db
          end).
Proof.
  intros Hfk Hj He. unfold endpoint_manual_absen.
  destruct (list_find _ (mahasiswa db)) eqn:Hm.
  - rewrite Hj. apply find_enrollment_Some in He as [e ->].
    destruct (find_log _ _ _ _) as [[i r]|]; by eexists.
  - apply list_find_None in Hm. destruct He as (e & Hin & Hn & _).
    destruct (Hfk e Hin) as (m & Hmin & Hmn).
    rewrite Forall_forall in Hm. destruct (Hm m Hmin). congruence.
Qed.

(** ** Closing a session *)

Lemma elem_of_enrolled_with_face db nim cls :
  nim ∈ enrolled_with_face db cls ↔ is_enrolled db nim cls ∧ has_face db nim.
Proof.
  unfold enrolled_with_face, is_enrolled, has_face.
  rewrite elem_of_list_to_set, list_elem_of_bind. split.
  - intros (m & Hin & Hm). apply list_elem_of_bind in Hin as (e & Hin & He).
    case_bool_decide as Hc; [|by apply elem_of_nil in Hin].
    apply list_elem_of_singleton in Hin as ->.
    destruct Hc as (Hn & Hcls & Hface). split; [exists e | exists m]; done.
  - intros [(e & He & Hn & Hcls) (m & Hm & Hmn & Hface)].
    exists m. split; [|done]. apply list_elem_of_bind. exists e. split; [|done].
    rewrite bool_decide_eq_true_2 by (split_and!; [congruence|done..]).
    rewrite Hmn. apply list_elem_of_here.
Qed.

Lemma elem_of_present_today logs nim jid today :
  nim ∈ present_today logs jid today ↔ recorded_today logs nim jid today.
Proof.
  unfold present_today, recorded_today.
  rewrite elem_of_list_to_set, list_elem_of_fmap. split.
  - intros (r & -> & [[? ?] ?]%list_elem_of_filter). by exists r.
  - intros (r & Hin & Hn & Hj & Hd). exists r. split; [done|].
    by apply list_elem_of_filter.
Qed.

Lemma alpha_rows_nims nims jid now seq :
  LogAbsensi.nim <$> alpha_rows nims jid now seq = nims.
Proof.
  revert seq. induction nims as [|n ns IH]; intros seq; simpl; [done|].
  by rewrite IH.
Qed.

Lemma alpha_rows_keys nims jid now seq :
  log_key <$> alpha_rows nims jid now seq
  = (λ n, (n, Some jid, date_of now)) <$> nims.
Proof.
  revert seq. induction nims as [|n ns IH]; intros seq; simpl; [done|].
  by rewrite IH.
Qed.

Lemma alpha_rows_shape nims jid now seq :
  Forall (λ r, LogAbsensi.metode r = "ALPHA_SYSTEM"
               ∧ LogAbsensi.jumlah_muncul r = 0
               ∧ LogAbsensi.jadwal_id r = Some jid
               ∧ LogAbsensi.waktu_absen r = now
               ∧ LogAbsensi.emosi_dominan r = None
               ∧ LogAbsensi.is_disputed r = false)
         (alpha_rows nims jid now seq).
Proof.
  revert seq. induction nims as [|n ns IH]; intros seq; simpl; [done|].
  constructor; [done|apply IH].
Qed.

(** The loop of [close_class_session] appends one row per absentee. *)
Lemma mark_alpha_loop present jid now nims db c :
  foldl (mark_alpha present jid now) (db, c) nims
  = (mkDatabase (mahasiswa db) (kelas_enrollment db) (jadwal db) (video_tasks db)
       (log_absensi db
        ++ alpha_rows (filter (λ n, n ∉ present) nims) jid now (log_id_seq db))
       (log_id_seq db + Z.of_nat (List.length (filter (λ n, n ∉ present) nims))),
     c + Z.of_nat (List.length (filter (λ n, n ∉ present) nims))).
Proof.
  revert db c. induction nims as [|n ns IH]; intros db c; simpl.
  - rewrite app_nil_r, !Z.add_0_r. by destruct db.
  - unfold mark_alpha at 2. rewrite filter_cons.
    case_bool_decide as Hn; simpl.
    + rewrite decide_True by done. rewrite IH. simpl.
      rewrite <- app_assoc. simpl. f_equal; [f_equal|]; lia.
    + rewrite decide_False by auto. apply IH.
Qed.

Lemma close_unfold jid now db j :
  find_jadwal db jid = Some j →
  let present := present_today (log_absensi db) jid (date_of now) in
  let absent :=
    filter (λ n, n ∉ present)
           (elements (enrolled_with_face db (Jadwal.student_class_id j))) in
  close_class_session jid now db
  = Ok (mkCloseSummary (Z.of_nat (size present)) (Z.of_nat (List.length absent)),
        close_video_tasks jid
          (mkDatabase (mahasiswa db) (kelas_enrollment db) (jadwal db)
             (video_tasks db)
             (log_absensi db ++ alpha_rows absent jid now (log_id_seq db))
             (log_id_seq db + Z.of_nat (List.length absent)))).
Proof.
  intros Hj. simpl. unfold close_class_session. rewrite Hj.
  by rewrite mark_alpha_loop.
Qed.

Lemma close_video_tasks_idemp jid db :
  close_video_tasks jid (close_video_tasks jid db) = close_video_tasks jid db.
Proof.
  unfold close_video_tasks, set_video_tasks. simpl. f_equal.
  rewrite <- list_fmap_compose. apply list_fmap_ext. intros _ v _. simpl.
  destruct (bool_decide (VideoTask.jadwal_id v = Some jid)) eqn:Hv.
  - apply bool_decide_eq_true in Hv. simpl. by rewrite bool_decide_eq_true_2.
  - by rewrite Hv.
Qed.

Lemma filter_none {A} (P : A → Prop) `{!∀ x, Decision (P x)} (l : list A) :
  (∀ x, x ∈ l → ¬ P x) → filter P l = [].
Proof.
  induction l as [|a l IH]; intros Hall; [done|].
  rewrite filter_cons_False by (apply Hall; left).
  apply IH. intros x Hx. apply Hall. by right.
Qed.

(** Who the loop of [close_class_session] marks: the enrolled students with
    a face, minus the students already recorded, each of them once. *)
Lemma absentees_spec db jid today cls :
  let absent :=
    filter (λ n, n ∉ present_today (log_absensi db) jid today)
           (elements (enrolled_with_face db cls)) in
  NoDup absent
  ∧ ∀ nim, nim ∈ absent ↔
           (is_enrolled db nim cls ∧ has_face db nim)
           ∧ ¬ recorded_today (log_absensi db) nim jid today.
Proof.
  simpl. split; [apply NoDup_filter, NoDup_elements|].
  intros nim.
  by rewrite list_elem_of_filter, elem_of_elements, elem_of_enrolled_with_face,
    elem_of_present_today, (comm and).
Qed.

Lemma present_after_close logs nims jid now seq today nim :
  date_of now = today →
  nim ∈ present_today logs jid today ∨ nim ∈ nims →
  nim ∈ present_today (logs ++ alpha_rows nims jid now seq) jid today.
Proof.
  intros Hd H. apply elem_of_present_today.
  destruct H as [(r & Hin & Hr)%elem_of_present_today | Hin].
  - exists r. split; [|done]. apply elem_of_app. by left.
  - revert seq. induction Hin as [n ns|n m ns _ IH]; intros seq; simpl.
    + exists (alpha_log n jid now seq). split; [|done].
      apply elem_of_app. right. left.
    + destruct (IH (seq + 1)) as (r & [Hr|Hr]%elem_of_app & Hrest);
        exists r; (split; [|done]); apply elem_of_app; [by left|].
      right. by right.
Qed.

(** ** The strict-binding invariant under the ledger operations *)

Lemma find_log_None_key logs nim jid today :
  find_log logs nim jid today = None →
  (nim, Some jid, today) ∉ log_key <$> logs.
Proof.
  intros Hf (r & Hk & Hin)%list_elem_of_fmap.
  apply list_find_None in Hf. rewrite Forall_forall in Hf.
  apply (Hf r Hin). unfold log_key in Hk. by simplify_eq.
Qed.

Lemma unique_snoc logs r :
  unique_per_day logs → log_key r ∉ log_key <$> logs →
  unique_per_day (logs ++ [r]).
Proof.
  unfold unique_per_day. intros Hu Hr. rewrite fmap_app. apply NoDup_app.
  split_and!; [done| |apply NoDup_singleton].
  intros k Hk ->%list_elem_of_singleton. done.
Qed.

Lemma unique_insert logs (i : nat) r r' :
  unique_per_day logs → logs !! i = Some r → log_key r' = log_key r →
  unique_per_day (<[i := r']> logs).
Proof.
  unfold unique_per_day. intros Hu Hi Hk.
  rewrite list_fmap_insert, Hk, list_insert_id; [done|].
  by rewrite list_lookup_fmap, Hi.
Qed.

Lemma smart_upsert_unique task_id jid en now db entry :
  unique_per_day (log_absensi db) →
  unique_per_day (log_absensi (smart_upsert task_id jid en now db entry)).
Proof.
  intros Hu. destruct entry as [nim meta].
  destruct (smart_upsert_effect task_id jid en now db nim meta)
    as [|? Hf|i r ? Hf Hm|]; simpl; [done| | |done].
  - apply unique_snoc; [done|]. by apply find_log_None_key.
  - apply list_find_Some in Hf as (Hi & _ & _).
    by eapply unique_insert.
Qed.

Lemma loop_unique task_id jid en now entries db :
  unique_per_day (log_absensi db) →
  unique_per_day
    (log_absensi (foldl (smart_upsert task_id jid en now) db entries)).
Proof.
  revert db. induction entries as [|e es IH]; intros db Hu; simpl; [done|].
  by apply IH, smart_upsert_unique.
Qed.

Lemma analyzer_unique task_id jid detected now db :
  unique_per_day (log_absensi db) →
  unique_per_day
    (log_absensi (background_video_analyzer task_id jid detected now db).2).
Proof.
  intros Hu. destruct (find_jadwal db jid) as [j|] eqn:Hj.
  - rewrite (analyzer_unfold _ _ _ _ _ j Hj). simpl. apply loop_unique.
    destruct (complete_task_tables task_id db) as (_ & _ & _ & -> & _). done.
  - by rewrite analyzer_missing.
Qed.

Lemma manual_absen_unique data now db :
  unique_per_day (log_absensi db) →
  unique_per_day
    (log_absensi (store_after (endpoint_manual_absen data now db) db)).
Proof.
  intros Hu. unfold endpoint_manual_absen.
  destruct (list_find _ (mahasiswa db)); [|done].
  destruct (find_jadwal db _); [|done].
  destruct (find_enrollment db _ _); [|done].
  destruct (find_log _ _ _ _) as [[i r]|] eqn:Hf; simpl.
  - apply list_find_Some in Hf as (Hi & (_ & _ & Hd) & _).
    eapply unique_insert; [done..|]. unfold log_key. simpl. by rewrite Hd.
  - apply unique_snoc; [done|]. by apply find_log_None_key.
Qed.

Lemma close_unique jid now db :
  unique_per_day (log_absensi db) →
  unique_per_day
    (log_absensi (store_after (close_class_session jid now db) db)).
Proof.
  intros Hu. destruct (find_jadwal db jid) as [j|] eqn:Hj.
  - pose proof (close_unfold jid now db j Hj) as Hc. cbv zeta in Hc.
    rewrite Hc. simpl.
    destruct (absentees_spec db jid (date_of now) (Jadwal.student_class_id j))
      as [Hnd Hin].
    unfold unique_per_day. rewrite fmap_app, alpha_rows_keys.
    apply NoDup_app. split_and!; [done| |].
    + intros k (r & -> & Hr)%list_elem_of_fmap (n & Hk & Hn)%list_elem_of_fmap.
      apply Hin in Hn as [_ Hrec]. apply Hrec. exists r.
      unfold log_key in Hk. by simplify_eq.
    + apply NoDup_fmap_2; [|done]. by intros n1 n2 [= ->].
  - unfold close_class_session. by rewrite Hj.
Qed.

(** ** The identity index *)

Lemma Qltb_lt (x y : Q) : Qltb x y = true ↔ (x < y)%Q.
Proof.
  unfold Qltb. rewrite negb_true_iff, <- not_true_iff_false, Qle_bool_iff.
  split; [apply Qnot_le_lt | apply Qlt_not_le].
Qed.

Lemma Qltb_ge (x y : Q) : Qltb x y = false ↔ (y <= x)%Q.
Proof. unfold Qltb. by rewrite negb_false_iff, Qle_bool_iff. Qed.

(** [argmax_from] continues a scan: with [best] the first largest entry of
    the part already seen, it returns the first largest entry of the whole. *)
Lemma argmax_from_spec (rest seen : list Q) (best_idx : nat) (best : Q) :
  seen !! best_idx = Some best →
  (∀ (k : nat) s, seen !! k = Some s → (s <= best)%Q) →
  (∀ (k : nat) s, (k < best_idx)%nat → seen !! k = Some s → (s < best)%Q) →
  ∃ s, (seen ++ rest) !! argmax_from best_idx best (List.length seen) rest = Some s
       ∧ (∀ (k : nat) s', (seen ++ rest) !! k = Some s' → (s' <= s)%Q)
       ∧ (∀ (k : nat) s',
            (k < argmax_from best_idx best (List.length seen) rest)%nat →
            (seen ++ rest) !! k = Some s' → (s' < s)%Q).
Proof.
  revert seen best_idx best.
  induction rest as [|x rest IH]; intros seen best_idx best Hb Hmax Hfirst.
  - simpl. rewrite app_nil_r. eauto.
  - simpl. replace (seen ++ x :: rest) with ((seen ++ [x]) ++ rest)
      by (by rewrite <- app_assoc).
    replace (S (List.length seen)) with (List.length (seen ++ [x]))
      by (rewrite length_app; simpl; lia).
    destruct (Qltb best x) eqn:Hlt.
    + apply Qltb_lt in Hlt. apply IH.
      * by rewrite lookup_app_r, Nat.sub_diag.
      * intros k s [Hk|[_ Hk]]%lookup_app_Some.
        -- eapply Qle_trans; [by eapply Hmax|by apply Qlt_le_weak].
        -- destruct (k - List.length seen)%nat; simplify_eq/=. apply Qle_refl.
      * intros k s Hk Hs. rewrite lookup_app_l in Hs by done.
        eapply Qle_lt_trans; [by eapply Hmax|done].
    + apply Qltb_ge in Hlt. apply IH.
      * by apply lookup_app_l_Some.
      * intros k s [Hk|[_ Hk]]%lookup_app_Some; [by eapply Hmax|].
        destruct (k - List.length seen)%nat; by simplify_eq/=.
      * intros k s Hk Hs. apply (Hfirst k s Hk).
        apply lookup_lt_Some in Hb. by rewrite lookup_app_l in Hs by lia.
Qed.

Lemma np_argmax_spec (scores : list Q) :
  scores ≠ [] →
  ∃ (best_idx : nat) max_score,
    np_argmax scores = Some best_idx
    ∧ scores !! best_idx = Some max_score
    ∧ (∀ (k : nat) s, scores !! k = Some s → (s <= max_score)%Q)
    ∧ (∀ (k : nat) s, (k < best_idx)%nat → scores !! k = Some s →
                      (s < max_score)%Q).
Proof.
  destruct scores as [|x rest]; [done|]. intros _. simpl.
  destruct (argmax_from_spec rest [x] 0 x) as (s & Hs & Hmax & Hfirst).
  - done.
  - intros [|k] s Hk; simplify_eq/=. apply Qle_refl.
  - intros k s Hk. lia.
  - exists (argmax_from 0 x 1 rest), s. simpl in *. eauto.
Qed.

Section IdentityIndexFacts.
Context {ndarray : Type}.
Variable np_array : list Q → option ndarray.
Variable l2_normalize : ndarray → ndarray.
Variable np_dot : ndarray → ndarray → Q.

Lemma load_rows_paired rows :
  List.length (load_rows np_array l2_normalize rows).1
  = List.length (load_rows np_array l2_normalize rows).2.
Proof.
  induction rows as [|[nim v] rows IH]; simpl; [done|].
  destruct (load_rows np_array l2_normalize rows) as [ids vs].
  destruct (np_array v); simpl in *; lia.
Qed.

(** A row is left out exactly when its embedding does not load. *)
Lemma load_rows_nil rows :
  (load_rows np_array l2_normalize rows).2 = []
  ↔ Forall (λ row, np_array row.2 = None) rows.
Proof.
  induction rows as [|[nim v] rows IH]; simpl; [by split|].
  destruct (load_rows np_array l2_normalize rows) as [ids vs].
  rewrite Forall_cons. simpl in *.
  destruct (np_array v); simpl; [split; [done|by intros [? _]]|].
  rewrite IH. split; [by split | by intros [_ ?]].
Qed.

Lemma initial_state_paired : index_paired (initial_state (ndarray:=ndarray)).
Proof. by intros m. Qed.

(** The rows of a reloaded matrix are normalised vectors, so a dot product
    with a normalised input is a cosine similarity. *)
Lemma load_rows_normalized rows :
  Forall (λ row, ∃ v, row = l2_normalize v)
         (load_rows np_array l2_normalize rows).2.
Proof.
  induction rows as [|[nim v] rows IH]; simpl; [done|].
  destruct (load_rows np_array l2_normalize rows) as [ids vs].
  destruct (np_array v) as [arr|]; simpl in *; [|done].
  constructor; [by exists arr | done].
Qed.

(** Every reload leaves ids and matrix rows in pairs. *)
Lemma reload_paired fetch now (state : SystemState ndarray) :
  index_paired state →
  index_paired (reload_face_database_async np_array l2_normalize fetch now state).
Proof.
  intros Hp. destruct fetch as [rows|e]; [|done]. simpl.
  pose proof (load_rows_paired rows) as Hl.
  destruct (load_rows np_array l2_normalize rows) as [ids [|v vs]];
    intros m Hm; simplify_eq/=. done.
Qed.
End IdentityIndexFacts.

(** ** The frame sampling loops *)

Lemma sampling_run_single cap step total idx r :
  r = read_ok cap idx →
  r = false ∨ total ≤ idx + step →
  sampling_run cap step total idx [(idx, r)].
Proof.
  intros Hr Hend. unfold sampling_run. split_and!.
  - done.
  - simpl. f_equal. lia.
  - intros [|k] o r' Hk; by simplify_eq/=.
  - intros k o r' _ Hk. simpl in Hk. lia.
  - intros o r' [= <- <-]. done.
Qed.

Lemma sampling_run_cons cap step total idx reads :
  read_ok cap idx = true →
  idx + step < total →
  sampling_run cap step total (idx + step) reads →
  sampling_run cap step total idx ((idx, true) :: reads).
Proof.
  intros Hr Hlt (Hne & Hoff & Hret & Hmid & Hlast). unfold sampling_run.
  split_and!.
  - done.
  - change (List.length ((idx, true) :: reads)) with (S (List.length reads)).
    rewrite <- cons_seq, !fmap_cons, Hoff. f_equal; [simpl; lia|].
    rewrite <- fmap_S_seq, <- list_fmap_compose.
    apply list_fmap_ext. intros _ k _. simpl. lia.
  - intros [|k] o r Hk; simplify_eq/=; [done|]. by eapply Hret.
  - intros [|k] o r Hk Hlen; simplify_eq/=; [done|].
    eapply Hmid; [done|lia].
  - destruct reads as [|p reads]; [done|].
    rewrite last_cons_cons. exact Hlast.
Qed.

(** With a positive step the loop reaches a [break] within
    [frame_count - start + 1] iterations (one iteration when the start is
    already at or beyond the frame count). *)
Lemma video_loop_run cap step total :
  0 < step →
  ∀ (n : nat) idx,
    total - idx ≤ Z.of_nat n →
    ∃ reads,
      (∀ fuel, (S n ≤ fuel)%nat → video_loop fuel cap step total idx = Some reads)
      ∧ sampling_run cap step total idx reads
      ∧ (List.length reads ≤ S n)%nat.
Proof.
  intros Hstep. induction n as [|n IH]; intros idx Hn.
  - destruct (read_ok cap idx) eqn:Hr.
    + exists [(idx, true)]. split_and!; [|apply sampling_run_single; auto; lia|done].
      intros [|fuel] Hf; [lia|]. simpl. rewrite Hr.
      by rewrite (proj2 (Z.leb_le _ _)) by lia.
    + exists [(idx, false)]. split_and!; [|apply sampling_run_single; auto|done].
      intros [|fuel] Hf; [lia|]. simpl. by rewrite Hr.
  - destruct (read_ok cap idx) eqn:Hr.
    + destruct (decide (total ≤ idx + step)) as [Hge|Hlt].
      * exists [(idx, true)].
        split_and!; [|apply sampling_run_single; auto|simpl; lia].
        intros [|fuel] Hf; [lia|]. simpl. rewrite Hr.
        by rewrite (proj2 (Z.leb_le _ _)) by lia.
      * destruct (IH (idx + step)) as (reads & Hrun & Hok & Hlen); [lia|].
        exists ((idx, true) :: reads).
        split_and!; [|apply sampling_run_cons; auto; lia|simpl; lia].
        intros [|fuel] Hf; [lia|]. simpl. rewrite Hr.
        rewrite (proj2 (Z.leb_gt _ _)) by lia.
        by rewrite Hrun by lia.
    + exists [(idx, false)].
      split_and!; [|apply sampling_run_single; auto|simpl; lia].
      intros [|fuel] Hf; [lia|]. simpl. by rewrite Hr.
Qed.

(** With a step of zero the loop asks for the same readable frame for
    ever. *)
Lemma video_loop_stalls cap total idx :
  read_ok cap idx = true → idx < total →
  ∀ fuel, video_loop fuel cap 0 total idx = None.
Proof.
  intros Hr Hlt. induction fuel as [|fuel IH]; simpl; [done|].
  rewrite Hr, Z.add_0_r, (proj2 (Z.leb_gt _ _)) by lia. by rewrite IH.
Qed.

Lemma frame_jump_pos_fps cap : 0 < frame_jump cap → Qeq_bool (fps cap) 0 = false.
Proof.
  intros Hpos. apply not_true_iff_false. intros Heq%Qeq_bool_iff.
  unfold frame_jump, py_int in Hpos. unfold Qeq in Heq. simpl in *.
  assert (Qnum (fps cap) = 0) as Hz by lia.
  rewrite Hz, Z.mul_0_l, Z.quot_0_l in Hpos; lia.
Qed.

(** Away from its two divisions by zero, the loop of the helper is the loop
    of the analyser. *)
Lemma extractor_loop_video_loop cap :
  frame_count cap ≠ 0 → Qeq_bool (fps cap) 0 = false →
  ∀ fuel pos,
    extractor_loop fuel cap pos
    = (λ reads, (reads, loop_break))
        <$> video_loop fuel cap (frame_jump cap) (frame_count cap) pos.
Proof.
  intros Hc Hf. induction fuel as [|fuel IH]; intros pos; simpl; [done|].
  rewrite (proj2 (Z.eqb_neq _ _)) by done. rewrite Hf.
  destruct (read_ok cap pos); [|done].
  destruct (frame_count cap <=? pos + frame_jump cap); [done|].
  rewrite IH. by destruct (video_loop _ _ _ _ _).
Qed.

(** * The claims *)

Lemma analyzer_tables task_id jid detected now db :
  let db' := (background_video_analyzer task_id jid detected now db).2 in
  mahasiswa db' = mahasiswa db
  ∧ kelas_enrollment db' = kelas_enrollment db
  ∧ jadwal db' = jadwal db.
Proof.
  simpl. destruct (find_jadwal db jid) as [j|] eqn:Hj.
  - rewrite (analyzer_unfold _ _ _ _ _ j Hj). simpl.
    destruct (loop_tables task_id jid (enrolled_nims_of db j) now
                (map_to_list detected) (complete_task task_id db))
      as (-> & -> & -> & _).
    destruct (complete_task_tables task_id db) as (-> & -> & -> & _). done.
  - by rewrite analyzer_missing.
Qed.

Lemma analyzer_entry (detected : gmap string Meta) nim meta :
  detected !! nim = Some meta →
  NoDup (map_to_list detected).*1 ∧ (nim, meta) ∈ map_to_list detected.
Proof.
  intros H. split; [apply NoDup_fst_map_to_list | by apply elem_of_map_to_list].
Qed.

(** C2.  A row whose method is MANUAL_DOSEN or ALPHA_SYSTEM is left exactly
    as it is by a run of the automatic path, at the place where it was: no
    field of it changes.  When that row is the one the lookup returns for
    its student, this session and today, the run neither adds nor changes
    any row of that student. *)
Theorem auto_evidence_keeps_manual_rows
    task_id jid detected now db (k : nat) (r : LogAbsensi.t) :
  log_absensi db !! k = Some r →
  LogAbsensi.metode r = "MANUAL_DOSEN" ∨ LogAbsensi.metode r = "ALPHA_SYSTEM" →
  let db' := (background_video_analyzer task_id jid detected now db).2 in
  log_absensi db' !! k = Some r
  ∧ (find_log (log_absensi db) (LogAbsensi.nim r) jid (date_of now) = Some (k, r) →
     rows_of (LogAbsensi.nim r) (log_absensi db')
     = rows_of (LogAbsensi.nim r) (log_absensi db)).
Proof.
  intros Hk Hm. simpl.
  assert (LogAbsensi.metode r ≠ "AI_VIDEO") as Hne by (destruct Hm as [-> | ->]; done).
  destruct (find_jadwal db jid) as [j|] eqn:Hj.
  - rewrite (analyzer_unfold _ _ _ _ _ j Hj). simpl.
    destruct (complete_task_tables task_id db) as (_ & _ & _ & Hl & _).
    split.
    + apply loop_lookup_keep; [by rewrite Hl | done].
    + intros Hf. rewrite <- Hl.
      eapply loop_rows_keep; [by rewrite Hl | done].
  - by rewrite analyzer_missing.
Qed.

Lemma auto_evidence_keeps_manual_rows_witness :
  log_absensi sample_db_manual !! 0%nat
  = Some (LogAbsensi.mk 1 None "S1" (Some 1) 50 "MANUAL_DOSEN" 1
            (Some "Manual Input") None false None)
  ∧ log_absensi
      (background_video_analyzer "task-a" 1 evidence_a 100 sample_db_manual).2
    !! 0%nat
    = Some (LogAbsensi.mk 1 None "S1" (Some 1) 50 "MANUAL_DOSEN" 1
              (Some "Manual Input") None false None).
Proof.
  split; [reflexivity|].
  apply (auto_evidence_keeps_manual_rows "task-a" 1 evidence_a 100
           sample_db_manual 0);
    [reflexivity | left; reflexivity].
Defined.

(** C4.  On a session that carries a student class, evidence for a student
    who is not enrolled in that class is skipped without error: the run
    completes, and the rows of that student (for this session as for any
    other) are exactly the rows they had before. *)
Theorem auto_evidence_skips_unenrolled task_id jid detected now db j nim :
  find_jadwal db jid = Some j →
  Jadwal.student_class_id j ≠ 0 →
  ¬ is_enrolled db nim (Jadwal.student_class_id j) →
  (background_video_analyzer task_id jid detected now db).1 = completed
  ∧ rows_of nim
      (log_absensi (background_video_analyzer task_id jid detected now db).2)
    = rows_of nim (log_absensi db).
Proof.
  intros Hj Hc He. rewrite (analyzer_unfold _ _ _ _ _ j Hj). simpl.
  split; [done|].
  destruct (complete_task_tables task_id db) as (_ & _ & _ & Hl & _).
  rewrite <- Hl. apply loop_rows_skip. by apply not_enrolled_true.
Qed.

Lemma sample_S9_not_enrolled : ¬ is_enrolled sample_db "S9" 10.
Proof.
  rewrite <- elem_of_enrolled_in.
  apply (bool_decide_unpack ("S9" ∉ enrolled_in sample_db 10)).
  vm_compute. exact I.
Defined.

Lemma auto_evidence_skips_unenrolled_witness :
  (find_jadwal sample_db 1 = Some sample_jadwal
   ∧ Jadwal.student_class_id sample_jadwal ≠ 0
   ∧ ¬ is_enrolled sample_db "S9" (Jadwal.student_class_id sample_jadwal))
  ∧ (background_video_analyzer "task-b" 1 evidence_b 100 sample_db).1 = completed
  ∧ rows_of "S9"
      (log_absensi (background_video_analyzer "task-b" 1 evidence_b 100 sample_db).2)
    = rows_of "S9" (log_absensi sample_db).
Proof.
  assert (find_jadwal sample_db 1 = Some sample_jadwal) as Hj by reflexivity.
  assert (Jadwal.student_class_id sample_jadwal ≠ 0) as Hc by (simpl; lia).
  split; [split_and!; [exact Hj | exact Hc | exact sample_S9_not_enrolled]|].
  exact (auto_evidence_skips_unenrolled "task-b" 1 evidence_b 100 sample_db
           sample_jadwal "S9" Hj Hc sample_S9_not_enrolled).
Defined.

(** C1, as the code has it.  For a student whom the enrollment test of the
    session lets through (enrolled in the session's class, or the session
    carries no class id):
    - if the lookup for (student, session, today) returns an AI_VIDEO row,
      a run whose evidence holds the student adds the evidence count to
      [jumlah_muncul] of that row and changes nothing else of it, so
      [bukti_foto] and [emosi_dominan] stay;
    - starting without such a row, two runs on the same day leave one
      AI_VIDEO row whose [jumlah_muncul] is the sum of the two counts and
      whose [bukti_foto] is the crop of the first run. *)
Theorem auto_evidence_merges_when_admitted task_id jid now db j nim :
  find_jadwal db jid = Some j →
  passes_enrollment db j nim →
  (∀ detected meta (i : nat) r,
     detected !! nim = Some meta →
     find_log (log_absensi db) nim jid (date_of now) = Some (i, r) →
     LogAbsensi.metode r = "AI_VIDEO" →
     let db' := (background_video_analyzer task_id jid detected now db).2 in
     ∃ r',
       find_log (log_absensi db') nim jid (date_of now) = Some (i, r')
       ∧ r' = LogAbsensi.add_jumlah_muncul (count meta) r
       ∧ LogAbsensi.jumlah_muncul r' = LogAbsensi.jumlah_muncul r + count meta
       ∧ LogAbsensi.bukti_foto r' = LogAbsensi.bukti_foto r
       ∧ LogAbsensi.emosi_dominan r' = LogAbsensi.emosi_dominan r)
  ∧ (∀ task_id2 now2 first second m1 m2,
       first !! nim = Some m1 →
       second !! nim = Some m2 →
       find_log (log_absensi db) nim jid (date_of now) = None →
       date_of now2 = date_of now →
       let db1 := (background_video_analyzer task_id jid first now db).2 in
       let db2 := (background_video_analyzer task_id2 jid second now2 db1).2 in
       ∃ (i : nat) r,
         find_log (log_absensi db2) nim jid (date_of now) = Some (i, r)
         ∧ LogAbsensi.metode r = "AI_VIDEO"
         ∧ LogAbsensi.jumlah_muncul r = count m1 + count m2
         ∧ LogAbsensi.bukti_foto r = sample m1).
Proof.
  intros Hj Hp.
  assert (∀ t d n0 (i : nat) r meta,
            d !! nim = Some meta →
            find_log (log_absensi db) nim jid (date_of n0) = Some (i, r) →
            LogAbsensi.metode r = "AI_VIDEO" →
            find_log (log_absensi (background_video_analyzer t jid d n0 db).2)
                     nim jid (date_of n0)
            = Some (i, LogAbsensi.add_jumlah_muncul (count meta) r)) as Hmerge.
  { intros t d n0 i r meta Hd Hf Hm.
    rewrite (analyzer_unfold _ _ _ _ _ j Hj). simpl.
    destruct (analyzer_entry d nim meta Hd) as [Hnd Hin].
    destruct (complete_task_tables t db) as (_ & _ & _ & Hl & _).
    apply loop_merge; [done..| by apply not_enrolled_false | by rewrite Hl | done]. }
  split.
  - intros detected meta i r Hd Hf Hm. simpl.
    eexists. split; [by apply Hmerge|]. done.
  - intros task_id2 now2 first second m1 m2 H1 H2 Hnone Hday. simpl.
    destruct (analyzer_entry first nim m1 H1) as [Hnd1 Hin1].
    destruct (analyzer_entry second nim m2 H2) as [Hnd2 Hin2].
    destruct (analyzer_tables task_id jid first now db) as (_ & He1 & Hj1).
    set (db1 := (background_video_analyzer task_id jid first now db).2) in *.
    assert (∃ (i : nat) (id : Z),
              find_log (log_absensi db1) nim jid (date_of now)
              = Some (i, LogAbsensi.mk id (Some task_id) nim (Some jid) now
                           "AI_VIDEO" (count m1) (Some (dominant_emotion m1))
                           (sample m1) false None)) as (i & id & Hf1).
    { subst db1. rewrite (analyzer_unfold _ _ _ _ _ j Hj). simpl.
      destruct (complete_task_tables task_id db) as (_ & _ & _ & Hl & _).
      apply loop_insert; [done..| by apply not_enrolled_false | by rewrite Hl]. }
    assert (find_jadwal db1 jid = Some j) as Hj'.
    { unfold find_jadwal. by rewrite Hj1. }
    assert (passes_enrollment db1 j nim) as Hp'.
    { unfold passes_enrollment, is_enrolled in *. by rewrite He1. }
    rewrite (analyzer_unfold _ _ _ _ _ j Hj'). simpl.
    destruct (complete_task_tables task_id2 db1) as (_ & _ & _ & Hl & _).
    eexists i, _. split.
    + rewrite <- Hday. apply loop_merge;
        [done..| by apply not_enrolled_false | rewrite Hl, Hday; exact Hf1 | done].
    + simpl. done.
Qed.

Lemma sample_S1_admitted_enrolled : is_enrolled sample_db "S1" 10.
Proof.
  exists (KelasEnrollment.mk 1 "S1" 10).
  split; [apply list_elem_of_here | split; reflexivity].
Defined.

Lemma sample_S1_admitted : passes_enrollment sample_db sample_jadwal "S1".
Proof. right. exact sample_S1_admitted_enrolled. Defined.

Lemma auto_evidence_merges_when_admitted_witness :
  (find_jadwal sample_db 1 = Some sample_jadwal
   ∧ passes_enrollment sample_db sample_jadwal "S1")
  ∧ (∃ r',
       find_log
         (log_absensi
            (background_video_analyzer "task-b" 1 evidence_b 200
               sample_db_after_a).2)
         "S1" 1 (date_of 200)
       = Some (0%nat, r')
       ∧ LogAbsensi.jumlah_muncul r' = 3 + 2
       ∧ LogAbsensi.bukti_foto r' = Some "/hasil_crop/task-a_S1_0.jpg"
       ∧ LogAbsensi.emosi_dominan r' = Some "happy")
  ∧ ∃ (i : nat) r,
      find_log
        (log_absensi
           (background_video_analyzer "task-b" 1 evidence_b 200
              (background_video_analyzer "task-a" 1 evidence_a 100 sample_db).2).2)
        "S1" 1 (date_of 100) = Some (i, r)
      ∧ LogAbsensi.metode r = "AI_VIDEO"
      ∧ LogAbsensi.jumlah_muncul r = 5
      ∧ LogAbsensi.bukti_foto r = Some "/hasil_crop/task-a_S1_0.jpg".
Proof.
  assert (find_jadwal sample_db 1 = Some sample_jadwal) as Hj by reflexivity.
  split; [split; [exact Hj | exact sample_S1_admitted]|].
  split.
  - destruct (auto_evidence_merges_when_admitted "task-b" 1 200
                sample_db_after_a sample_jadwal "S1" eq_refl sample_S1_admitted)
      as [Hone _].
    destruct (Hone evidence_b
                (mkMeta 2 [] (Some "/hasil_crop/task-b_S1_45.jpg")) 0%nat
                (LogAbsensi.mk 1 (Some "task-a") "S1" (Some 1) 100 "AI_VIDEO" 3
                   (Some "happy") (Some "/hasil_crop/task-a_S1_0.jpg") false None)
                eq_refl eq_refl eq_refl)
      as (r' & Hf & _ & Hc & Hb & He).
    exists r'. split_and!; [exact Hf | exact Hc | exact Hb | exact He].
  - destruct (auto_evidence_merges_when_admitted "task-a" 1 100 sample_db
                sample_jadwal "S1" Hj sample_S1_admitted) as [_ Htwo].
    exact (Htwo "task-b" 200 evidence_a evidence_b
             (mkMeta 3 [("happy", 1)] (Some "/hasil_crop/task-a_S1_0.jpg"))
             (mkMeta 2 [] (Some "/hasil_crop/task-b_S1_45.jpg"))
             eq_refl eq_refl eq_refl eq_refl).
Defined.

(** The merge does not hold for every student with an AI_VIDEO row: "S9"
    holds one for session 1 and today but is not enrolled in the session's
    class, and evidence with count 2 leaves the row at count 3. *)
Lemma merge_without_enrollment_fails :
  ¬ (∀ task_id jid detected now db nim meta (i : nat) r,
       detected !! nim = Some meta →
       find_log (log_absensi db) nim jid (date_of now) = Some (i, r) →
       LogAbsensi.metode r = "AI_VIDEO" →
       ∃ r',
         log_absensi (background_video_analyzer task_id jid detected now db).2
           !! i = Some r'
         ∧ LogAbsensi.jumlah_muncul r'
           = LogAbsensi.jumlah_muncul r + count meta).
Proof.
  intros H.
  destruct (H "task-b" 1 evidence_b 100 sample_db_moved "S9"
              (mkMeta 2 [] (Some "/hasil_crop/task-b_S9_45.jpg")) 0%nat
              (LogAbsensi.mk 1 (Some "task-a") "S9" (Some 1) 50 "AI_VIDEO" 3
                 (Some "Neutral") (Some "/hasil_crop/task-a_S9_0.jpg") false None)
              eq_refl eq_refl eq_refl) as (r' & Hl & Hc).
  vm_compute in Hl. injection Hl as <-. vm_compute in Hc. discriminate Hc.
Qed.

(** C3.  A manual entry for a student enrolled in the session's class
    succeeds and leaves, for (student, session, today), a row with method
    MANUAL_DOSEN, the dispute flag off, the report text cleared and the
    timestamp set to the time of the request: an existing row is force-updated
    in place whatever it held, and without one a row with [jumlah_muncul = 1]
    is appended.  For a student who is not enrolled the endpoint raises and
    the store stays as it was. *)
Theorem manual_entry_overwrites_or_rejects data now db :
  enrollment_fk db →
  (∀ j, find_jadwal db (manual_jadwal_id data) = Some j →
        is_enrolled db (manual_nim data) (Jadwal.student_class_id j) →
        ∃ msg db' (i : nat) r',
          endpoint_manual_absen data now db = Ok (msg, db')
          ∧ find_log (log_absensi db') (manual_nim data) (manual_jadwal_id data)
                     (date_of now) = Some (i, r')
          ∧ LogAbsensi.metode r' = "MANUAL_DOSEN"
          ∧ LogAbsensi.is_disputed r' = false
          ∧ LogAbsensi.keterangan_report r' = None
          ∧ LogAbsensi.waktu_absen r' = now
          ∧ match find_log (log_absensi db) (manual_nim data)
                    (manual_jadwal_id data) (date_of now) with
            | Some (i0, r0) =>
                i = i0 ∧ r' = LogAbsensi.force_manual now r0
                ∧ log_absensi db' = <[i0 := r']> (log_absensi db)
            | None =>
                LogAbsensi.jumlah_muncul r' = 1
                ∧ log_absensi db' = log_absensi db ++ [r']
            end)
  ∧ ((∀ j, find_jadwal db (manual_jadwal_id data) = Some j →
           ¬ is_enrolled db (manual_nim data) (Jadwal.student_class_id j)) →
     (∃ e, endpoint_manual_absen data now db = Raise e)
     ∧ store_after (endpoint_manual_absen data now db) db = db).
Proof.
  intros Hfk. split.
  - intros j Hj He.
    destruct (manual_absen_accepts data now db j Hfk Hj He) as [msg Hok].
    rewrite Hok. clear Hok.
    destruct (find_log (log_absensi db) _ _ _) as [[i0 r0]|] eqn:Hf.
    + eexists msg, _, i0, (LogAbsensi.force_manual now r0).
      split; [reflexivity|]. simpl. split; [|by split_and!].
      eapply list_find_insert_hit; [exact Hf|].
      apply log_matches_force_manual.
      by apply list_find_Some in Hf as (_ & ? & _).
    + eexists msg, _, (List.length (log_absensi db)), _.
      split; [reflexivity|]. simpl.
      split; [apply list_find_snoc_new; [exact Hf | done]|].
      simpl. by split_and!.
  - intros Hne. destruct (manual_absen_raises data now db Hne) as [e He].
    rewrite He. eauto.
Qed.

Lemma sample_db_fk : enrollment_fk sample_db.
Proof.
  intros e He. apply list_elem_of_In in He. simpl in He.
  destruct He as [<-|[<-|[<-|[<-|[]]]]]; simpl;
    [exists (Mahasiswa.mk "S1" (Some 11) (Some [1%Q; 0%Q]))
    |exists (Mahasiswa.mk "S2" (Some 12) (Some [0%Q; 1%Q]))
    |exists (Mahasiswa.mk "S3" (Some 13) (Some [1%Q; 1%Q]))
    |exists (Mahasiswa.mk "S9" (Some 19) (Some [1%Q; 2%Q]))];
    (split; [|reflexivity]); apply list_elem_of_In; simpl; tauto.
Defined.

Lemma manual_entry_overwrites_or_rejects_witness :
  enrollment_fk sample_db_after_a
  ∧ (∃ msg db' (i : nat) r',
       endpoint_manual_absen (mkManualAbsen "S1" 1) 400 sample_db_after_a
       = Ok (msg, db')
       ∧ find_log (log_absensi db') "S1" 1 (date_of 400) = Some (i, r')
       ∧ LogAbsensi.metode r' = "MANUAL_DOSEN"
       ∧ LogAbsensi.is_disputed r' = false)
  ∧ (∃ e, endpoint_manual_absen (mkManualAbsen "S9" 1) 400 sample_db_after_a
          = Raise e).
Proof.
  assert (enrollment_fk sample_db_after_a) as Hfk by exact sample_db_fk.
  split; [exact Hfk|].
  destruct (manual_entry_overwrites_or_rejects (mkManualAbsen "S1" 1) 400
              sample_db_after_a Hfk) as [Hyes _].
  destruct (manual_entry_overwrites_or_rejects (mkManualAbsen "S9" 1) 400
              sample_db_after_a Hfk) as [_ Hno].
  split.
  - destruct (Hyes sample_jadwal eq_refl sample_S1_admitted_enrolled)
      as (msg & db' & i & r' & H1 & H2 & H3 & H4 & _).
    exists msg, db', i, r'.
    split; [exact H1|]. split; [exact H2|]. split; [exact H3|exact H4].
  - apply Hno. intros j Hj. injection Hj as <-. exact sample_S9_not_enrolled.
Defined.

(** C6.  Closing an existing session appends one row for each student who
    is enrolled in the session's class with a registered embedding and has
    no row for this session today, for those students only and once each;
    every such row has method ALPHA_SYSTEM and [jumlah_muncul = 0]; the rows
    already there stay as they are; and every video task bound to the
    session has [is_closed] set, the other tasks being left alone. *)
Theorem close_session_marks_absentees jid now db j :
  find_jadwal db jid = Some j →
  ∃ summary db' (absent : list string) (rows : list LogAbsensi.t),
    close_class_session jid now db = Ok (summary, db')
    ∧ NoDup absent
    ∧ (∀ nim, nim ∈ absent ↔
         (is_enrolled db nim (Jadwal.student_class_id j) ∧ has_face db nim)
         ∧ ¬ recorded_today (log_absensi db) nim jid (date_of now))
    ∧ log_absensi db' = log_absensi db ++ rows
    ∧ LogAbsensi.nim <$> rows = absent
    ∧ Forall (λ r, LogAbsensi.metode r = "ALPHA_SYSTEM"
                   ∧ LogAbsensi.jumlah_muncul r = 0
                   ∧ LogAbsensi.jadwal_id r = Some jid
                   ∧ LogAbsensi.waktu_absen r = now
                   ∧ LogAbsensi.emosi_dominan r = None
                   ∧ LogAbsensi.is_disputed r = false) rows
    ∧ video_tasks db'
      = (λ v, if bool_decide (VideoTask.jadwal_id v = Some jid)
              then VideoTask.set_is_closed true v else v) <$> video_tasks db
    ∧ (∀ v, v ∈ video_tasks db' → VideoTask.jadwal_id v = Some jid →
            VideoTask.is_closed v = true)
    ∧ alpha summary = Z.of_nat (List.length absent).
Proof.
  intros Hj. pose proof (close_unfold jid now db j Hj) as Hc. simpl in Hc.
  destruct (absentees_spec db jid (date_of now) (Jadwal.student_class_id j))
    as [Hnd Hin].
  eexists _, _, _, _. split; [exact Hc|]. simpl.
  split_and!; [exact Hnd | exact Hin | reflexivity | apply alpha_rows_nims
              | apply alpha_rows_shape | reflexivity | | reflexivity].
  intros v (v0 & -> & _)%list_elem_of_fmap Hv.
  case_bool_decide; [done|]. contradiction.
Qed.

Lemma close_session_marks_absentees_witness :
  find_jadwal sample_db_after_a 1 = Some sample_jadwal
  ∧ ∃ summary db',
      close_class_session 1 300 sample_db_after_a = Ok (summary, db')
      ∧ alpha summary = 1
      ∧ LogAbsensi.nim <$> log_absensi db' = ["S1"; "S2"; "S3"]
      ∧ LogAbsensi.metode <$> log_absensi db'
        = ["AI_VIDEO"; "AI_VIDEO"; "ALPHA_SYSTEM"]
      ∧ LogAbsensi.jumlah_muncul <$> log_absensi db' = [3; 1; 0]
      ∧ VideoTask.is_closed <$> video_tasks db' = [true; true; false].
Proof.
  split; [reflexivity|].
  destruct (close_session_marks_absentees 1 300 sample_db_after_a sample_jadwal
              eq_refl)
    as (summary & db' & absent & rows & Hc & _).
  exists summary, db'. split; [exact Hc|].
  vm_compute in Hc. injection Hc as <- <-. vm_compute. by split_and!.
Defined.

(** C7.  Closing a session a second time on the same day changes nothing:
    the store after the second close is the store after the first one, so
    the ALPHA_SYSTEM rows are the same and the second run counts no
    absentee. *)
Theorem close_session_idempotent jid now1 now2 db :
  date_of now2 = date_of now1 →
  let db1 := store_after (close_class_session jid now1 db) db in
  let db2 := store_after (close_class_session jid now2 db1) db1 in
  db2 = db1
  ∧ filter (λ r, LogAbsensi.metode r = "ALPHA_SYSTEM") (log_absensi db2)
    = filter (λ r, LogAbsensi.metode r = "ALPHA_SYSTEM") (log_absensi db1)
  ∧ (∀ s2 d2, close_class_session jid now2 db1 = Ok (s2, d2) → alpha s2 = 0).
Proof.
  intros Hday. simpl.
  destruct (find_jadwal db jid) as [j|] eqn:Hj.
  - pose proof (close_unfold jid now1 db j Hj) as Hc1. simpl in Hc1.
    rewrite Hc1. simpl. clear Hc1.
    set (absent := filter _ (elements _)).
    set (db1 := close_video_tasks jid _).
    assert (find_jadwal db1 jid = Some j) as Hj1 by exact Hj.
    pose proof (close_unfold jid now2 db1 j Hj1) as Hc2. cbv zeta in Hc2.
    assert (filter (λ n, n ∉ present_today (log_absensi db1) jid (date_of now2))
              (elements (enrolled_with_face db1 (Jadwal.student_class_id j)))
            = []) as Hnone.
    { apply filter_none. intros n Hn Hnot. apply Hnot. simpl.
      apply present_after_close; [done|].
      destruct (decide (n ∈ present_today (log_absensi db) jid (date_of now1)))
        as [Hp|Hp]; [left; by rewrite Hday|right].
      apply list_elem_of_filter. split; [done|exact Hn]. }
    rewrite Hnone in Hc2. cbn [alpha_rows List.length Z.of_nat] in Hc2.
    rewrite Hc2. cbn [store_after].
    assert (close_video_tasks jid
              (mkDatabase (mahasiswa db1) (kelas_enrollment db1) (jadwal db1)
                 (video_tasks db1) (log_absensi db1 ++ [])
                 (log_id_seq db1 + Z.of_nat 0))
            = db1) as ->.
    { rewrite app_nil_r. change (Z.of_nat 0) with 0. rewrite Z.add_0_r.
      transitivity (close_video_tasks jid db1);
        [reflexivity | apply close_video_tasks_idemp]. }
    split_and!; [done..|]. by intros ? ? [= <- _].
  - unfold close_class_session. rewrite Hj. simpl. rewrite Hj. simpl.
    split_and!; [done..|]. intros; discriminate.
Qed.

Lemma close_session_idempotent_witness :
  date_of 360 = date_of 300
  ∧ store_after
      (close_class_session 1 360
         (store_after (close_class_session 1 300 sample_db_after_a)
            sample_db_after_a))
      (store_after (close_class_session 1 300 sample_db_after_a)
         sample_db_after_a)
    = store_after (close_class_session 1 300 sample_db_after_a) sample_db_after_a.
Proof.
  split; [reflexivity|].
  exact (proj1 (close_session_idempotent 1 300 360 sample_db_after_a eq_refl)).
Defined.

(** C5, as the code has it.  Each ledger operation (a run of the automatic
    path, a manual entry, closing a session), taken on its own, keeps at
    most one row per (student, session, calendar day).  This is the doing of
    the lookup before each write; the schema declares no constraint on that
    key. *)
Theorem ledger_operations_keep_unique_per_day db :
  unique_per_day (log_absensi db) →
  (∀ task_id jid detected now,
     unique_per_day
       (log_absensi (background_video_analyzer task_id jid detected now db).2))
  ∧ (∀ data now,
       unique_per_day
         (log_absensi (store_after (endpoint_manual_absen data now db) db)))
  ∧ (∀ jid now,
       unique_per_day
         (log_absensi (store_after (close_class_session jid now db) db))).
Proof.
  intros Hu. split_and!; intros.
  - by apply analyzer_unique.
  - by apply manual_absen_unique.
  - by apply close_unique.
Qed.

Lemma sample_db_after_a_unique : unique_per_day (log_absensi sample_db_after_a).
Proof.
  apply (bool_decide_unpack
           (NoDup (log_key <$> log_absensi sample_db_after_a))).
  vm_compute. exact I.
Defined.

Lemma ledger_operations_keep_unique_per_day_witness :
  unique_per_day (log_absensi sample_db_after_a)
  ∧ unique_per_day
      (log_absensi
         (background_video_analyzer "task-b" 1 evidence_b 200 sample_db_after_a).2)
  ∧ unique_per_day
      (log_absensi
         (store_after
            (endpoint_manual_absen (mkManualAbsen "S3" 1) 250 sample_db_after_a)
            sample_db_after_a))
  ∧ unique_per_day
      (log_absensi
         (store_after (close_class_session 1 300 sample_db_after_a)
            sample_db_after_a)).
Proof.
  destruct (ledger_operations_keep_unique_per_day sample_db_after_a
              sample_db_after_a_unique) as (Ha & Hm & Hc).
  split_and!; [exact sample_db_after_a_unique | apply Ha | apply Hm | apply Hc].
Defined.

(** The store itself does not refuse a second row for a key: [log_absensi]
    has its primary key and nothing else, so adding a row for ("S1",
    session 1, day 0) to a store that holds one succeeds and leaves two. *)
Lemma schema_admits_duplicate_key :
  ¬ (∀ db row,
       unique_per_day (log_absensi db) →
       unique_per_day (log_absensi (db_add row db))).
Proof.
  intros H.
  specialize (H sample_db_manual
                (λ id, LogAbsensi.mk id (Some "task-a") "S1" (Some 1) 100
                         "AI_VIDEO" 3 (Some "Neutral") None false None)).
  assert (unique_per_day (log_absensi sample_db_manual)) as Hu.
  { apply (bool_decide_unpack _). vm_compute. exact I. }
  apply H in Hu. revert Hu.
  apply (bool_decide_unpack
           (¬ NoDup (log_key <$> log_absensi (db_add _ sample_db_manual)))).
  vm_compute. exact I.
Qed.

Section IdentityIndexClaims.
Context {ndarray : Type}.
Variable np_array : list Q → option ndarray.
Variable l2_normalize : ndarray → ndarray.
Variable np_dot : ndarray → ndarray → Q.

Local Abbreviation identify := (identify_face_fast l2_normalize np_dot).
Local Abbreviation reload := (reload_face_database_async np_array l2_normalize).

(** C8.  A query normalises its input and scores it against every row of the
    index.  With [max_score] the largest score and [nim] the id at the first
    row reaching it, the answer is [(nim, max_score)] when [max_score]
    exceeds 0.50 and [("Unknown", 0)] otherwise; an index that holds nobody
    always answers [("Unknown", 0)]. *)
Theorem identify_face_fast_threshold
    (state : SystemState ndarray) (embedding : ndarray) :
  index_paired state →
  (known_matrix state = None ∨ known_ids state = [] →
   identify state embedding = ("Unknown", 0%Q))
  ∧ (∀ matrix,
       known_matrix state = Some matrix → known_ids state ≠ [] →
       let scores := (λ row, np_dot row (l2_normalize embedding)) <$> matrix in
       ∃ (best_idx : nat) nim max_score,
         known_ids state !! best_idx = Some nim
         ∧ scores !! best_idx = Some max_score
         ∧ (∀ (k : nat) s, scores !! k = Some s → (s <= max_score)%Q)
         ∧ (∀ (k : nat) s, (k < best_idx)%nat → scores !! k = Some s →
                           (s < max_score)%Q)
         ∧ ((FACE_SIMILARITY_THRESHOLD < max_score)%Q →
            identify state embedding = (nim, max_score))
         ∧ ((max_score <= FACE_SIMILARITY_THRESHOLD)%Q →
            identify state embedding = ("Unknown", 0%Q))).
Proof.
  intros Hp. split.
  - unfold identify_face_fast. intros [-> | Hi]; [done|].
    destruct (known_matrix state); [|done]. by rewrite Hi.
  - intros matrix Hm Hne scores.
    assert (List.length (known_ids state) ≠ 0%nat) as Hlen
      by (destruct (known_ids state); done).
    assert (List.length scores = List.length (known_ids state)) as Hls
      by (subst scores; rewrite length_fmap; by apply Hp).
    assert (scores ≠ []) as Hsn by (intros E; rewrite E in Hls; simpl in Hls; lia).
    destruct (np_argmax_spec scores Hsn)
      as (best_idx & max_score & Harg & Hs & Hmax & Hfirst).
    destruct (lookup_lt_is_Some_2 (known_ids state) best_idx) as [nim Hnim].
    { rewrite <- Hls. by eapply lookup_lt_Some. }
    exists best_idx, nim, max_score.
    split_and!; [done..| |]; intros Hcmp; unfold identify_face_fast;
      rewrite Hm, bool_decide_eq_false_2 by done; fold scores;
      rewrite Harg, Hs.
    + apply Qltb_lt in Hcmp. by rewrite Hcmp, Hnim.
    + apply Qltb_ge in Hcmp. by rewrite Hcmp.
Qed.

(** C10.  A reload whose fetch raises leaves the state, and with it the ids,
    the matrix and every answer of a query, exactly as they were.  A reload
    whose fetch succeeds empties the index exactly when no fetched row
    yields a vector: for rows that all load, exactly when the fetch returned
    no row.  So an index that held somebody is emptied only by a successful
    fetch without a single usable row. *)
Theorem reload_keeps_index_when_fetch_raises :
  (∀ e now (state : SystemState ndarray),
     reload (fetch_error e) now state = state
     ∧ ∀ embedding,
         identify (reload (fetch_error e) now state) embedding
         = identify state embedding)
  ∧ (∀ rows now (state : SystemState ndarray),
       Forall (λ row, is_Some (np_array row.2)) rows →
       (index_empty (reload (fetch_rows rows) now state) ↔ rows = []))
  ∧ (∀ fetch now (state : SystemState ndarray),
       ¬ index_empty state →
       index_empty (reload fetch now state) →
       ∃ rows, fetch = fetch_rows rows
               ∧ Forall (λ row, np_array row.2 = None) rows).
Proof.
  split_and!.
  - done.
  - intros rows now state Hall. simpl.
    pose proof (load_rows_nil np_array l2_normalize rows) as Hnil.
    pose proof (load_rows_paired np_array l2_normalize rows) as Hlen.
    destruct (load_rows np_array l2_normalize rows) as [ids [|v vs]] eqn:E;
      simpl in *.
    + split; [intros _|done]. destruct rows as [|[nim val] rows]; [done|].
      apply proj1 in Hnil. specialize (Hnil eq_refl).
      apply Forall_cons in Hnil as [Hnone _].
      apply Forall_cons in Hall as [[? Hs] _].
      simpl in *. congruence.
    + split; [intros [_ ?]; done|]. intros ->. simpl in E. discriminate E.
  - intros [rows|e] now state Hne Hemp; [|done].
    exists rows. split; [done|].
    apply (load_rows_nil np_array l2_normalize). simpl in Hemp.
    destruct (load_rows np_array l2_normalize rows) as [ids [|v vs]]; [done|].
    by destruct Hemp.
Qed.
End IdentityIndexClaims.

Example identify_sample_hit :
  identify_face_fast id sample_dot sample_state [3 # 5; 4 # 5]
  = ("S2", (0 * (3 # 5) + (1 * (4 # 5) + 0))%Q).
Proof. reflexivity. Qed.

Example identify_sample_miss :
  identify_face_fast id sample_dot sample_state [1 # 2; 1 # 2] = ("Unknown", 0%Q).
Proof. reflexivity. Qed.

Lemma sample_state_paired : index_paired sample_state.
Proof. by intros m [= <-]. Defined.

Lemma identify_face_fast_threshold_witness :
  index_paired sample_state
  ∧ ∃ (best_idx : nat) nim max_score,
      known_ids sample_state !! best_idx = Some nim
      ∧ ((FACE_SIMILARITY_THRESHOLD < max_score)%Q →
         identify_face_fast id sample_dot sample_state [3 # 5; 4 # 5]
         = (nim, max_score))
      ∧ ((max_score <= FACE_SIMILARITY_THRESHOLD)%Q →
         identify_face_fast id sample_dot sample_state [3 # 5; 4 # 5]
         = ("Unknown", 0%Q)).
Proof.
  split; [exact sample_state_paired|].
  destruct (identify_face_fast_threshold id sample_dot sample_state
              [3 # 5; 4 # 5] sample_state_paired) as [_ Hhit].
  destruct (Hhit [[1%Q; 0%Q]; [0%Q; 1%Q]] eq_refl ltac:(done))
    as (best_idx & nim & s & Hn & _ & _ & _ & Hgt & Hle).
  by exists best_idx, nim, s.
Defined.

Lemma reload_keeps_index_when_fetch_raises_witness :
  Forall (λ row : string * list Q, is_Some (Some row.2))
         (select_embeddings sample_db)
  ∧ ¬ index_empty
        (reload_face_database_async Some id
           (fetch_rows (select_embeddings sample_db)) 9 sample_state)
  ∧ reload_face_database_async Some id (fetch_error "connection refused") 9
      sample_state = sample_state.
Proof.
  assert (Forall (λ row : string * list Q, is_Some (Some row.2))
                 (select_embeddings sample_db)) as Hall.
  { apply Forall_forall. intros row _. by eexists. }
  destruct (reload_keeps_index_when_fetch_raises (ndarray:=list Q) Some id
              sample_dot) as (Herr & Hok & _).
  split_and!; [exact Hall| |apply Herr].
  intros Hemp. apply (Hok _ 9 sample_state Hall) in Hemp. discriminate Hemp.
Defined.

(** C9, as the code has it.  When the sampling step is positive, each loop
    stops within [frame_count + 1] iterations, whatever further fuel it is
    given.  The offsets it asks for are [k * step] for [k = 0, 1, ...], each
    asked once; the step is [int(fps * interval)], the product cut towards
    zero (1.5 s and a fallback of 30 for a frame rate reported as 0 in
    [main.py], 5 s without fallback in the helper).  Every read but the last
    returned a frame; the loop stops at the first read that fails, or after
    the first frame whose successor offset is at or beyond the frame count.
    The helper raises at once on a frame count of 0. *)
Theorem sampling_loops_stop cap :
  (0 < frame_interval cap →
   ∃ reads,
     (∀ fuel, (S (Z.to_nat (frame_count cap)) ≤ fuel)%nat →
              analyzer_reads fuel cap = Some reads)
     ∧ sampling_run cap (frame_interval cap) (frame_count cap) 0 reads
     ∧ (List.length reads ≤ S (Z.to_nat (frame_count cap)))%nat)
  ∧ (0 < frame_jump cap →
     ∃ reads stop,
       (∀ fuel, (S (Z.to_nat (frame_count cap)) ≤ fuel)%nat →
                process_video_background fuel cap = Some (reads, stop))
       ∧ (frame_count cap = 0 → reads = [] ∧ stop = zero_division_error)
       ∧ (frame_count cap ≠ 0 →
          stop = loop_break
          ∧ sampling_run cap (frame_jump cap) (frame_count cap) 0 reads
          ∧ (List.length reads ≤ S (Z.to_nat (frame_count cap)))%nat)).
Proof.
  split; intros Hstep.
  - destruct (video_loop_run cap (frame_interval cap) (frame_count cap) Hstep
                (Z.to_nat (frame_count cap)) 0) as (reads & Hrun & Hok & Hlen);
      [lia|].
    exists reads. by split_and!.
  - destruct (decide (frame_count cap = 0)) as [Hz|Hnz].
    + exists [], zero_division_error. split_and!; [|done..].
      intros [|fuel] Hf; [lia|]. unfold process_video_background. simpl.
      by rewrite Hz.
    + destruct (video_loop_run cap (frame_jump cap) (frame_count cap) Hstep
                  (Z.to_nat (frame_count cap)) 0) as (reads & Hrun & Hok & Hlen);
        [lia|].
      exists reads, loop_break. split_and!; [|done..].
      intros fuel Hf. unfold process_video_background.
      rewrite extractor_loop_video_loop by auto using frame_jump_pos_fps.
      by rewrite Hrun.
Qed.

Lemma sampling_loops_stop_witness :
  (0 < frame_interval sample_ntsc ∧ 0 < frame_jump sample_ntsc)
  ∧ (∃ reads,
       analyzer_reads 101 sample_ntsc = Some reads
       ∧ sampling_run sample_ntsc 44 100 0 reads)
  ∧ ∃ reads,
      process_video_background 101 sample_ntsc = Some (reads, loop_break)
      ∧ sampling_run sample_ntsc 149 100 0 reads.
Proof.
  assert (0 < frame_interval sample_ntsc) as Hpos by reflexivity.
  assert (0 < frame_jump sample_ntsc) as Hjump by reflexivity.
  split; [split; [exact Hpos | exact Hjump]|].
  destruct (sampling_loops_stop sample_ntsc) as [Hmain Hhelper].
  split.
  - destruct (Hmain Hpos) as (reads & Hrun & Hok & _).
    exists reads. split; [apply Hrun; simpl; lia | exact Hok].
  - destruct (Hhelper Hjump) as (reads & stop & Hrun & _ & Hnz).
    destruct Hnz as (-> & Hok & _); [simpl; lia|].
    exists reads. split; [apply Hrun; simpl; lia | exact Hok].
Defined.

Example analyzer_reads_ntsc :
  analyzer_reads 101 sample_ntsc = Some [(0, true); (44, true); (88, true)].
Proof. reflexivity. Qed.

(** The offsets are not multiples of [round(fps * interval)]: at 29.97
    frames per second the product is 44.955, the loop steps by 44 and reads
    the offsets 0, 44 and 88, where rounding would give 0, 45 and 90. *)
Lemma sampling_step_is_not_rounded :
  ¬ (∀ cap fuel reads,
       analyzer_reads fuel cap = Some reads →
       reads.*1
       = (λ k : nat, Z.of_nat k * py_round (fps_or_30 cap * (3 # 2)))
           <$> seq 0 (List.length reads)).
Proof.
  intros H.
  specialize (H sample_ntsc 101%nat [(0, true); (44, true); (88, true)] eq_refl).
  vm_compute in H. discriminate H.
Qed.

(** A clip at one frame every two seconds has a step of [int(0.75) = 0]: the
    loop never leaves offset 0, whatever the fuel. *)
Lemma analyzer_stalls_on_slow_clip :
  frame_interval sample_slides = 0
  ∧ ∀ fuel, analyzer_reads fuel sample_slides = None.
Proof.
  split; [reflexivity|]. intros fuel. unfold analyzer_reads.
  change (frame_interval sample_slides) with 0.
  by apply video_loop_stalls.
Qed.

(** * Further properties *)

(** ** Strict binding of the ledger operations *)

Lemma same_identity_refl r : same_identity r r.
Proof. by split_and!. Qed.

Lemma bound_to_session_refl jid today logs : bound_to_session jid today logs logs.
Proof. intros k r Hk. exists r. split_and!; [done|apply same_identity_refl|done]. Qed.

Lemma bound_to_session_trans jid today l1 l2 l3 :
  bound_to_session jid today l1 l2 → bound_to_session jid today l2 l3 →
  bound_to_session jid today l1 l3.
Proof.
  intros H12 H23 k r Hk.
  destruct (H12 k r Hk) as (r2 & Hk2 & (Hid & Hn & Hj & Hd) & Hsame).
  destruct (H23 k r2 Hk2) as (r3 & Hk3 & (Hid' & Hn' & Hj' & Hd') & Hsame').
  exists r3. split; [exact Hk3|]. split.
  - unfold same_identity. split_and!; congruence.
  - intros Hother. pose proof (Hsame Hother) as ->. by apply Hsame'.
Qed.

Lemma bound_to_session_app jid today logs rows :
  bound_to_session jid today logs (logs ++ rows).
Proof.
  intros k r Hk. exists r.
  split_and!; [by apply lookup_app_l_Some|apply same_identity_refl|done].
Qed.

(** Rewriting the row found for (student, session, today) into a row of the
    same identity is within the bounds of the session. *)
Lemma bound_to_session_insert jid today logs nim (i : nat) r r' :
  find_log logs nim jid today = Some (i, r) →
  same_identity r r' →
  bound_to_session jid today logs (<[i := r']> logs).
Proof.
  intros Hf Hid k r0 Hk.
  apply list_find_Some in Hf as (Hi & (_ & Hj & Hd) & _).
  destruct (decide (k = i)) as [->|Hne].
  - simplify_eq. exists r'. split_and!; [|done|].
    + apply list_lookup_insert_eq. by eapply lookup_lt_Some.
    + intros [?|?]; done.
  - exists r0. rewrite list_lookup_insert_ne by done.
    split_and!; [done|apply same_identity_refl|done].
Qed.

Lemma smart_upsert_bound task_id jid en now db entry :
  bound_to_session jid (date_of now) (log_absensi db)
    (log_absensi (smart_upsert task_id jid en now db entry)).
Proof.
  destruct entry as [nim meta].
  destruct (smart_upsert_effect task_id jid en now db nim meta)
    as [|? ?|i r ? Hf Hm|]; simpl.
  - apply bound_to_session_refl.
  - apply bound_to_session_app.
  - eapply bound_to_session_insert; [exact Hf|]. by split_and!.
  - apply bound_to_session_refl.
Qed.

Lemma loop_bound task_id jid en now entries db :
  bound_to_session jid (date_of now) (log_absensi db)
    (log_absensi (foldl (smart_upsert task_id jid en now) db entries)).
Proof.
  revert db. induction entries as [|e es IH]; intros db; simpl.
  - apply bound_to_session_refl.
  - eapply bound_to_session_trans; [apply smart_upsert_bound|apply IH].
Qed.

(** X1.  The three operations that write attendance for a session (a run of
    the automatic path, a manual entry, closing the session) never remove a
    row and never move one to another student, session or day; and they
    leave every row of another session, and every row of another day,
    exactly as it is. *)
Theorem ledger_operations_are_bound_to_their_session jid now db :
  (∀ task_id detected,
     bound_to_session jid (date_of now) (log_absensi db)
       (log_absensi (background_video_analyzer task_id jid detected now db).2))
  ∧ (∀ nim,
       bound_to_session jid (date_of now) (log_absensi db)
         (log_absensi
            (store_after (endpoint_manual_absen (mkManualAbsen nim jid) now db)
               db)))
  ∧ bound_to_session jid (date_of now) (log_absensi db)
      (log_absensi (store_after (close_class_session jid now db) db)).
Proof.
  split_and!.
  - intros task_id detected. destruct (find_jadwal db jid) as [j|] eqn:Hj.
    + rewrite (analyzer_unfold _ _ _ _ _ j Hj). simpl.
      destruct (complete_task_tables task_id db) as (_ & _ & _ & Hl & _).
      rewrite <- Hl at 1. apply loop_bound.
    + rewrite analyzer_missing by done. apply bound_to_session_refl.
  - intros nim. unfold endpoint_manual_absen. simpl.
    destruct (list_find _ (mahasiswa db)); [|apply bound_to_session_refl].
    destruct (find_jadwal db jid); [|apply bound_to_session_refl].
    destruct (find_enrollment db _ _); [|apply bound_to_session_refl].
    destruct (find_log _ _ _ _) as [[i r]|] eqn:Hf; simpl.
    + eapply bound_to_session_insert; [exact Hf|].
      apply list_find_Some in Hf as (_ & (_ & _ & Hd) & _).
      by split_and!.
    + apply bound_to_session_app.
  - destruct (find_jadwal db jid) as [j|] eqn:Hj.
    + pose proof (close_unfold jid now db j Hj) as Hc. cbv zeta in Hc.
      rewrite Hc. simpl. apply bound_to_session_app.
    + unfold close_class_session. rewrite Hj. apply bound_to_session_refl.
Qed.

(** ** The first evidence for a student *)

(** [max_by_value] continues a scan over the tally: with [best] the first
    entry of largest count among those seen, it returns the key of the first
    entry of largest count overall. *)
Lemma max_by_value_spec (rest seen : list (string * Z)) (i : nat)
    (best : string * Z) :
  seen !! i = Some best →
  (∀ (k : nat) kv, seen !! k = Some kv → kv.2 ≤ best.2) →
  (∀ (k : nat) kv, (k < i)%nat → seen !! k = Some kv → kv.2 < best.2) →
  ∃ (i' : nat) v,
    (seen ++ rest) !! i' = Some (max_by_value best rest, v)
    ∧ (∀ (k : nat) kv, (seen ++ rest) !! k = Some kv → kv.2 ≤ v)
    ∧ (∀ (k : nat) kv, (k < i')%nat → (seen ++ rest) !! k = Some kv → kv.2 < v).
Proof.
  revert seen i best.
  induction rest as [|x rest IH]; intros seen i best Hb Hmax Hfirst.
  - simpl. rewrite app_nil_r. exists i, best.2.
    split_and!; [by destruct best|done..].
  - simpl. replace (seen ++ x :: rest) with ((seen ++ [x]) ++ rest)
      by (by rewrite <- app_assoc).
    destruct (best.2 <? x.2) eqn:Hlt.
    + apply Z.ltb_lt in Hlt. apply (IH (seen ++ [x]) (List.length seen)).
      * by rewrite lookup_app_r, Nat.sub_diag.
      * intros k kv [Hk|[_ Hk]]%lookup_app_Some.
        -- specialize (Hmax k kv Hk). lia.
        -- destruct (k - List.length seen)%nat; simplify_eq/=. lia.
      * intros k kv Hk Hkv. rewrite lookup_app_l in Hkv by done.
        specialize (Hmax k kv Hkv). lia.
    + apply Z.ltb_ge in Hlt. apply (IH (seen ++ [x]) i).
      * by apply lookup_app_l_Some.
      * intros k kv [Hk|[_ Hk]]%lookup_app_Some; [by eapply Hmax|].
        destruct (k - List.length seen)%nat; by simplify_eq/=.
      * intros k kv Hk Hkv. apply (Hfirst k kv Hk).
        apply lookup_lt_Some in Hb. by rewrite lookup_app_l in Hkv by lia.
Qed.

(** X2.  The dominant emotion of an evidence entry is "Neutral" when its
    tally is empty; otherwise it is a label of the tally whose count no
    other label exceeds, and among the labels of that count the one that
    entered the tally first. *)
Theorem dominant_emotion_is_first_largest (meta : Meta) :
  (emosi meta = [] → dominant_emotion meta = "Neutral")
  ∧ (emosi meta ≠ [] →
     ∃ (i : nat) v,
       emosi meta !! i = Some (dominant_emotion meta, v)
       ∧ (∀ (k : nat) kv, emosi meta !! k = Some kv → kv.2 ≤ v)
       ∧ (∀ (k : nat) kv, (k < i)%nat → emosi meta !! k = Some kv → kv.2 < v)).
Proof.
  unfold dominant_emotion. split; [by intros ->|].
  destruct (emosi meta) as [|kv rest]; [done|]. intros _.
  apply (max_by_value_spec rest [kv] 0 kv).
  - done.
  - intros [|k] kv' Hk; simplify_eq/=. lia.
  - intros k kv' Hk. lia.
Qed.

Lemma dominant_emotion_is_first_largest_witness :
  emosi (mkMeta 4 [("sad", 1); ("happy", 2); ("angry", 2); ("sad2", 1)] None) ≠ []
  ∧ ∃ (i : nat) v,
      [("sad", 1); ("happy", 2); ("angry", 2); ("sad2", 1)] !! i
      = Some (dominant_emotion
                (mkMeta 4 [("sad", 1); ("happy", 2); ("angry", 2); ("sad2", 1)]
                   None), v)
      ∧ (∀ (k : nat) kv,
           [("sad", 1); ("happy", 2); ("angry", 2); ("sad2", 1)] !! k = Some kv →
           kv.2 ≤ v).
Proof.
  assert (emosi (mkMeta 4 [("sad", 1); ("happy", 2); ("angry", 2); ("sad2", 1)]
                   None) ≠ []) as Hne by done.
  split; [exact Hne|].
  destruct (proj2 (dominant_emotion_is_first_largest _) Hne)
    as (i & v & Hi & Hmax & _).
  by exists i, v.
Defined.

(** X3.  For a student whom the enrollment test lets through and who has no
    row for (student, session, today), a run whose evidence holds the
    student leaves one: method AI_VIDEO, the evidence count, the dominant
    emotion of the tally, the sample as photo, no dispute, the task id of
    the run and the time of the run. *)
Theorem auto_evidence_inserts_first_row
    task_id jid detected now db j nim meta :
  find_jadwal db jid = Some j →
  passes_enrollment db j nim →
  detected !! nim = Some meta →
  find_log (log_absensi db) nim jid (date_of now) = None →
  ∃ (i : nat) id,
    find_log
      (log_absensi (background_video_analyzer task_id jid detected now db).2)
      nim jid (date_of now)
    = Some (i, LogAbsensi.mk id (Some task_id) nim (Some jid) now "AI_VIDEO"
                 (count meta) (Some (dominant_emotion meta)) (sample meta)
                 false None)
    ∧ (List.length (log_absensi db) ≤ i)%nat.
Proof.
  intros Hj Hp Hd Hf.
  rewrite (analyzer_unfold _ _ _ _ _ j Hj). simpl.
  destruct (analyzer_entry detected nim meta Hd) as [Hnd Hin].
  destruct (complete_task_tables task_id db) as (_ & _ & _ & Hl & _).
  destruct (loop_insert task_id jid (enrolled_nims_of db j) now
              (map_to_list detected) (complete_task task_id db) nim meta)
    as (i & id & Hfound); [done..|by apply not_enrolled_false|by rewrite Hl|].
  exists i, id. split; [exact Hfound|].
  destruct (decide (List.length (log_absensi db) ≤ i)%nat) as [|Hlt]; [done|].
  exfalso. apply list_find_Some in Hfound as (Hi & Hm & _).
  pose proof (loop_bound task_id jid (enrolled_nims_of db j) now
                (map_to_list detected) (complete_task task_id db)) as Hb.
  destruct (lookup_lt_is_Some_2 (log_absensi db) i) as [r0 Hr0]; [lia|].
  rewrite <- Hl in Hr0.
  destruct (Hb i r0 Hr0) as (r' & Hr' & (_ & Hn & Hjd & Hday) & _).
  rewrite Hi in Hr'. injection Hr' as <-. simpl in *.
  apply list_find_None in Hf. rewrite Forall_forall in Hf.
  rewrite Hl in Hr0. apply (Hf r0); [by eapply list_elem_of_lookup_2|].
  by split_and!.
Qed.

Lemma auto_evidence_inserts_first_row_witness :
  (find_jadwal sample_db 1 = Some sample_jadwal
   ∧ passes_enrollment sample_db sample_jadwal "S1"
   ∧ find_log (log_absensi sample_db) "S1" 1 (date_of 100) = None)
  ∧ ∃ (i : nat) id,
      find_log
        (log_absensi (background_video_analyzer "task-a" 1 evidence_a 100 sample_db).2)
        "S1" 1 (date_of 100)
      = Some (i, LogAbsensi.mk id (Some "task-a") "S1" (Some 1) 100 "AI_VIDEO" 3
                   (Some "happy") (Some "/hasil_crop/task-a_S1_0.jpg") false None)
      ∧ (0 ≤ i)%nat.
Proof.
  split; [split_and!; [reflexivity|exact sample_S1_admitted|reflexivity]|].
  exact (auto_evidence_inserts_first_row "task-a" 1 evidence_a 100 sample_db
           sample_jadwal "S1"
           (mkMeta 3 [("happy", 1)] (Some "/hasil_crop/task-a_S1_0.jpg"))
           eq_refl sample_S1_admitted eq_refl eq_refl).
Defined.

(** ** The cost of a sampling run *)

(** Whatever the step, a run that reaches a [break] has the shape of
    [sampling_run]. *)
Lemma video_loop_sound cap step total fuel :
  ∀ idx reads,
    video_loop fuel cap step total idx = Some reads →
    sampling_run cap step total idx reads.
Proof.
  induction fuel as [|fuel IH]; intros idx reads Hrun; [done|].
  simpl in Hrun. destruct (read_ok cap idx) eqn:Hr.
  - destruct (total <=? idx + step) eqn:Hle.
    + injection Hrun as <-. apply sampling_run_single; [done|].
      right. by apply Z.leb_le.
    + destruct (video_loop fuel cap step total (idx + step)) as [reads'|] eqn:Hrec;
        [|done].
      injection Hrun as <-. apply sampling_run_cons; [done| |by apply IH].
      by apply Z.leb_gt.
  - injection Hrun as <-. apply sampling_run_single; auto.
Qed.

Lemma sampling_run_cost cap step total reads :
  0 < step →
  sampling_run cap step total 0 reads →
  (Z.of_nat (List.length reads) - 1) * step < Z.max 1 total
  ∧ NoDup reads.*1
  ∧ (∀ (k : nat) o r, reads !! k = Some (o, r) → (0 < k)%nat → 0 < o < total).
Proof.
  intros Hstep (Hne & Hoff & Hret & Hmid & Hlast).
  assert (∀ (k : nat) o r, reads !! k = Some (o, r) → o = Z.of_nat k * step)
    as Hat.
  { intros k o r Hk.
    assert (reads.*1 !! k = Some o) as Hk1 by (by rewrite list_lookup_fmap, Hk).
    rewrite Hoff, list_lookup_fmap in Hk1.
    apply fmap_Some in Hk1 as (k' & Hk' & ->).
    apply lookup_seq in Hk' as [-> _]. lia. }
  assert (∀ (k : nat) o r, reads !! k = Some (o, r) → (0 < k)%nat → 0 < o < total)
    as Hin.
  { intros [|k] o r Hk Hpos; [lia|].
    pose proof (Hat _ _ _ Hk) as ->. split; [nia|].
    destruct (lookup_lt_is_Some_2 reads k) as [[o' r'] Hk'].
    { apply lookup_lt_Some in Hk. lia. }
    pose proof (Hat _ _ _ Hk') as ->.
    destruct (Hmid k _ r' Hk') as [_ Hlt]; [by eapply lookup_lt_Some|]. nia. }
  split_and!; [| |exact Hin].
  - destruct (List.length reads) as [|[|n]] eqn:Hlen; [lia|lia|].
    destruct (lookup_lt_is_Some_2 reads (S n)) as [[o r] Hk]; [lia|].
    pose proof (Hat _ _ _ Hk) as ->.
    destruct (Hin (S n) _ r Hk) as [_ Hlt]; [lia|]. lia.
  - rewrite Hoff. apply NoDup_fmap_2_strong; [|apply NoDup_seq].
    intros k1 k2 _ _ Heq. nia.
Qed.

(** X4.  A sampling run of [background_video_analyzer] with a positive step
    that reaches its [break] has asked for at most
    [(frame_count - 1) / step + 1] frames (one frame when the count is 0 or
    less), for no offset twice, and after the first read only for offsets
    inside the video. *)
Theorem sampling_cost_is_bounded fuel cap reads :
  0 < frame_interval cap →
  analyzer_reads fuel cap = Some reads →
  (Z.of_nat (List.length reads) - 1) * frame_interval cap
  < Z.max 1 (frame_count cap)
  ∧ NoDup reads.*1
  ∧ (∀ (k : nat) o r, reads !! k = Some (o, r) → (0 < k)%nat →
                      0 < o < frame_count cap).
Proof.
  intros Hstep Hrun. apply (sampling_run_cost cap); [done|].
  by eapply video_loop_sound.
Qed.

Lemma sampling_cost_is_bounded_witness :
  (0 < frame_interval sample_ntsc
   ∧ analyzer_reads 7 sample_ntsc = Some [(0, true); (44, true); (88, true)])
  ∧ (Z.of_nat (List.length [(0, true); (44, true); (88, true)]) - 1)
    * frame_interval sample_ntsc < Z.max 1 (frame_count sample_ntsc).
Proof.
  assert (0 < frame_interval sample_ntsc) as Hpos by reflexivity.
  split; [split; [exact Hpos|reflexivity]|].
  exact (proj1 (sampling_cost_is_bounded 7 sample_ntsc
                  [(0, true); (44, true); (88, true)] Hpos eq_refl)).
Defined.

(** ** What a reload puts into the index *)

Lemma elem_of_select_embeddings db nim v :
  (nim, v) ∈ select_embeddings db
  ↔ ∃ m, m ∈ mahasiswa db ∧ Mahasiswa.nim m = nim
         ∧ Mahasiswa.embedding_data m = Some v.
Proof.
  unfold select_embeddings. rewrite list_elem_of_bind. split.
  - intros (m & Hin & Hm). destruct (Mahasiswa.embedding_data m) eqn:He;
      [|by apply elem_of_nil in Hin].
    apply list_elem_of_singleton in Hin. simplify_eq. by exists m.
  - intros (m & Hm & <- & He). exists m. rewrite He. split; [|done].
    apply list_elem_of_here.
Qed.

Section ReloadFacts.
Context {ndarray : Type}.
Variable np_array : list Q → option ndarray.
Variable l2_normalize : ndarray → ndarray.

Lemma load_rows_all rows :
  Forall (λ row, is_Some (np_array row.2)) rows →
  (load_rows np_array l2_normalize rows).1 = rows.*1
  ∧ Forall2 (λ row vec, ∃ arr, np_array row.2 = Some arr ∧ vec = l2_normalize arr)
            rows (load_rows np_array l2_normalize rows).2.
Proof.
  induction 1 as [|[nim v] rows [arr Harr] _ [IH1 IH2]]; simpl; [done|].
  destruct (load_rows np_array l2_normalize rows) as [ids vs]. simpl in *.
  rewrite Harr. simpl. split; [by rewrite IH1|].
  constructor; [by exists arr|done].
Qed.

(** X5.  When every stored embedding loads, a reload from the store puts
    into the index exactly the students that have an embedding, in store
    order, and pairs each of them with the normalised form of their own
    vector. *)
Theorem reload_indexes_students_with_embedding
    db now (state : SystemState ndarray) :
  Forall (λ row, is_Some (np_array row.2)) (select_embeddings db) →
  let state' :=
    reload_face_database_async np_array l2_normalize
      (fetch_rows (select_embeddings db)) now state in
  known_ids state' = (select_embeddings db).*1
  ∧ (∀ nim, nim ∈ known_ids state' ↔ has_face db nim)
  ∧ (∀ (i : nat) nim v,
       select_embeddings db !! i = Some (nim, v) →
       ∃ arr matrix,
         np_array v = Some arr
         ∧ known_ids state' !! i = Some nim
         ∧ known_matrix state' = Some matrix
         ∧ matrix !! i = Some (l2_normalize arr)).
Proof.
  intros Hall. simpl.
  destruct (load_rows_all _ Hall) as [Hids Hvs].
  destruct (load_rows np_array l2_normalize (select_embeddings db))
    as [ids vs] eqn:E. simpl in *. subst ids.
  assert (known_ids
            match vs with
            | [] => mkSystemState [] None (last_reload state)
            | _ :: _ => mkSystemState (select_embeddings db).*1 (Some vs) (Some now)
            end = (select_embeddings db).*1) as Hk.
  { destruct vs; [|done]. simpl. apply Forall2_nil_inv_r in Hvs. by rewrite Hvs. }
  split_and!.
  - exact Hk.
  - intros nim. rewrite Hk, list_elem_of_fmap. unfold has_face. split.
    + intros ([nim' v] & -> & (m & Hm & Hn & He)%elem_of_select_embeddings).
      exists m. split_and!; [done..|]. by rewrite He.
    + intros (m & Hm & Hn & [v He]). exists (nim, v). split; [done|].
      apply elem_of_select_embeddings. by exists m.
  - intros i nim v Hi.
    destruct (Forall2_lookup_l _ _ _ _ _ Hvs Hi) as (vec & Hvec & arr & Harr & ->).
    exists arr, vs. destruct vs as [|v0 vs']; [by rewrite lookup_nil in Hvec|].
    simpl. split_and!; [done| |done|done].
    by rewrite list_lookup_fmap, Hi.
Qed.
End ReloadFacts.

Lemma reload_indexes_students_with_embedding_witness :
  Forall (λ row : string * list Q, is_Some (Some row.2))
         (select_embeddings sample_db)
  ∧ known_ids
      (reload_face_database_async Some id (fetch_rows (select_embeddings sample_db))
         9 initial_state)
    = ["S1"; "S2"; "S3"; "S9"].
Proof.
  assert (Forall (λ row : string * list Q, is_Some (Some row.2))
                 (select_embeddings sample_db)) as Hall.
  { apply Forall_forall. intros row _. by eexists. }
  split; [exact Hall|].
  exact (proj1 (reload_indexes_students_with_embedding Some id sample_db 9
                  initial_state Hall)).
Defined.

(** ** After a session is closed *)

Lemma alpha_rows_elem nims jid now seq r :
  r ∈ alpha_rows nims jid now seq →
  ∃ id, r = alpha_log (LogAbsensi.nim r) jid now id ∧ LogAbsensi.nim r ∈ nims.
Proof.
  revert seq. induction nims as [|n ns IH]; intros seq Hr; simpl in *.
  - by apply elem_of_nil in Hr.
  - apply elem_of_cons in Hr as [->|Hr].
    + exists seq. split; [done|]. simpl. left.
    + destruct (IH _ Hr) as (id & Heq & Hin). exists id. split; [done|].
      by right.
Qed.

Lemma present_today_after_close logs nims jid now seq :
  present_today (logs ++ alpha_rows nims jid now seq) jid (date_of now)
  = present_today logs jid (date_of now) ∪ list_to_set nims.
Proof.
  apply set_eq. intros nim. rewrite elem_of_union, elem_of_list_to_set. split.
  - intros (r & [Hr|Hr]%elem_of_app & Hn & Hj & Hd)%elem_of_present_today.
    + left. apply elem_of_present_today. by exists r.
    + right. destruct (alpha_rows_elem _ _ _ _ _ Hr) as (_ & _ & Hin).
      by rewrite <- Hn.
  - intros H. by apply present_after_close.
Qed.

(** The answer of a close that follows a close of the same day. *)
Lemma close_session_idempotent_aux jid now now2 db j :
  find_jadwal db jid = Some j →
  date_of now2 = date_of now →
  ∃ summary2,
    close_class_session jid now2
      (store_after (close_class_session jid now db) db)
    = Ok (summary2, store_after (close_class_session jid now db) db)
    ∧ alpha summary2 = 0
    ∧ hadir summary2
      = Z.of_nat
          (size (present_today
                   (log_absensi (store_after (close_class_session jid now db) db))
                   jid (date_of now2))).
Proof.
  intros Hj Hday.
  pose proof (close_unfold jid now db j Hj) as Hc. cbv zeta in Hc.
  rewrite Hc. cbn [store_after].
  set (absent := filter _ (elements _)).
  set (db1 := close_video_tasks jid _).
  assert (find_jadwal db1 jid = Some j) as Hj1 by exact Hj.
  pose proof (close_unfold jid now2 db1 j Hj1) as Hc2. cbv zeta in Hc2.
  assert (filter (λ n, n ∉ present_today (log_absensi db1) jid (date_of now2))
            (elements (enrolled_with_face db1 (Jadwal.student_class_id j)))
          = []) as Hnone.
  { apply filter_none. intros n Hn Hnot. apply Hnot. simpl.
    apply present_after_close; [done|].
    destruct (decide (n ∈ present_today (log_absensi db) jid (date_of now)))
      as [Hp|Hp]; [left; by rewrite Hday|right].
    apply list_elem_of_filter. split; [done|exact Hn]. }
  rewrite Hnone in Hc2. cbn [alpha_rows List.length Z.of_nat] in Hc2.
  assert (close_video_tasks jid
            (mkDatabase (mahasiswa db1) (kelas_enrollment db1) (jadwal db1)
               (video_tasks db1) (log_absensi db1 ++ [])
               (log_id_seq db1 + Z.of_nat 0))
          = db1) as Hdb.
  { rewrite app_nil_r. change (Z.of_nat 0) with 0. rewrite Z.add_0_r.
    transitivity (close_video_tasks jid db1);
      [reflexivity | apply close_video_tasks_idemp]. }
  rewrite Hdb in Hc2.
  eexists. split; [exact Hc2|]. split; reflexivity.
Qed.

(** X6.  Closing an existing session leaves every student who is enrolled in
    the session's class with a registered embedding with a row for the
    session today, and answers with [alpha], the number of rows it added.
    Its [hadir] counts the students that had any row before the close,
    whatever the method: closing again on the same day reports the students
    marked absent by the first close among [hadir]. *)
Theorem close_session_accounts_for_everyone jid now now2 db j :
  find_jadwal db jid = Some j →
  date_of now2 = date_of now →
  ∃ summary db' summary2,
    close_class_session jid now db = Ok (summary, db')
    ∧ (∀ nim, is_enrolled db nim (Jadwal.student_class_id j) →
              has_face db nim →
              recorded_today (log_absensi db') nim jid (date_of now))
    ∧ Z.of_nat (List.length (log_absensi db'))
      = Z.of_nat (List.length (log_absensi db)) + alpha summary
    ∧ close_class_session jid now2 db' = Ok (summary2, db')
    ∧ alpha summary2 = 0
    ∧ hadir summary2 = hadir summary + alpha summary.
Proof.
  intros Hj Hday.
  pose proof (close_unfold jid now db j Hj) as Hc. cbv zeta in Hc.
  destruct (absentees_spec db jid (date_of now) (Jadwal.student_class_id j))
    as [Hnd Hin].
  set (present := present_today (log_absensi db) jid (date_of now)) in *.
  set (absent := filter _ (elements _)) in *.
  destruct (close_session_idempotent_aux jid now now2 db j Hj Hday)
    as (summary2 & Hc2 & Ha2 & Hh2).
  rewrite Hc in Hc2, Hh2. cbn [store_after] in Hc2, Hh2.
  change (log_absensi (close_video_tasks jid _))
    with (log_absensi db ++ alpha_rows absent jid now (log_id_seq db)) in Hh2.
  eexists _, _, summary2. split; [exact Hc|]. simpl.
  split_and!.
  - intros nim He Hf. apply elem_of_present_today. fold present.
    change (nim ∈ present_today
                    (log_absensi db ++ alpha_rows absent jid now (log_id_seq db))
                    jid (date_of now)).
    rewrite present_today_after_close. fold present.
    destruct (decide (nim ∈ present)) as [|Hnp];
      [by apply elem_of_union; left|].
    apply elem_of_union. right. apply elem_of_list_to_set, Hin.
    split; [done|]. by rewrite <- elem_of_present_today.
  - rewrite length_app. rewrite <- (alpha_rows_nims absent jid now (log_id_seq db)) at 2.
    rewrite length_fmap. lia.
  - exact Hc2.
  - exact Ha2.
  - rewrite Hh2, Hday, present_today_after_close. fold present.
    rewrite size_union.
    + rewrite size_list_to_set by done. lia.
    + intros nim Hp Ha%elem_of_list_to_set. apply Hin in Ha as [_ Hnr].
      apply Hnr. by apply elem_of_present_today.
Qed.

Lemma close_session_accounts_for_everyone_witness :
  (find_jadwal sample_db_after_a 1 = Some sample_jadwal
   ∧ date_of 360 = date_of 300)
  ∧ ∃ summary db' summary2,
      close_class_session 1 300 sample_db_after_a = Ok (summary, db')
      ∧ close_class_session 1 360 db' = Ok (summary2, db')
      ∧ alpha summary2 = 0
      ∧ hadir summary2 = hadir summary + alpha summary.
Proof.
  split; [split; reflexivity|].
  destruct (close_session_accounts_for_everyone 1 300 360 sample_db_after_a
              sample_jadwal eq_refl eq_refl)
    as (summary & db' & summary2 & H1 & _ & _ & H2 & H3 & H4).
  exists summary, db', summary2.
  split; [exact H1|]. split; [exact H2|]. split; [exact H3|exact H4].
Defined.

(** X7.  A manual entry for a student whom closing the session has marked
    absent turns that very row into a MANUAL_DOSEN row: the dispute flag is
    off and the timestamp is the time of the entry, but the row keeps
    [jumlah_muncul = 0] and no emotion, where a manual entry without a prior
    row would have stored 1 and "Manual Input". *)
Theorem manual_entry_after_close_overrides_absence jid now now2 db j nim :
  enrollment_fk db →
  find_jadwal db jid = Some j →
  is_enrolled db nim (Jadwal.student_class_id j) →
  has_face db nim →
  ¬ recorded_today (log_absensi db) nim jid (date_of now) →
  date_of now2 = date_of now →
  ∃ msg db2 (i : nat) r,
    endpoint_manual_absen (mkManualAbsen nim jid) now2
      (store_after (close_class_session jid now db) db) = Ok (msg, db2)
    ∧ find_log (log_absensi db2) nim jid (date_of now) = Some (i, r)
    ∧ LogAbsensi.metode r = "MANUAL_DOSEN"
    ∧ LogAbsensi.jumlah_muncul r = 0
    ∧ LogAbsensi.emosi_dominan r = None
    ∧ LogAbsensi.is_disputed r = false
    ∧ LogAbsensi.waktu_absen r = now2
    ∧ List.length (log_absensi db2)
      = List.length (log_absensi (store_after (close_class_session jid now db) db)).
Proof.
  intros Hfk Hj He Hface Hnr Hday.
  pose proof (close_unfold jid now db j Hj) as Hc. cbv zeta in Hc.
  destruct (absentees_spec db jid (date_of now) (Jadwal.student_class_id j))
    as [Hnd Hin].
  set (absent := filter _ (elements _)) in *.
  rewrite Hc. cbn [store_after].
  set (db1 := close_video_tasks jid _).
  assert (log_absensi db1
          = log_absensi db ++ alpha_rows absent jid now (log_id_seq db)) as Hl1
    by reflexivity.
  destruct (manual_absen_accepts (mkManualAbsen nim jid) now2 db1 j)
    as [msg Hok]; [exact Hfk|exact Hj|exact He|].
  cbn [manual_nim manual_jadwal_id] in Hok.
  assert (∃ (i : nat) id,
            find_log (log_absensi db1) nim jid (date_of now2)
            = Some (i, alpha_log nim jid now id)) as (i & id & Hf).
  { assert (nim ∈ absent) as Ha by (by apply Hin).
    assert (recorded_today (log_absensi db1) nim jid (date_of now))
      as (r & Hr & Hrn & Hrj & Hrd).
    { apply elem_of_present_today. rewrite Hl1.
      apply present_after_close; [done|]. by right. }
    destruct (list_find_elem_of (log_matches nim jid (date_of now2))
                (log_absensi db1) r) as [[i r0] Hfind];
      [done|by rewrite Hday|].
    pose proof Hfind as (Hi & (Hn0 & Hj0 & Hd0) & _)%list_find_Some.
    apply list_elem_of_lookup_2 in Hi. rewrite Hl1 in Hi.
    apply elem_of_app in Hi as [Hi|Hi].
    - destruct Hnr. exists r0. rewrite <- Hday. by split_and!.
    - destruct (alpha_rows_elem _ _ _ _ _ Hi) as (id & Heq & _).
      exists i, id. unfold find_log. rewrite Hfind, Heq, Hn0. done. }
  rewrite Hf in Hok.
  eexists msg, _, i, _. split; [exact Hok|]. simpl.
  split.
  - rewrite <- Hday. eapply list_find_insert_hit; [exact Hf|].
    by split_and!.
  - split_and!; try done. by rewrite length_insert.
Qed.

Lemma sample_S3_enrolled_with_face :
  is_enrolled sample_db_after_a "S3" 10 ∧ has_face sample_db_after_a "S3".
Proof.
  split.
  - exists (KelasEnrollment.mk 3 "S3" 10).
    split; [|split; reflexivity]. apply list_elem_of_In. vm_compute. tauto.
  - exists (Mahasiswa.mk "S3" (Some 13) (Some [1%Q; 1%Q])).
    split; [|split; [reflexivity|by eexists]].
    apply list_elem_of_In. vm_compute. tauto.
Defined.

Lemma sample_S3_not_recorded :
  ¬ recorded_today (log_absensi sample_db_after_a) "S3" 1 (date_of 300).
Proof.
  rewrite <- elem_of_present_today.
  apply (bool_decide_unpack
           ("S3" ∉ present_today (log_absensi sample_db_after_a) 1 (date_of 300))).
  vm_compute. exact I.
Defined.

Lemma manual_entry_after_close_overrides_absence_witness :
  ∃ msg db2 (i : nat) r,
    endpoint_manual_absen (mkManualAbsen "S3" 1) 400
      (store_after (close_class_session 1 300 sample_db_after_a)
         sample_db_after_a) = Ok (msg, db2)
    ∧ find_log (log_absensi db2) "S3" 1 (date_of 300) = Some (i, r)
    ∧ LogAbsensi.metode r = "MANUAL_DOSEN"
    ∧ LogAbsensi.jumlah_muncul r = 0.
Proof.
  destruct (manual_entry_after_close_overrides_absence 1 300 400
              sample_db_after_a sample_jadwal "S3" sample_db_fk eq_refl
              (proj1 sample_S3_enrolled_with_face)
              (proj2 sample_S3_enrolled_with_face)
              sample_S3_not_recorded eq_refl)
    as (msg & db2 & i & r & H1 & H2 & H3 & H4 & _).
  exists msg, db2, i, r.
  split; [exact H1|]. split; [exact H2|]. split; [exact H3|exact H4].
Defined.

(** ** Disputes *)

Lemma update_reported_lookup log_id alasan bukti logs (k : nat) :
  update_reported log_id alasan bukti logs !! k
  = (λ r, if bool_decide (LogAbsensi.log_id r = log_id)
          then report_values alasan bukti r else r) <$> logs !! k.
Proof. unfold update_reported. apply list_lookup_fmap. Qed.

Lemma update_reported_keys log_id alasan bukti logs :
  log_key <$> update_reported log_id alasan bukti logs = log_key <$> logs.
Proof.
  unfold update_reported. rewrite <- list_fmap_compose.
  apply list_fmap_ext. intros _ r _. simpl. by case_bool_decide.
Qed.

Lemma report_refused_iff db username r :
  match report_class db r with
  | Some cls => match find_enrollment db username cls with
                | None => true
                | Some _ => false
                end
  | None => false
  end = false
  ↔ ∀ cls, report_class db r = Some cls → is_enrolled db username cls.
Proof.
  destruct (report_class db r) as [cls|]; [|by split].
  destruct (find_enrollment db username cls) eqn:He; split; try done.
  - intros _ cls' [= <-]. apply find_enrollment_Some. by rewrite He.
  - intros H. specialize (H cls eq_refl).
    apply find_enrollment_Some in H as [? H]. congruence.
Qed.

Lemma submit_report_accepted log_id alasan foto username db (k : nat) r :
  list_find (λ r, LogAbsensi.log_id r = log_id) (log_absensi db) = Some (k, r) →
  may_report db username r →
  student_submit_report log_id alasan foto username db
  = Ok (match foto with
        | foto_saved path => Some path
        | no_foto | foto_failed => LogAbsensi.bukti_foto r
        end,
        set_log_absensi
          (update_reported log_id alasan
             match foto with
             | foto_saved path => Some path
             | no_foto | foto_failed => LogAbsensi.bukti_foto r
             end (log_absensi db)) db).
Proof.
  intros Hf [Hown Hen]. unfold student_submit_report. rewrite Hf.
  rewrite bool_decide_eq_false_2 by (by intros ?).
  by rewrite (proj2 (report_refused_iff db username r) Hen).
Qed.

(** X8.  A report is accepted exactly when a row with the given id exists,
    belongs to the reporting student and, if its session carries a student
    class, the student is enrolled in that class; otherwise the endpoint
    raises and the store stays as it was.  An accepted report sets the
    dispute flag and the reason on the row with that id and stores the new
    photo if one was saved (the old one otherwise); it changes neither the
    method, the count, the emotion nor the timestamp of that row, touches
    no other row, and keeps at most one row per (student, session, day). *)
Theorem report_flags_only_the_own_row log_id alasan foto username db :
  let resp := student_submit_report log_id alasan foto username db in
  ((∃ answer, resp = Ok answer)
   ↔ ∃ (k : nat) r,
       list_find (λ r, LogAbsensi.log_id r = log_id) (log_absensi db) = Some (k, r)
       ∧ may_report db username r)
  ∧ ((¬ ∃ answer, resp = Ok answer) → store_after resp db = db)
  ∧ (∀ bukti db',
       resp = Ok (bukti, db') →
       (∀ (k : nat) r,
          log_absensi db !! k = Some r →
          ∃ r', log_absensi db' !! k = Some r'
                ∧ same_identity r r'
                ∧ LogAbsensi.metode r' = LogAbsensi.metode r
                ∧ LogAbsensi.jumlah_muncul r' = LogAbsensi.jumlah_muncul r
                ∧ LogAbsensi.emosi_dominan r' = LogAbsensi.emosi_dominan r
                ∧ LogAbsensi.waktu_absen r' = LogAbsensi.waktu_absen r
                ∧ (LogAbsensi.log_id r ≠ log_id → r' = r)
                ∧ (LogAbsensi.log_id r = log_id →
                   LogAbsensi.is_disputed r' = true
                   ∧ LogAbsensi.keterangan_report r' = Some alasan
                   ∧ LogAbsensi.bukti_foto r' = bukti))
       ∧ List.length (log_absensi db') = List.length (log_absensi db)
       ∧ (unique_per_day (log_absensi db) → unique_per_day (log_absensi db'))
       ∧ kelas_enrollment db' = kelas_enrollment db
       ∧ video_tasks db' = video_tasks db).
Proof.
  simpl. split_and!.
  - split.
    + intros [answer Hok]. unfold student_submit_report in Hok.
      destruct (list_find _ _) as [[k r]|] eqn:Hf; [|done].
      exists k, r. split; [done|].
      case_bool_decide as Hown; [done|].
      destruct (match report_class db r with
                | Some cls => _ | None => false end) eqn:Href; [done|].
      split; [exact Hown|]. by apply report_refused_iff.
    + intros (k & r & Hf & Hmay). eexists.
      by apply (submit_report_accepted _ _ _ _ _ k r).
  - intros Hno. destruct (student_submit_report _ _ _ _ _) as [[? ?]|e] eqn:E;
      [|done].
    destruct Hno. by eexists.
  - intros bukti db' Hok. unfold student_submit_report in Hok.
    destruct (list_find _ _) as [[k0 r0]|] eqn:Hf; [|done].
    case_bool_decide; [done|].
    destruct (match report_class db r0 with
              | Some cls => _ | None => false end); [done|].
    injection Hok as <- <-. simpl. split_and!.
    + intros k r Hk. rewrite update_reported_lookup, Hk. simpl.
      case_bool_decide as Hid.
      * eexists. split; [done|]. by split_and!.
      * eexists. split; [done|]. split_and!; done || apply same_identity_refl.
    + unfold update_reported. by rewrite length_fmap.
    + unfold unique_per_day. by rewrite update_reported_keys.
    + done.
    + done.
Qed.

(** Under the invariant, the lookup for a key returns the row that carries
    it, wherever it lies. *)
Lemma find_log_unique logs nim jid today (k : nat) r :
  unique_per_day logs →
  logs !! k = Some r →
  log_matches nim jid today r →
  find_log logs nim jid today = Some (k, r).
Proof.
  intros Hu Hk Hm. apply list_find_Some. split_and!; [done..|].
  intros i r0 Hi Hlt (Hn0 & Hj0 & Hd0). destruct Hm as (Hn & Hj & Hd).
  assert (i = k); [|lia].
  eapply (NoDup_lookup _ i k (log_key r)); [exact Hu| |].
  - rewrite list_lookup_fmap, Hi. simpl. unfold log_key. congruence.
  - by rewrite list_lookup_fmap, Hk.
Qed.

(** X9.  When a student disputes their row of today and the instructor then
    enters the student by hand for the same session, the row ends with
    method MANUAL_DOSEN, the dispute flag off and the reason cleared; the
    count is the one the row had, and the photo is the one the report left
    on the row (the student's upload, if one was saved). *)
Theorem manual_entry_resolves_a_report
    log_id alasan foto now db j jid (k : nat) r :
  enrollment_fk db →
  unique_per_day (log_absensi db) →
  find_jadwal db jid = Some j →
  is_enrolled db (LogAbsensi.nim r) (Jadwal.student_class_id j) →
  list_find (λ r, LogAbsensi.log_id r = log_id) (log_absensi db) = Some (k, r) →
  LogAbsensi.jadwal_id r = Some jid →
  date_of (LogAbsensi.waktu_absen r) = date_of now →
  ∃ bukti db1 msg db2 r2,
    student_submit_report log_id alasan foto (LogAbsensi.nim r) db
    = Ok (bukti, db1)
    ∧ endpoint_manual_absen (mkManualAbsen (LogAbsensi.nim r) jid) now db1
      = Ok (msg, db2)
    ∧ log_absensi db2 !! k = Some r2
    ∧ LogAbsensi.metode r2 = "MANUAL_DOSEN"
    ∧ LogAbsensi.is_disputed r2 = false
    ∧ LogAbsensi.keterangan_report r2 = None
    ∧ LogAbsensi.waktu_absen r2 = now
    ∧ LogAbsensi.jumlah_muncul r2 = LogAbsensi.jumlah_muncul r
    ∧ LogAbsensi.bukti_foto r2 = bukti
    ∧ List.length (log_absensi db2) = List.length (log_absensi db).
Proof.
  intros Hfk Hu Hj He Hf Hjid Hday.
  assert (may_report db (LogAbsensi.nim r) r) as Hmay.
  { split; [done|]. intros cls. unfold report_class, jadwal_of_log.
    rewrite Hjid, Hj. case_bool_decide; [done|]. by intros [= <-]. }
  pose proof (submit_report_accepted log_id alasan foto _ db k r Hf Hmay) as Hok.
  set (bukti := match foto with
                | foto_saved path => Some path
                | _ => LogAbsensi.bukti_foto r
                end) in *.
  set (db1 := set_log_absensi _ db) in *.
  pose proof Hf as (Hk & Hid & _)%list_find_Some.
  assert (log_absensi db1 !! k = Some (report_values alasan bukti r)) as Hk1.
  { subst db1. simpl. rewrite update_reported_lookup, Hk. simpl.
    by rewrite bool_decide_eq_true_2. }
  assert (unique_per_day (log_absensi db1)) as Hu1.
  { subst db1. unfold unique_per_day. simpl. by rewrite update_reported_keys. }
  destruct (manual_absen_accepts (mkManualAbsen (LogAbsensi.nim r) jid) now db1 j)
    as [msg Hm]; [exact Hfk|exact Hj|exact He|].
  cbn [manual_nim manual_jadwal_id] in Hm.
  rewrite (find_log_unique _ _ _ _ k (report_values alasan bukti r) Hu1 Hk1) in Hm
    by (by split_and!).
  eexists bukti, db1, msg, _, _. split; [exact Hok|]. split; [exact Hm|].
  simpl. split.
  - apply list_lookup_insert_eq. unfold update_reported. rewrite length_fmap.
    by eapply lookup_lt_Some.
  - split_and!; try done. unfold update_reported.
    by rewrite length_insert, length_fmap.
Qed.

Lemma manual_entry_resolves_a_report_witness :
  ∃ bukti db1 msg db2 r2,
    student_submit_report 2 "bukan saya" (foto_saved "/hasil_crop/reports/r.jpg")
      "S2" sample_db_after_a = Ok (bukti, db1)
    ∧ endpoint_manual_absen (mkManualAbsen "S2" 1) 400 db1 = Ok (msg, db2)
    ∧ log_absensi db2 !! 1%nat = Some r2
    ∧ LogAbsensi.metode r2 = "MANUAL_DOSEN"
    ∧ LogAbsensi.is_disputed r2 = false
    ∧ LogAbsensi.bukti_foto r2 = bukti.
Proof.
  assert (is_enrolled sample_db_after_a "S2" 10) as He.
  { exists (KelasEnrollment.mk 2 "S2" 10).
    split; [|split; reflexivity]. apply list_elem_of_In. vm_compute. tauto. }
  destruct (manual_entry_resolves_a_report 2 "bukan saya"
              (foto_saved "/hasil_crop/reports/r.jpg") 400 sample_db_after_a
              sample_jadwal 1 1%nat
              (LogAbsensi.mk 2 (Some "task-a") "S2" (Some 1) 100 "AI_VIDEO" 1
                 (Some "Neutral") None false None)
              sample_db_fk sample_db_after_a_unique eq_refl He eq_refl eq_refl
              eq_refl)
    as (bukti & db1 & msg & db2 & r2 & H1 & H2 & H3 & H4 & H5 & _ & _ & _ & H9 & _).
  exists bukti, db1, msg, db2, r2.
  split; [exact H1|]. split; [exact H2|]. split; [exact H3|].
  split; [exact H4|]. split; [exact H5|exact H9].
Defined.

(** ** The attendance view *)

Lemma string_ltb_false (s1 s2 : string) :
  String.ltb s2 s1 = false ↔ String.leb s1 s2 = true.
Proof.
  unfold String.ltb, String.leb. rewrite (String.compare_antisym s1 s2).
  by destruct (String.compare s2 s1).
Qed.

(** The sort order: first by the two flags, then by name. *)
Lemma key_le_spec (k1 k2 : bool * bool * string) :
  key_le k1 k2
  ↔ key_code k1 < key_code k2
    ∨ (key_code k1 = key_code k2 ∧ String.leb k1.2 k2.2 = true).
Proof.
  destruct k1 as [[a1 b1] s1], k2 as [[a2 b2] s2].
  unfold key_le, key_ltb, key_code. simpl.
  destruct a1, b1, a2, b2; simpl; rewrite ?string_ltb_false;
    split; (try (intros [?|[? ?]]); try done; try lia; auto).
Qed.

Lemma key_le_trans k1 k2 k3 : key_le k1 k2 → key_le k2 k3 → key_le k1 k3.
Proof.
  rewrite !key_le_spec. intros [H12|[H12 S12]] [H23|[H23 S23]];
    [left; lia..|].
  right. split; [lia|].
  apply Is_true_true. apply Is_true_true in S12, S23.
  by apply (transitivity (R:=String.le) S12 S23).
Qed.

Lemma key_ltb_le k1 k2 : key_ltb k1 k2 = true → key_le k1 k2.
Proof.
  destruct k1 as [[a1 b1] s1], k2 as [[a2 b2] s2].
  unfold key_le, key_ltb.
  destruct a1, b1, a2, b2; simpl; try done.
  all: unfold String.ltb; rewrite (String.compare_antisym s2 s1);
    by destruct (String.compare s1 s2).
Qed.

Lemma insert_row_perm x rows : insert_row x rows ≡ₚ x :: rows.
Proof.
  induction rows as [|y rows IH]; cbn [insert_row]; [done|].
  destruct (key_ltb (sort_key y) (sort_key x)); [|reflexivity].
  rewrite IH. apply Permutation_swap.
Qed.

Lemma sort_rows_perm rows : sort_rows rows ≡ₚ rows.
Proof.
  induction rows as [|x rows IH]; [done|].
  change (sort_rows (x :: rows)) with (insert_row x (sort_rows rows)).
  by rewrite insert_row_perm, IH.
Qed.

Lemma insert_row_sorted x rows :
  StronglySorted row_le rows → StronglySorted row_le (insert_row x rows).
Proof.
  induction 1 as [|y rows Hs IH Hall]; cbn [insert_row].
  - by repeat constructor.
  - destruct (key_ltb (sort_key y) (sort_key x)) eqn:Hlt.
    + constructor; [done|]. rewrite insert_row_perm.
      constructor; [by apply key_ltb_le|done].
    + constructor; [by constructor|]. constructor; [exact Hlt|].
      eapply Forall_impl; [exact Hall|]. intros z Hz.
      by apply (key_le_trans _ (sort_key y)).
Qed.

Lemma sort_rows_sorted rows : StronglySorted row_le (sort_rows rows).
Proof.
  induction rows as [|x rows IH]; [constructor|].
  change (sort_rows (x :: rows)) with (insert_row x (sort_rows rows)).
  by apply insert_row_sorted.
Qed.

Lemma strongly_sorted_lookup {A} (R : A → A → Prop) (l : list A)
    (i k : nat) a b :
  StronglySorted R l → (i < k)%nat → l !! i = Some a → l !! k = Some b → R a b.
Proof.
  intros Hs. revert i k. induction Hs as [|x l Hs IH Hall]; intros i k Hik Hi Hk.
  - by rewrite lookup_nil in Hi.
  - destruct k as [|k]; [lia|]. destruct i as [|i]; simplify_eq/=.
    + rewrite Forall_forall in Hall. apply Hall. by eapply list_elem_of_lookup_2.
    + apply (IH i k); [lia|done..].
Qed.

Lemma elem_of_enrolled_students db cls m :
  m ∈ enrolled_students db cls
  ↔ m ∈ mahasiswa db ∧ is_Some (Mahasiswa.embedding_data m)
    ∧ is_enrolled db (Mahasiswa.nim m) cls.
Proof.
  unfold enrolled_students, is_enrolled. rewrite list_elem_of_bind. split.
  - intros (m0 & Hin & Hm). apply list_elem_of_bind in Hin as (e & Hin & He).
    case_bool_decide as Hc; [|by apply elem_of_nil in Hin].
    apply list_elem_of_singleton in Hin as ->.
    destruct Hc as (Hn & Hcls & Hface). split_and!; [done..|]. by exists e.
  - intros (Hm & Hface & e & He & Hn & Hcls).
    exists m. split; [|done]. apply list_elem_of_bind. exists e. split; [|done].
    rewrite bool_decide_eq_true_2 by done. apply list_elem_of_here.
Qed.

(** The dictionary of the view holds, for each student, the last of the
    rows it was built from. *)
Lemma attendance_map_last logs nim :
  attendance_map logs !! nim = last (filter (λ r, LogAbsensi.nim r = nim) logs).
Proof.
  unfold attendance_map.
  induction logs as [|r logs IH] using rev_ind; [done|].
  rewrite foldl_app. simpl. rewrite filter_app, filter_cons, filter_nil.
  destruct (decide (LogAbsensi.nim r = nim)) as [Hn|Hn].
  - rewrite Hn, lookup_insert_eq. by rewrite last_snoc.
  - rewrite lookup_insert_ne by done. by rewrite app_nil_r.
Qed.

(** Under the invariant, the rows of a key are the row of the lookup. *)
Lemma filter_matches_unique logs nim jid today :
  unique_per_day logs →
  filter (log_matches nim jid today) logs
  = match find_log logs nim jid today with
    | Some (_, r) => [r]
    | None => []
    end.
Proof.
  unfold unique_per_day, find_log.
  induction logs as [|r logs IH]; intros Hu; [done|].
  rewrite fmap_cons in Hu. apply NoDup_cons in Hu as [Hfresh Hu].
  rewrite filter_cons. simpl. destruct (decide (log_matches nim jid today r))
    as [Hm|Hm].
  - f_equal. apply filter_none. intros r' Hr' Hm'. apply Hfresh.
    apply list_elem_of_fmap. exists r'. split; [|done].
    destruct Hm as (? & ? & ?), Hm' as (? & ? & ?). unfold log_key. congruence.
  - rewrite (IH Hu). by destruct (list_find _ logs) as [[? ?]|].
Qed.

Lemma attendance_map_lookup logs nim jid today :
  unique_per_day logs →
  attendance_map (logs_today logs jid today) !! nim
  = snd <$> find_log logs nim jid today.
Proof.
  intros Hu. rewrite attendance_map_last. unfold logs_today.
  rewrite list_filter_filter.
  rewrite (list_filter_iff _ (log_matches nim jid today))
    by (intros r; unfold log_matches; tauto).
  rewrite (filter_matches_unique _ _ _ _ Hu).
  by destruct (find_log logs nim jid today) as [[? ?]|].
Qed.

Lemma merge_student_shown users amap student :
  shown_for (amap !! Mahasiswa.nim student) (merge_student users amap student)
  ∧ row_nim (merge_student users amap student) = Mahasiswa.nim student.
Proof.
  unfold merge_student, shown_for.
  destruct (amap !! Mahasiswa.nim student) as [log|]; [|done].
  cbn zeta. destruct (LogAbsensi.is_disputed log); [done|].
  by case_bool_decide.
Qed.

Lemma view_unfold jid now users db j :
  find_jadwal db jid = Some j → Jadwal.student_class_id j ≠ 0 →
  get_session_attendance_sync jid now users db
  = Ok (sort_rows
          (merge_student users
             (attendance_map (logs_today (log_absensi db) jid (date_of now)))
             <$> enrolled_students db (Jadwal.student_class_id j))).
Proof.
  intros Hj Hc. unfold get_session_attendance_sync.
  by rewrite Hj, bool_decide_eq_false_2.
Qed.

(** Each row of the view comes from a listed student and shows what the
    lookup of the ledger returns for them. *)
Lemma view_row_shown jid now users db j row :
  unique_per_day (log_absensi db) →
  row ∈ sort_rows
          (merge_student users
             (attendance_map (logs_today (log_absensi db) jid (date_of now)))
             <$> enrolled_students db (Jadwal.student_class_id j)) →
  shown_for
    (snd <$> find_log (log_absensi db) (row_nim row) jid (date_of now)) row
  ∧ is_enrolled db (row_nim row) (Jadwal.student_class_id j)
  ∧ has_face db (row_nim row).
Proof.
  intros Hu Hrow. rewrite sort_rows_perm in Hrow.
  apply list_elem_of_fmap in Hrow as (m & -> & Hm).
  destruct (merge_student_shown users
              (attendance_map (logs_today (log_absensi db) jid (date_of now))) m)
    as [Hs ->].
  rewrite attendance_map_lookup in Hs by done.
  apply elem_of_enrolled_students in Hm as (Hin & Hface & He).
  split_and!; [done..|]. by exists m.
Qed.

Lemma key_code_rank row :
  key_code (sort_key row) = status_rank (row_status row) + 1.
Proof.
  unfold key_code, sort_key, status_rank. simpl.
  destruct (String.eqb_spec (row_status row) "LAPOR") as [->|_]; [done|].
  by destruct (String.eqb (row_status row) "HADIR").
Qed.

Lemma row_le_spec a b :
  row_le a b →
  status_rank (row_status a) ≤ status_rank (row_status b)
  ∧ (row_status a = row_status b →
     String.leb (row_nama a) (row_nama b) = true).
Proof.
  unfold row_le. rewrite key_le_spec, !key_code_rank.
  intros [Hlt|[Heq Hle]]; (split; [lia|]).
  - intros Hs. rewrite Hs in Hlt. lia.
  - done.
Qed.

(** What the view answers for a session with a class: the sorted rows of
    the students listed for the class, each showing the row that the lookup
    of the ledger returns. *)
Lemma view_spec jid now users db j :
  find_jadwal db jid = Some j → Jadwal.student_class_id j ≠ 0 →
  ∃ rows,
    get_session_attendance_sync jid now users db = Ok rows
    ∧ StronglySorted row_le rows
    ∧ (∀ nim, nim ∈ row_nim <$> rows
              ↔ is_enrolled db nim (Jadwal.student_class_id j) ∧ has_face db nim)
    ∧ (unique_per_day (log_absensi db) →
       ∀ row, row ∈ rows →
         shown_for
           (snd <$> find_log (log_absensi db) (row_nim row) jid (date_of now))
           row).
Proof.
  intros Hj Hc. eexists. split; [by apply view_unfold|].
  split; [apply sort_rows_sorted|]. split.
  - intros nim. rewrite sort_rows_perm, <- list_fmap_compose. split.
    + intros (m & -> & Hm)%list_elem_of_fmap. simpl.
      destruct (merge_student_shown users
        (attendance_map (logs_today (log_absensi db) jid (date_of now))) m)
        as [_ ->].
      apply elem_of_enrolled_students in Hm as (Hin & Hface & He).
      split; [done|]. by exists m.
    + intros [He (m & Hin & <- & Hface)]. apply list_elem_of_fmap.
      exists m. split.
      * simpl. by destruct (merge_student_shown users
          (attendance_map (logs_today (log_absensi db) jid (date_of now))) m)
          as [_ ->].
      * by apply elem_of_enrolled_students.
  - intros Hu row Hrow. by apply (view_row_shown jid now users db j row Hu).
Qed.

(** X10.  For a session with a student class the attendance view lists
    exactly the students who are enrolled in that class and have a
    registered embedding; every row has status LAPOR, HADIR or ALPHA, and
    the rows come with the disputed ones first, then the present, then the
    absent, each group ordered by name. *)
Theorem attendance_view_is_sorted_and_complete jid now users db j :
  find_jadwal db jid = Some j →
  Jadwal.student_class_id j ≠ 0 →
  ∃ rows,
    get_session_attendance_sync jid now users db = Ok rows
    ∧ (∀ nim, nim ∈ row_nim <$> rows
              ↔ is_enrolled db nim (Jadwal.student_class_id j) ∧ has_face db nim)
    ∧ (∀ row, row ∈ rows → row_status row ∈ ["LAPOR"; "HADIR"; "ALPHA"])
    ∧ (∀ (i k : nat) a b,
         (i < k)%nat → rows !! i = Some a → rows !! k = Some b →
         status_rank (row_status a) ≤ status_rank (row_status b)
         ∧ (row_status a = row_status b →
            String.leb (row_nama a) (row_nama b) = true)).
Proof.
  intros Hj Hc.
  destruct (view_spec jid now users db j Hj Hc) as (rows & Hv & Hs & Hl & _).
  exists rows. split; [exact Hv|]. split; [exact Hl|]. split.
  - intros row Hrow. rewrite (view_unfold jid now users db j Hj Hc) in Hv.
    injection Hv as <-. rewrite sort_rows_perm in Hrow.
    apply list_elem_of_fmap in Hrow as (m & -> & _).
    unfold merge_student.
    destruct (_ !! Mahasiswa.nim m) as [log|]; simpl.
    + destruct (LogAbsensi.is_disputed log); simpl; [apply list_elem_of_here|].
      case_bool_decide; simpl.
      * do 2 apply list_elem_of_further. apply list_elem_of_here.
      * apply list_elem_of_further, list_elem_of_here.
    + do 2 apply list_elem_of_further. apply list_elem_of_here.
  - intros i k a b Hik Hi Hk. apply row_le_spec.
    by apply (strongly_sorted_lookup row_le rows i k).
Qed.

Lemma attendance_view_is_sorted_and_complete_witness :
  ∃ rows,
    get_session_attendance_sync 1 200 sample_users sample_db_after_a = Ok rows
    ∧ (∀ nim, nim ∈ row_nim <$> rows
              ↔ is_enrolled sample_db_after_a nim 10
                ∧ has_face sample_db_after_a nim).
Proof.
  destruct (attendance_view_is_sorted_and_complete 1 200 sample_users
              sample_db_after_a sample_jadwal eq_refl)
    as (rows & H1 & H2 & _).
  - simpl. lia.
  - exists rows. split; [exact H1|exact H2].
Defined.

(** X11.  While the ledger holds at most one row per (student, session,
    day), each row of the view shows the ledger's row for that student,
    session and day: LAPOR when the row is under dispute, else ALPHA when
    its method is ALPHA_SYSTEM, else HADIR, with the row's method, reason
    and photo; a student without a row is shown as ALPHA with method "-". *)
Theorem attendance_view_reflects_the_ledger jid now users db rows row :
  unique_per_day (log_absensi db) →
  get_session_attendance_sync jid now users db = Ok rows →
  row ∈ rows →
  shown_for
    (snd <$> find_log (log_absensi db) (row_nim row) jid (date_of now)) row.
Proof.
  intros Hu Hv Hrow. unfold get_session_attendance_sync in Hv.
  destruct (find_jadwal db jid) as [j|] eqn:Hj; [|done].
  case_bool_decide as Hc; [done|]. injection Hv as <-.
  by apply (view_row_shown jid now users db j row Hu).
Qed.

Lemma attendance_view_reflects_the_ledger_witness :
  shown_for
    (snd <$> find_log (log_absensi sample_db_after_a) "S1" 1 (date_of 200))
    (mkAttendanceRow "S1" "Citra" "HADIR" "AI_VIDEO" false None
       (Some "/hasil_crop/task-a_S1_0.jpg")).
Proof.
  assert (get_session_attendance_sync 1 200 sample_users sample_db_after_a
          = Ok sample_view) as Hv by (vm_compute; reflexivity).
  assert (mkAttendanceRow "S1" "Citra" "HADIR" "AI_VIDEO" false None
            (Some "/hasil_crop/task-a_S1_0.jpg") ∈ sample_view) as Hin
    by apply list_elem_of_further, list_elem_of_here.
  exact (attendance_view_reflects_the_ledger 1 200 sample_users
           sample_db_after_a sample_view _ sample_db_after_a_unique Hv Hin).
Defined.

(** The row of the view for a listed student whose ledger row is known. *)
Lemma view_of_student jid now users db j nim (k : nat) r :
  find_jadwal db jid = Some j → Jadwal.student_class_id j ≠ 0 →
  unique_per_day (log_absensi db) →
  is_enrolled db nim (Jadwal.student_class_id j) → has_face db nim →
  find_log (log_absensi db) nim jid (date_of now) = Some (k, r) →
  ∃ rows,
    get_session_attendance_sync jid now users db = Ok rows
    ∧ (∃ row, row ∈ rows ∧ row_nim row = nim)
    ∧ (∀ row, row ∈ rows → row_nim row = nim → shown_for (Some r) row).
Proof.
  intros Hj Hc Hu He Hface Hf.
  destruct (view_spec jid now users db j Hj Hc) as (rows & Hv & _ & Hl & Hs).
  exists rows. split; [exact Hv|]. split.
  - pose proof (proj2 (Hl nim) (conj He Hface)) as Hin.
    apply list_elem_of_fmap in Hin as (row & -> & Hrow). by exists row.
  - intros row Hrow Hn. specialize (Hs Hu row Hrow). by rewrite Hn, Hf in Hs.
Qed.

(** What an accepted manual entry leaves in the store. *)
Lemma manual_absen_store nim jid now db j :
  enrollment_fk db →
  find_jadwal db jid = Some j →
  is_enrolled db nim (Jadwal.student_class_id j) →
  ∃ msg db' (i : nat) r',
    endpoint_manual_absen (mkManualAbsen nim jid) now db = Ok (msg, db')
    ∧ mahasiswa db' = mahasiswa db
    ∧ kelas_enrollment db' = kelas_enrollment db
    ∧ jadwal db' = jadwal db
    ∧ find_log (log_absensi db') nim jid (date_of now) = Some (i, r')
    ∧ LogAbsensi.metode r' = "MANUAL_DOSEN"
    ∧ LogAbsensi.is_disputed r' = false
    ∧ LogAbsensi.keterangan_report r' = None.
Proof.
  intros Hfk Hj He.
  destruct (manual_absen_accepts (mkManualAbsen nim jid) now db j Hfk Hj He)
    as [msg Hok].
  cbn [manual_nim manual_jadwal_id] in Hok.
  destruct (find_log (log_absensi db) nim jid (date_of now)) as [[i r]|] eqn:Hf.
  - eexists msg, _, i, (LogAbsensi.force_manual now r).
    split; [exact Hok|]. split_and!; try reflexivity.
    cbn [log_absensi set_log_absensi].
    apply (list_find_insert_hit _ _ i r); [exact Hf|].
    apply log_matches_force_manual. by apply list_find_Some in Hf as (_ & ? & _).
  - eexists msg, _, _, _. split; [exact Hok|].
    split; [reflexivity|]. split; [reflexivity|]. split; [reflexivity|].
    split.
    { cbn [log_absensi db_add]. apply list_find_snoc_new; [exact Hf|].
      by split_and!. }
    split_and!; reflexivity.
Qed.

(** X12.  After an accepted manual entry the view of the session on that
    day lists the student (when they have a registered embedding) as HADIR
    with method MANUAL_DOSEN and no dispute, whatever their row said
    before. *)
Theorem manual_entry_shows_as_present jid now now2 users db j nim :
  enrollment_fk db →
  unique_per_day (log_absensi db) →
  find_jadwal db jid = Some j →
  Jadwal.student_class_id j ≠ 0 →
  is_enrolled db nim (Jadwal.student_class_id j) →
  has_face db nim →
  date_of now2 = date_of now →
  ∃ msg db' rows,
    endpoint_manual_absen (mkManualAbsen nim jid) now db = Ok (msg, db')
    ∧ get_session_attendance_sync jid now2 users db' = Ok rows
    ∧ (∃ row, row ∈ rows ∧ row_nim row = nim)
    ∧ (∀ row, row ∈ rows → row_nim row = nim →
         row_status row = "HADIR" ∧ row_metode row = "MANUAL_DOSEN"
         ∧ row_is_disputed row = false ∧ row_keterangan_report row = None).
Proof.
  intros Hfk Hu Hj Hc He Hface Hday.
  destruct (manual_absen_store nim jid now db j Hfk Hj He)
    as (msg & db' & i & r' & Hok & Hm & Hk & Hjd & Hf & Hmet & Hdis & Hket).
  pose proof (manual_absen_unique (mkManualAbsen nim jid) now db Hu) as Hu'.
  rewrite Hok in Hu'. cbn [store_after] in Hu'.
  destruct (view_of_student jid now2 users db' j nim i r')
    as (rows & Hv & Hex & Hall).
  - unfold find_jadwal. rewrite Hjd. exact Hj.
  - exact Hc.
  - exact Hu'.
  - unfold is_enrolled. rewrite Hk. exact He.
  - unfold has_face. rewrite Hm. exact Hface.
  - rewrite Hday. exact Hf.
  - exists msg, db', rows. split; [exact Hok|]. split; [exact Hv|].
    split; [exact Hex|]. intros row Hrow Hn.
    destruct (Hall row Hrow Hn) as (Hs & Hme & Hd & Hke & _).
    rewrite Hdis, Hmet in Hs. rewrite Hmet in Hme. rewrite Hdis in Hd.
    rewrite Hket in Hke. by split_and!.
Qed.

Lemma manual_entry_shows_as_present_witness :
  ∃ msg db' rows,
    endpoint_manual_absen (mkManualAbsen "S3" 1) 150 sample_db_after_a
    = Ok (msg, db')
    ∧ get_session_attendance_sync 1 200 sample_users db' = Ok rows
    ∧ ∃ row, row ∈ rows ∧ row_nim row = "S3".
Proof.
  assert (Jadwal.student_class_id sample_jadwal ≠ 0) as Hc by (simpl; lia).
  destruct (manual_entry_shows_as_present 1 150 200 sample_users
              sample_db_after_a sample_jadwal "S3" sample_db_fk
              sample_db_after_a_unique eq_refl Hc
              (proj1 sample_S3_enrolled_with_face)
              (proj2 sample_S3_enrolled_with_face) eq_refl)
    as (msg & db' & rows & H1 & H2 & H3 & _).
  exists msg, db', rows. split; [exact H1|]. split; [exact H2|exact H3].
Defined.

(** What an accepted report on a row of the session leaves in the store. *)
Lemma report_store log_id alasan foto now db j jid (k : nat) r :
  unique_per_day (log_absensi db) →
  find_jadwal db jid = Some j →
  is_enrolled db (LogAbsensi.nim r) (Jadwal.student_class_id j) →
  list_find (λ r, LogAbsensi.log_id r = log_id) (log_absensi db) = Some (k, r) →
  LogAbsensi.jadwal_id r = Some jid →
  date_of (LogAbsensi.waktu_absen r) = date_of now →
  ∃ bukti db1,
    student_submit_report log_id alasan foto (LogAbsensi.nim r) db
    = Ok (bukti, db1)
    ∧ bukti = match foto with
              | foto_saved path => Some path
              | no_foto | foto_failed => LogAbsensi.bukti_foto r
              end
    ∧ mahasiswa db1 = mahasiswa db
    ∧ kelas_enrollment db1 = kelas_enrollment db
    ∧ jadwal db1 = jadwal db
    ∧ unique_per_day (log_absensi db1)
    ∧ find_log (log_absensi db1) (LogAbsensi.nim r) jid (date_of now)
      = Some (k, report_values alasan bukti r).
Proof.
  intros Hu Hj He Hf Hjid Hday.
  assert (may_report db (LogAbsensi.nim r) r) as Hmay.
  { split; [done|]. intros cls. unfold report_class, jadwal_of_log.
    rewrite Hjid, Hj. case_bool_decide; [done|]. by intros [= <-]. }
  pose proof (submit_report_accepted log_id alasan foto _ db k r Hf Hmay) as Hok.
  set (bukti := match foto with
                | foto_saved path => Some path
                | _ => LogAbsensi.bukti_foto r
                end) in *.
  pose proof Hf as (Hk & Hid & _)%list_find_Some.
  assert (unique_per_day (update_reported log_id alasan bukti (log_absensi db)))
    as Hu1.
  { unfold unique_per_day. by rewrite update_reported_keys. }
  eexists bukti, _. split; [exact Hok|].
  split; [reflexivity|]. split; [reflexivity|]. split; [reflexivity|].
  split; [reflexivity|]. split; [exact Hu1|].
  cbn [log_absensi set_log_absensi].
  apply find_log_unique; [exact Hu1| |by split_and!].
  rewrite update_reported_lookup, Hk. simpl.
  by rewrite bool_decide_eq_true_2.
Qed.

(** X13.  After an accepted report on a student's row of the session and
    day, the view lists that student (when they have a registered
    embedding) as LAPOR, with the reason and the photo the report stored
    and the method the row already had. *)
Theorem accepted_report_shows_as_disputed
    log_id alasan foto now users db j jid (k : nat) r :
  unique_per_day (log_absensi db) →
  find_jadwal db jid = Some j →
  Jadwal.student_class_id j ≠ 0 →
  is_enrolled db (LogAbsensi.nim r) (Jadwal.student_class_id j) →
  has_face db (LogAbsensi.nim r) →
  list_find (λ r, LogAbsensi.log_id r = log_id) (log_absensi db) = Some (k, r) →
  LogAbsensi.jadwal_id r = Some jid →
  date_of (LogAbsensi.waktu_absen r) = date_of now →
  ∃ bukti db1 rows,
    student_submit_report log_id alasan foto (LogAbsensi.nim r) db
    = Ok (bukti, db1)
    ∧ get_session_attendance_sync jid now users db1 = Ok rows
    ∧ (∃ row, row ∈ rows ∧ row_nim row = LogAbsensi.nim r)
    ∧ (∀ row, row ∈ rows → row_nim row = LogAbsensi.nim r →
         row_status row = "LAPOR" ∧ row_is_disputed row = true
         ∧ row_keterangan_report row = Some alasan
         ∧ row_bukti_foto row = bukti
         ∧ row_metode row = LogAbsensi.metode r).
Proof.
  intros Hu Hj Hc He Hface Hf Hjid Hday.
  destruct (report_store log_id alasan foto now db j jid k r Hu Hj He Hf Hjid Hday)
    as (bukti & db1 & Hok & _ & Hm & Hk & Hjd & Hu1 & Hf1).
  destruct (view_of_student jid now users db1 j (LogAbsensi.nim r) k
              (report_values alasan bukti r))
    as (rows & Hv & Hex & Hall).
  - unfold find_jadwal. rewrite Hjd. exact Hj.
  - exact Hc.
  - exact Hu1.
  - unfold is_enrolled. rewrite Hk. exact He.
  - unfold has_face. rewrite Hm. exact Hface.
  - exact Hf1.
  - exists bukti, db1, rows. split; [exact Hok|]. split; [exact Hv|].
    split; [exact Hex|]. intros row Hrow Hn.
    destruct (Hall row Hrow Hn) as (Hs & Hme & Hd & Hke & Hb).
    simpl in Hs, Hme, Hd, Hke, Hb. by split_and!.
Qed.

Lemma accepted_report_shows_as_disputed_witness :
  ∃ bukti db1 rows,
    student_submit_report 2 "bukan saya" no_foto "S2" sample_db_after_a
    = Ok (bukti, db1)
    ∧ get_session_attendance_sync 1 200 sample_users db1 = Ok rows
    ∧ ∃ row, row ∈ rows ∧ row_nim row = "S2".
Proof.
  assert (Jadwal.student_class_id sample_jadwal ≠ 0) as Hc by (simpl; lia).
  assert (is_enrolled sample_db_after_a "S2" 10) as He.
  { exists (KelasEnrollment.mk 2 "S2" 10).
    split; [|split; reflexivity]. apply list_elem_of_In. vm_compute. tauto. }
  assert (has_face sample_db_after_a "S2") as Hface.
  { exists (Mahasiswa.mk "S2" (Some 12) (Some [0%Q; 1%Q])).
    split; [|split; [reflexivity|by eexists]].
    apply list_elem_of_In. vm_compute. tauto. }
  destruct (accepted_report_shows_as_disputed 2 "bukan saya" no_foto 200
              sample_users sample_db_after_a sample_jadwal 1 1%nat
              (LogAbsensi.mk 2 (Some "task-a") "S2" (Some 1) 100 "AI_VIDEO" 1
                 (Some "Neutral") None false None)
              sample_db_after_a_unique eq_refl Hc He Hface eq_refl eq_refl
              eq_refl)
    as (bukti & db1 & rows & H1 & H2 & H3 & _).
  exists bukti, db1, rows. split; [exact H1|]. split; [exact H2|exact H3].
Defined.

(** X14.  After a session is closed its view shows no student without a
    ledger row: every listed student has a row for the session and day
    whose method the view shows, and the students who had none before the
    close are shown as ALPHA with method ALPHA_SYSTEM. *)
Theorem closed_session_view_has_no_gaps jid now now2 users db j :
  unique_per_day (log_absensi db) →
  find_jadwal db jid = Some j →
  Jadwal.student_class_id j ≠ 0 →
  date_of now2 = date_of now →
  ∃ summary db' rows,
    close_class_session jid now db = Ok (summary, db')
    ∧ get_session_attendance_sync jid now2 users db' = Ok rows
    ∧ (∀ row, row ∈ rows →
         (∃ r, r ∈ log_absensi db'
               ∧ log_matches (row_nim row) jid (date_of now) r
               ∧ row_metode row = LogAbsensi.metode r)
         ∧ (¬ recorded_today (log_absensi db) (row_nim row) jid (date_of now) →
            row_status row = "ALPHA" ∧ row_metode row = "ALPHA_SYSTEM"
            ∧ row_is_disputed row = false)).
Proof.
  intros Hu Hj Hc Hday.
  pose proof (close_unique jid now db Hu) as Hu'.
  pose proof (close_unfold jid now db j Hj) as Hcl. cbv zeta in Hcl.
  destruct (absentees_spec db jid (date_of now) (Jadwal.student_class_id j))
    as [_ Hin].
  set (absent := filter _ (elements _)) in *.
  rewrite Hcl in Hu'. cbn [store_after] in Hu'.
  set (db' := close_video_tasks jid _) in *.
  assert (log_absensi db'
          = log_absensi db ++ alpha_rows absent jid now (log_id_seq db))
    as Hlogs by reflexivity.
  destruct (view_spec jid now2 users db' j) as (rows & Hv & _ & Hl & Hs);
    [exact Hj|exact Hc|].
  exists (mkCloseSummary
            (Z.of_nat (size (present_today (log_absensi db) jid (date_of now))))
            (Z.of_nat (List.length absent))), db', rows.
  split; [exact Hcl|]. split; [exact Hv|].
  intros row Hrow. specialize (Hs Hu' row Hrow). rewrite Hday in Hs.
  assert (row_nim row ∈ row_nim <$> rows) as Hlisted
    by (apply list_elem_of_fmap; by exists row).
  apply Hl in Hlisted as [He Hface].
  assert (recorded_today (log_absensi db') (row_nim row) jid (date_of now))
    as (r0 & Hr0 & Hm0).
  { apply elem_of_present_today. rewrite Hlogs.
    apply present_after_close; [done|].
    destruct (decide (row_nim row
                      ∈ present_today (log_absensi db) jid (date_of now)))
      as [Hp|Hp]; [by left|right].
    apply Hin. split; [done|]. by rewrite <- elem_of_present_today. }
  destruct (list_find_elem_of (log_matches (row_nim row) jid (date_of now))
              (log_absensi db') r0 Hr0 Hm0) as [[k r] Hf].
  unfold find_log in Hs. rewrite Hf in Hs.
  destruct Hs as (Hst & Hme & Hd & _). cbn [snd] in Hst, Hme, Hd.
  apply list_find_Some in Hf as (Hk & Hm & _).
  apply list_elem_of_lookup_2 in Hk. split.
  - by exists r.
  - intros Hnr. rewrite Hlogs in Hk. apply elem_of_app in Hk as [Hk|Hk].
    + destruct Hnr. exists r. by destruct Hm as (? & ? & ?).
    + apply alpha_rows_elem in Hk as (id & Heq & _).
      rewrite Heq in Hst, Hme, Hd. by split_and!.
Qed.

Lemma closed_session_view_has_no_gaps_witness :
  ∃ summary db' rows,
    close_class_session 1 300 sample_db_after_a = Ok (summary, db')
    ∧ get_session_attendance_sync 1 360 sample_users db' = Ok rows.
Proof.
  assert (Jadwal.student_class_id sample_jadwal ≠ 0) as Hc by (simpl; lia).
  destruct (closed_session_view_has_no_gaps 1 300 360 sample_users
              sample_db_after_a sample_jadwal sample_db_after_a_unique
              eq_refl Hc eq_refl)
    as (summary & db' & rows & H1 & H2 & _).
  exists summary, db', rows. split; [exact H1|exact H2].
Defined.

(** ** Enrollment management *)

Lemma find_mahasiswa_Some db nim :
  is_Some (find_mahasiswa db nim) ↔ registered db nim.
Proof.
  unfold find_mahasiswa, registered. rewrite fmap_is_Some. split.
  - intros [[i m] (Hi & Hn & _)%list_find_Some].
    exists m. split; [|done]. by eapply list_elem_of_lookup_2.
  - intros (m & Hin & Hn). eapply list_find_elem_of; [exact Hin|done].
Qed.

Lemma adds_enrollments_none cls (new : string → Prop) db :
  (∀ n, new n → is_enrolled db n cls) → adds_enrollments cls new db db.
Proof.
  intros Hnew. unfold adds_enrollments. split_and!; try done.
  intros n c. split; [by left|]. intros [H|[-> H]]; [done|by apply Hnew].
Qed.

Lemma adds_enrollments_trans cls (new1 new2 new : string → Prop) db db1 db2 :
  adds_enrollments cls new1 db db1 →
  adds_enrollments cls new2 db1 db2 →
  (∀ n, new n ↔ new1 n ∨ new2 n) →
  adds_enrollments cls new db db2.
Proof.
  intros (Hm1 & Hj1 & Hv1 & Hl1 & Hs1 & He1 & Hu1 & Hf1)
         (Hm2 & Hj2 & Hv2 & Hl2 & Hs2 & He2 & Hu2 & Hf2) Hnew.
  unfold adds_enrollments. split_and!; try congruence; [|by auto..].
  intros n c. rewrite He2, He1, Hnew. tauto.
Qed.

Lemma append_enrollment_adds cls id nim db :
  registered db nim → ¬ is_enrolled db nim cls →
  adds_enrollments cls (λ n, n = nim) db
    (set_kelas_enrollment
       (kelas_enrollment db ++ [KelasEnrollment.mk id nim cls]) db).
Proof.
  intros Hreg Hne. unfold adds_enrollments. split_and!; try reflexivity.
  - intros n c. unfold is_enrolled. cbn [kelas_enrollment set_kelas_enrollment].
    split.
    + intros (e & [He|He]%elem_of_app & Hn & Hc).
      * left. by exists e.
      * apply list_elem_of_singleton in He as ->. simpl in Hn, Hc. by right.
    + intros [(e & He & Hn & Hc)|[-> ->]].
      * exists e. split; [|done]. apply elem_of_app. by left.
      * exists (KelasEnrollment.mk id nim cls). split; [|done].
        apply elem_of_app. right. apply list_elem_of_here.
  - unfold enrollment_unique. cbn [kelas_enrollment set_kelas_enrollment].
    intros Hu. rewrite fmap_app. apply NoDup_app. split; [done|]. split.
    + intros p Hp Hq. apply list_elem_of_singleton in Hq as ->.
      apply list_elem_of_fmap in Hp as (e & [= Hn Hc] & He).
      apply Hne. by exists e.
    + apply NoDup_singleton.
  - unfold enrollment_fk. cbn [kelas_enrollment mahasiswa set_kelas_enrollment].
    intros Hfk e [He|He]%elem_of_app; [by apply Hfk|].
    apply list_elem_of_singleton in He as ->. exact Hreg.
Qed.

(** X15.  A single enrollment is accepted exactly when the student is
    registered, the class exists and the student is not yet enrolled in it;
    otherwise the store stays as it was.  An accepted enrollment enrolls
    that student in that class and changes nothing else: no other
    enrollment, no other table, and the store still has no student twice in
    a class and no enrollment without a student. *)
Theorem create_enrollment_enrolls_once data classes next_id db :
  let resp := create_enrollment data classes next_id db in
  ((∃ answer, resp = Ok answer)
   ↔ registered db (enroll_nim data)
     ∧ is_Some (find_student_class classes (enroll_student_class_id data))
     ∧ ¬ is_enrolled db (enroll_nim data) (enroll_student_class_id data))
  ∧ ((¬ ∃ answer, resp = Ok answer) → store_after resp db = db)
  ∧ (∀ msg db',
       resp = Ok (msg, db') →
       adds_enrollments (enroll_student_class_id data)
         (λ n, n = enroll_nim data) db db'
       ∧ is_enrolled db' (enroll_nim data) (enroll_student_class_id data)
       ∧ List.length (kelas_enrollment db')
         = S (List.length (kelas_enrollment db))).
Proof.
  cbv zeta. unfold create_enrollment.
  rewrite <- find_mahasiswa_Some, <- find_enrollment_Some.
  destruct (find_mahasiswa db (enroll_nim data)) as [m|] eqn:Hm.
  2:{ split_and!; [|done|done]. split; [by intros [? ?]|].
      by intros [[? ?] _]. }
  destruct (find_student_class classes (enroll_student_class_id data))
    as [c|] eqn:Hc.
  2:{ split_and!; [|done|done]. split; [by intros [? ?]|].
      by intros (_ & [? ?] & _). }
  destruct (find_enrollment db (enroll_nim data) (enroll_student_class_id data))
    as [e|] eqn:He.
  { split_and!; [|done|done]. split; [by intros [? ?]|].
    intros (_ & _ & Hne). destruct Hne. by eexists. }
  split_and!.
  - split; [|by eexists]. intros _. split_and!; [by eexists..|].
    by intros [? ?].
  - intros Hno. destruct Hno. by eexists.
  - intros msg db' [= <- <-].
    assert (registered db (enroll_nim data)) as Hreg
      by (apply find_mahasiswa_Some; by rewrite Hm).
    assert (¬ is_enrolled db (enroll_nim data) (enroll_student_class_id data))
      as Hne by (rewrite <- find_enrollment_Some, He; by intros [? ?]).
    pose proof (append_enrollment_adds (enroll_student_class_id data) next_id
                  (enroll_nim data) db Hreg Hne) as Hadd.
    split; [exact Hadd|]. split.
    + destruct Hadd as (_ & _ & _ & _ & _ & Hen & _). apply Hen. by right.
    + cbn [kelas_enrollment set_kelas_enrollment].
      rewrite length_app. simpl. lia.
Qed.

Lemma bulk_enroll_one_spec cls st nim :
  let st' := bulk_enroll_one cls st nim in
  adds_enrollments cls (λ n, n = nim ∧ registered (bulk_db st) n)
    (bulk_db st) (bulk_db st')
  ∧ success_count st' + Z.of_nat (List.length (failed_nims st'))
    = success_count st + Z.of_nat (List.length (failed_nims st)) + 1
  ∧ Z.of_nat (List.length (kelas_enrollment (bulk_db st')))
    = Z.of_nat (List.length (kelas_enrollment (bulk_db st)))
      + (success_count st' - success_count st)
  ∧ success_count st ≤ success_count st'.
Proof.
  cbv zeta. unfold bulk_enroll_one.
  destruct (find_mahasiswa (bulk_db st) nim) as [m|] eqn:Hm.
  2:{ cbn. split_and!; [|rewrite length_app; simpl; lia|lia|lia].
      apply adds_enrollments_none. intros n [-> Hreg].
      apply find_mahasiswa_Some in Hreg. rewrite Hm in Hreg.
      by destruct Hreg. }
  assert (registered (bulk_db st) nim) as Hreg
    by (apply find_mahasiswa_Some; by rewrite Hm).
  destruct (find_enrollment (bulk_db st) nim cls) as [e|] eqn:He.
  - cbn. split_and!; [|rewrite length_app; simpl; lia|lia|lia].
    apply adds_enrollments_none. intros n [-> _].
    apply find_enrollment_Some. by rewrite He.
  - cbn [bulk_db success_count failed_nims].
    split_and!; [| lia | |lia].
    + eapply adds_enrollments_trans.
      * apply (adds_enrollments_none cls (λ _, False)). by intros n [].
      * apply (append_enrollment_adds cls (bulk_next_id st) nim); [done|].
        rewrite <- find_enrollment_Some, He. by intros [? ?].
      * intros n. split; [intros [-> _]; by right|].
        intros [[]| ->]. done.
    + cbn [kelas_enrollment set_kelas_enrollment]. rewrite length_app.
      simpl. lia.
Qed.

Lemma bulk_loop_spec cls nims st :
  let st' := foldl (bulk_enroll_one cls) st nims in
  adds_enrollments cls (λ n, n ∈ nims ∧ registered (bulk_db st) n)
    (bulk_db st) (bulk_db st')
  ∧ success_count st' + Z.of_nat (List.length (failed_nims st'))
    = success_count st + Z.of_nat (List.length (failed_nims st))
      + Z.of_nat (List.length nims)
  ∧ Z.of_nat (List.length (kelas_enrollment (bulk_db st')))
    = Z.of_nat (List.length (kelas_enrollment (bulk_db st)))
      + (success_count st' - success_count st)
  ∧ success_count st ≤ success_count st'.
Proof.
  cbv zeta. revert st. induction nims as [|nim nims IH]; intros st.
  - simpl. split_and!; [|lia..]. apply adds_enrollments_none.
    by intros n [?%elem_of_nil _].
  - cbn [foldl].
    destruct (bulk_enroll_one_spec cls st nim) as (Ha1 & Hc1 & Hl1 & Hs1).
    destruct (IH (bulk_enroll_one cls st nim)) as (Ha2 & Hc2 & Hl2 & Hs2).
    cbv zeta in Ha1, Hc1, Hl1, Hs1.
    split_and!; [|simpl List.length; lia|lia|lia].
    eapply adds_enrollments_trans; [exact Ha1|exact Ha2|].
    intros n. rewrite elem_of_cons.
    assert (registered (bulk_db (bulk_enroll_one cls st nim)) n
            ↔ registered (bulk_db st) n) as ->.
    { unfold registered. by destruct Ha1 as (-> & _). }
    tauto.
Qed.

(** X16.  A bulk enrollment into an existing class answers for every
    listed NIM, once as a success or once as a failure; it enrolls exactly
    the listed students that are registered, adds one row per success and
    changes nothing else.  A student who is already enrolled, or listed
    twice, is not enrolled a second time: a store without a student twice
    in a class stays so. *)
Theorem bulk_enrollment_accounts_for_every_nim data classes next_id db c :
  find_student_class classes (bulk_kelas_id data) = Some c →
  ∃ res db',
    bulk_create_enrollment data classes next_id db = Ok (res, db')
    ∧ bulk_success res + bulk_failed res
      = Z.of_nat (List.length (bulk_nim_list data))
    ∧ 0 ≤ bulk_success res
    ∧ Z.of_nat (List.length (kelas_enrollment db'))
      = Z.of_nat (List.length (kelas_enrollment db)) + bulk_success res
    ∧ adds_enrollments (bulk_kelas_id data)
        (λ n, n ∈ bulk_nim_list data ∧ registered db n) db db'.
Proof.
  intros Hc. unfold bulk_create_enrollment. rewrite Hc. cbv zeta.
  destruct (bulk_loop_spec (bulk_kelas_id data) (bulk_nim_list data)
              (mkBulkState db next_id 0 [])) as (Ha & Hn & Hl & Hs).
  cbv zeta in Ha, Hn, Hl, Hs. cbn [bulk_db success_count failed_nims] in *.
  eexists _, _. split; [reflexivity|].
  cbn [bulk_success bulk_failed]. simpl List.length in Hn.
  split_and!; [lia|lia|lia|exact Ha].
Qed.

Lemma bulk_enrollment_accounts_for_every_nim_witness :
  ∃ res db',
    bulk_create_enrollment (mkEnrollmentBulk 20 ["S1"; "S1"; "S7"; "S9"])
      sample_classes 5 sample_db = Ok (res, db')
    ∧ bulk_success res + bulk_failed res = 4.
Proof.
  destruct (bulk_enrollment_accounts_for_every_nim
              (mkEnrollmentBulk 20 ["S1"; "S1"; "S7"; "S9"]) sample_classes 5
              sample_db (StudentClass.mk 20 "A11.4110") eq_refl)
    as (res & db' & H1 & H2 & _).
  exists res, db'. split; [exact H1|exact H2].
Defined.

Lemma create_enrollment_accepted nim cls classes next_id db :
  registered db nim →
  is_Some (find_student_class classes cls) →
  ¬ is_enrolled db nim cls →
  ∃ msg,
    create_enrollment (mkEnrollmentCreate nim cls) classes next_id db
    = Ok (msg,
          set_kelas_enrollment
            (kelas_enrollment db ++ [KelasEnrollment.mk next_id nim cls]) db).
Proof.
  intros Hreg [c Hc] Hne. unfold create_enrollment.
  cbn [enroll_nim enroll_student_class_id].
  apply find_mahasiswa_Some in Hreg as [m ->]. rewrite Hc.
  destruct (find_enrollment db nim cls) as [e|] eqn:He; [|by eexists].
  destruct Hne. apply find_enrollment_Some. by rewrite He.
Qed.

(** X17.  A student who is registered but not enrolled in the class of a
    session is refused a manual entry for that session; once the
    enrollment into that class has been accepted, the same manual entry is
    accepted. *)
Theorem enrollment_opens_manual_entry nim jid now classes next_id db j :
  enrollment_fk db →
  find_jadwal db jid = Some j →
  registered db nim →
  is_Some (find_student_class classes (Jadwal.student_class_id j)) →
  ¬ is_enrolled db nim (Jadwal.student_class_id j) →
  ∃ msg db',
    create_enrollment (mkEnrollmentCreate nim (Jadwal.student_class_id j))
      classes next_id db = Ok (msg, db')
    ∧ (∃ e, endpoint_manual_absen (mkManualAbsen nim jid) now db = Raise e)
    ∧ (∃ msg2 db2,
         endpoint_manual_absen (mkManualAbsen nim jid) now db' = Ok (msg2, db2)
         ∧ recorded_today (log_absensi db2) nim jid (date_of now)).
Proof.
  intros Hfk Hj Hreg Hcls Hne.
  destruct (create_enrollment_accepted nim (Jadwal.student_class_id j) classes
              next_id db Hreg Hcls Hne) as [msg Hok].
  pose proof (append_enrollment_adds (Jadwal.student_class_id j) next_id nim db
                Hreg Hne) as (_ & Hjd & _ & _ & _ & Hen & _ & Hfk').
  eexists msg, _. split; [exact Hok|]. split.
  - apply manual_absen_raises. cbn [manual_nim manual_jadwal_id].
    intros j' Hj'. rewrite Hj in Hj'. by injection Hj' as <-.
  - set (db' := set_kelas_enrollment _ db) in *.
    destruct (manual_absen_store nim jid now db' j)
      as (msg2 & db2 & i & r' & Hm & _ & _ & _ & Hf & _).
    + by apply Hfk'.
    + unfold find_jadwal. rewrite Hjd. exact Hj.
    + apply Hen. by right.
    + exists msg2, db2. split; [exact Hm|].
      apply list_find_Some in Hf as (Hi & Hmatch & _).
      exists r'. split; [by eapply list_elem_of_lookup_2|exact Hmatch].
Qed.

Lemma enrollment_opens_manual_entry_witness :
  ∃ msg db',
    create_enrollment (mkEnrollmentCreate "S9" 10) sample_classes 5 sample_db
    = Ok (msg, db')
    ∧ (∃ e, endpoint_manual_absen (mkManualAbsen "S9" 1) 400 sample_db
            = Raise e)
    ∧ (∃ msg2 db2,
         endpoint_manual_absen (mkManualAbsen "S9" 1) 400 db' = Ok (msg2, db2)).
Proof.
  assert (registered sample_db "S9") as Hreg.
  { exists (Mahasiswa.mk "S9" (Some 19) (Some [1%Q; 2%Q])).
    split; [|reflexivity]. apply list_elem_of_In. simpl. tauto. }
  assert (is_Some (find_student_class sample_classes
                     (Jadwal.student_class_id sample_jadwal))) as Hcls
    by (by exists (StudentClass.mk 10 "A11.4109")).
  destruct (enrollment_opens_manual_entry "S9" 1 400 sample_classes 5 sample_db
              sample_jadwal sample_db_fk eq_refl Hreg Hcls
              sample_S9_not_enrolled)
    as (msg & db' & H1 & H2 & msg2 & db2 & H3 & _).
  exists msg, db'. split; [exact H1|]. split; [exact H2|].
  exists msg2, db2. exact H3.
Defined.

(** ** The evidence aggregator *)

Section AggregatorFacts.
Context {ndarray : Type}.
Variable l2_normalize : ndarray → ndarray.
Variable np_dot : ndarray → ndarray → Q.
Variable state : SystemState ndarray.
Variable emotion_api : string → option (option string).

Local Abbreviation ident face :=
  (identify_face_fast l2_normalize np_dot state (face_embedding face)).1.
Local Abbreviation see := (see_face l2_normalize np_dot state emotion_api).
Local Abbreviation analyze := (analyze_frame l2_normalize np_dot state emotion_api).
Local Abbreviation aggregate :=
  (aggregate_evidence l2_normalize np_dot state emotion_api).

(** One face: an unknown face changes nothing; a known one rewrites the
    entry of its student only, adds one to the count, and either keeps
    sample and tally or, when there was no sample, sets it and may add one
    vote. *)
Lemma see_face_spec task_id idx shape m (face : Face ndarray) :
  (ident face = "Unknown" → see task_id idx shape m face = m)
  ∧ (ident face ≠ "Unknown" →
     ∃ meta',
       see task_id idx shape m face = <[ident face := meta']> m
       ∧ count meta' = count_of m (ident face) + 1
       ∧ ((sample meta' = (m !! ident face) ≫= sample
           ∧ emosi meta' = default [] (emosi <$> m !! ident face))
          ∨ ((m !! ident face) ≫= sample = None
             ∧ sample meta'
               = Some ("/hasil_crop/" +:+ crop_filename task_id (ident face) idx)
             ∧ (emosi meta' = default [] (emosi <$> m !! ident face)
                ∨ ∃ label,
                    emosi meta'
                    = tally_add label
                        (default [] (emosi <$> m !! ident face)))))).
Proof.
  unfold see_face, count_of. case_bool_decide as Hu; [done|].
  split; [done|]. intros _.
  destruct (m !! ident face) as [e|]; simpl.
  - destruct (sample e) as [p|] eqn:Hs.
    + eexists. split; [reflexivity|]. simpl. split; [done|]. by left.
    + destruct (0 <? crop_size shape (face_bbox face)).
      * destruct (emotion_api _) as [predicted|];
          (eexists; split; [reflexivity|]; simpl; split; [done|]; right);
          (split; [done|]; split; [done|]); [right; by eexists|by left].
      * eexists. split; [reflexivity|]. simpl. split; [done|]. by left.
  - destruct (0 <? crop_size shape (face_bbox face)).
    + destruct (emotion_api _) as [predicted|];
        (eexists; split; [reflexivity|]; simpl; split; [done|]; right);
        (split; [done|]; split; [done|]); [right; by eexists|by left].
    + eexists. split; [reflexivity|]. simpl. split; [done|]. by left.
Qed.

Lemma see_face_count task_id idx shape m (face : Face ndarray) nim :
  nim ≠ "Unknown" →
  count_of (see task_id idx shape m face) nim
  = count_of m nim + (if bool_decide (ident face = nim) then 1 else 0).
Proof.
  intros Hn. destruct (see_face_spec task_id idx shape m face) as [Hu Hk].
  case_bool_decide as Hi.
  - subst nim. destruct (Hk Hn) as (meta' & -> & Hc & _).
    unfold count_of at 1. by rewrite lookup_insert_eq.
  - destruct (decide (ident face = "Unknown")) as [Hun|Hkn].
    + rewrite (Hu Hun). lia.
    + destruct (Hk Hkn) as (meta' & -> & _).
      unfold count_of. rewrite lookup_insert_ne by done. lia.
Qed.

Lemma see_face_keys task_id idx shape m (face : Face ndarray) nim :
  is_Some (see task_id idx shape m face !! nim)
  ↔ is_Some (m !! nim) ∨ (ident face = nim ∧ nim ≠ "Unknown").
Proof.
  destruct (see_face_spec task_id idx shape m face) as [Hu Hk].
  destruct (decide (ident face = "Unknown")) as [Hun|Hkn].
  - rewrite (Hu Hun). split; [by left|]. intros [H|[H1 H2]]; [done|congruence].
  - destruct (Hk Hkn) as (meta' & -> & _).
    destruct (decide (ident face = nim)) as [<-|Hne].
    + rewrite lookup_insert_eq. split; [by right|by eexists].
    + rewrite lookup_insert_ne by done. split; [by left|].
      by intros [H|[H1 H2]].
Qed.

Lemma tally_add_nil label : tally_add label [] = [(label, 1)].
Proof. done. Qed.

Lemma see_face_well_formed task_id offsets idx shape m (face : Face ndarray) :
  idx ∈ offsets →
  map_Forall (well_formed_entry task_id offsets) m →
  map_Forall (well_formed_entry task_id offsets) (see task_id idx shape m face).
Proof.
  intros Hidx Hm. destruct (see_face_spec task_id idx shape m face) as [Hu Hk].
  destruct (decide (ident face = "Unknown")) as [Hun|Hkn]; [by rewrite (Hu Hun)|].
  destruct (Hk Hkn) as (meta' & -> & Hc & Hrest).
  apply map_Forall_insert_2; [|done].
  unfold count_of in Hc.
  destruct (m !! ident face) as [e|] eqn:He; simpl in *.
  - destruct (Hm _ _ He) as (_ & Hpos & Hem & Hsa).
    split; [done|]. split; [lia|].
    destruct Hrest as [[Hs Ht]|(Hnone & Hs & Ht)].
    + rewrite Hs, Ht. done.
    + destruct Hem as [Hnil|(l & Hl & [p Hp])]; [|congruence].
      rewrite Hnil in Ht. split.
      * destruct Ht as [->|[label ->]]; [by left|right].
        exists label. split; [done|]. rewrite Hs. by eexists.
      * intros path. rewrite Hs. intros [= <-]. by exists idx.
  - split; [done|]. split; [lia|].
    destruct Hrest as [[Hs Ht]|(_ & Hs & Ht)].
    + rewrite Hs, Ht. split; [by left|done].
    + split.
      * destruct Ht as [->|[label ->]]; [by left|right].
        exists label. split; [done|]. rewrite Hs. by eexists.
      * intros path. rewrite Hs. intros [= <-]. by exists idx.
Qed.

Lemma see_face_frozen task_id idx shape m (face : Face ndarray) nim meta path :
  m !! nim = Some meta → sample meta = Some path →
  ∃ meta', see task_id idx shape m face !! nim = Some meta'
           ∧ sample meta' = Some path ∧ emosi meta' = emosi meta
           ∧ count meta ≤ count meta'.
Proof.
  intros Hm Hs. destruct (see_face_spec task_id idx shape m face) as [Hu Hk].
  destruct (decide (ident face = "Unknown")) as [Hun|Hkn].
  { rewrite (Hu Hun). exists meta. split_and!; [done..|lia]. }
  destruct (Hk Hkn) as (meta' & -> & Hc & Hrest).
  destruct (decide (ident face = nim)) as [Heq|Hne].
  - rewrite Heq in *. rewrite lookup_insert_eq. exists meta'.
    unfold count_of in Hc. rewrite Hm in Hc, Hrest. simpl in Hc, Hrest.
    destruct Hrest as [[Hs' Ht]|(Hnone & _)]; [|congruence].
    split_and!; [done|congruence|done|lia].
  - rewrite lookup_insert_ne by done. exists meta. split_and!; [done..|lia].
Qed.

(** The same facts for a frame and for a list of frames. *)
Lemma analyze_frame_facts task_id offsets m (read : Z * Frame ndarray) :
  read.1 ∈ offsets →
  let m' := analyze task_id m read in
  (∀ nim, nim ≠ "Unknown" →
     count_of m' nim
     = count_of m nim + sightings l2_normalize np_dot state nim [read])
  ∧ (∀ nim, is_Some (m' !! nim)
            ↔ is_Some (m !! nim)
              ∨ (nim ≠ "Unknown"
                 ∧ 0 < sightings l2_normalize np_dot state nim [read]))
  ∧ (map_Forall (well_formed_entry task_id offsets) m →
     map_Forall (well_formed_entry task_id offsets) m')
  ∧ (∀ nim meta path,
       m !! nim = Some meta → sample meta = Some path →
       ∃ meta', m' !! nim = Some meta' ∧ sample meta' = Some path
                ∧ emosi meta' = emosi meta ∧ count meta ≤ count meta').
Proof.
  intros Hoff. cbv zeta. unfold analyze_frame, sightings. simpl.
  rewrite app_nil_r. destruct read as [idx [shape faces]]. simpl in *.
  revert m. induction faces as [|face faces IH]; intros m.
  - simpl. split_and!; [intros; lia| |done|].
    + intros nim. split; [by left|]. intros [H|[_ H]]; [done|lia].
    + intros nim meta path Hm Hs. exists meta. split_and!; [done..|lia].
  - cbn [foldl].
    destruct (IH (see task_id idx shape m face)) as (Hc & Hk & Hw & Hf).
    split_and!.
    + intros nim Hn. rewrite (Hc nim Hn), (see_face_count _ _ _ _ _ nim Hn).
      rewrite filter_cons.
      destruct (decide (ident face = nim)) as [Heq|Hne].
      * rewrite bool_decide_eq_true_2 by done. simpl List.length. lia.
      * rewrite bool_decide_eq_false_2 by done. lia.
    + intros nim. rewrite Hk, see_face_keys, filter_cons.
      destruct (decide (ident face = nim)) as [Heq|Hne]; simpl List.length.
      * split; [intros [[H|[_ H]]|[H1 H2]]; [by left|right; split; [done|lia]
                                              |right; split; [done|lia]]|].
        intros [H|[H1 H2]]; [by left; left|]. left. by right.
      * split; [intros [[H|[H _]]|H]; [by left|done|by right]|].
        intros [H|H]; [by left; left|by right].
    + intros Hm. apply Hw. by apply see_face_well_formed.
    + intros nim meta path Hm Hs.
      destruct (see_face_frozen task_id idx shape m face nim meta path Hm Hs)
        as (meta1 & Hm1 & Hs1 & He1 & Hc1).
      destruct (Hf nim meta1 path Hm1 Hs1) as (meta2 & Hm2 & Hs2 & He2 & Hc2).
      exists meta2. split_and!; [done|done|congruence|lia].
Qed.

Lemma sightings_cons nim (read : Z * Frame ndarray) reads :
  sightings l2_normalize np_dot state nim (read :: reads)
  = sightings l2_normalize np_dot state nim [read]
    + sightings l2_normalize np_dot state nim reads.
Proof.
  unfold sightings. simpl. rewrite app_nil_r, filter_app, length_app.
  apply Nat2Z.inj_add.
Qed.

Lemma sightings_nonneg nim (reads : list (Z * Frame ndarray)) :
  0 ≤ sightings l2_normalize np_dot state nim reads.
Proof. unfold sightings. lia. Qed.

Lemma aggregate_facts task_id offsets m (reads : list (Z * Frame ndarray)) :
  Forall (λ read, read.1 ∈ offsets) reads →
  let m' := foldl (analyze task_id) m reads in
  (∀ nim, nim ≠ "Unknown" →
     count_of m' nim
     = count_of m nim + sightings l2_normalize np_dot state nim reads)
  ∧ (∀ nim, is_Some (m' !! nim)
            ↔ is_Some (m !! nim)
              ∨ (nim ≠ "Unknown"
                 ∧ 0 < sightings l2_normalize np_dot state nim reads))
  ∧ (map_Forall (well_formed_entry task_id offsets) m →
     map_Forall (well_formed_entry task_id offsets) m')
  ∧ (∀ nim meta path,
       m !! nim = Some meta → sample meta = Some path →
       ∃ meta', m' !! nim = Some meta' ∧ sample meta' = Some path
                ∧ emosi meta' = emosi meta ∧ count meta ≤ count meta').
Proof.
  cbv zeta. intros Hall. revert m.
  induction Hall as [|read reads Hoff _ IH]; intros m.
  - simpl. split_and!; [intros; unfold sightings; simpl; lia| |done|].
    + intros nim. split; [by left|]. intros [H|[_ H]]; [done|].
      unfold sightings in H. simpl in H. lia.
    + intros nim meta path Hm Hs. exists meta. split_and!; [done..|lia].
  - cbn [foldl].
    destruct (analyze_frame_facts task_id offsets m read Hoff)
      as (Hc1 & Hk1 & Hw1 & Hf1). cbv zeta in Hc1, Hk1, Hw1, Hf1.
    destruct (IH (analyze task_id m read)) as (Hc & Hk & Hw & Hf).
    split_and!.
    + intros nim Hn.
      rewrite (sightings_cons nim read reads), (Hc nim Hn), (Hc1 nim Hn). lia.
    + intros nim. rewrite (sightings_cons nim read reads), Hk, Hk1.
      pose proof (sightings_nonneg nim [read]) as Hn1.
      pose proof (sightings_nonneg nim reads) as Hn2.
      split.
      * intros [[H|[H1 H2]]|[H1 H2]];
          [by left|right; split; [done|lia]|right; split; [done|lia]].
      * intros [H|[H1 H2]]; [by left; left|].
        destruct (decide (0 < sightings l2_normalize np_dot state nim [read]));
          [left; by right|right; split; [done|lia]].
    + intros Hm. by apply Hw, Hw1.
    + intros nim meta path Hm Hs.
      destruct (Hf1 nim meta path Hm Hs) as (meta1 & Hm1 & Hs1 & He1 & Hcn1).
      destruct (Hf nim meta1 path Hm1 Hs1) as (meta2 & Hm2 & Hs2 & He2 & Hcn2).
      exists meta2. split_and!; [done|done|congruence|lia].
Qed.

End AggregatorFacts.

(** X18.  The evidence of a video holds an entry for exactly the students
    that the index recognises in at least one analysed frame, never one
    for "Unknown", and the count of an entry is the number of faces, over
    all analysed frames, that the index takes for that student. *)
Theorem evidence_counts_sightings {ndarray : Type}
    (l2_normalize : ndarray → ndarray) (np_dot : ndarray → ndarray → Q)
    (state : SystemState ndarray) (emotion_api : string → option (option string))
    (task_id : string) (reads : list (Z * Frame ndarray)) :
  let detected :=
    aggregate_evidence l2_normalize np_dot state emotion_api task_id reads in
  detected !! "Unknown" = None
  ∧ (∀ nim, nim ≠ "Unknown" →
       (is_Some (detected !! nim)
        ↔ 0 < sightings l2_normalize np_dot state nim reads))
  ∧ (∀ nim meta, detected !! nim = Some meta →
       count meta = sightings l2_normalize np_dot state nim reads
       ∧ 0 < count meta).
Proof.
  cbv zeta. unfold aggregate_evidence.
  destruct (aggregate_facts l2_normalize np_dot state emotion_api task_id
              (reads.*1) ∅ reads) as (Hc & Hk & Hw & _).
  { apply Forall_forall. intros read Hin. apply list_elem_of_fmap. by exists read. }
  cbv zeta in Hc, Hk, Hw.
  specialize (Hw (map_Forall_empty _)). split_and!.
  - apply eq_None_not_Some. rewrite Hk, lookup_empty.
    intros [[? ?]|[? _]]; done.
  - intros nim Hn. rewrite Hk, lookup_empty. split.
    + intros [[? ?]|[_ ?]]; done.
    + intros H. by right.
  - intros nim meta Hm. destruct (Hw nim meta Hm) as (Hn & Hpos & _).
    split; [|done]. specialize (Hc nim Hn). unfold count_of in Hc.
    rewrite Hm, lookup_empty in Hc. simpl in Hc. lia.
Qed.

(** X19.  Every entry of the evidence carries at most one emotion vote, and
    that only together with a sample photo, whose path names the task, the
    student and the offset of one of the frames read: the emotion stored as
    dominant is "Neutral" or the one label that was returned for the
    student's first cropped face. *)
Theorem evidence_entry_has_one_emotion_vote {ndarray : Type}
    (l2_normalize : ndarray → ndarray) (np_dot : ndarray → ndarray → Q)
    (state : SystemState ndarray) (emotion_api : string → option (option string))
    (task_id : string) (reads : list (Z * Frame ndarray)) nim meta :
  aggregate_evidence l2_normalize np_dot state emotion_api task_id reads !! nim
  = Some meta →
  well_formed_entry task_id (reads.*1) nim meta
  ∧ (dominant_emotion meta = "Neutral"
     ∨ ∃ label, emosi meta = [(label, 1)] ∧ dominant_emotion meta = label).
Proof.
  unfold aggregate_evidence. intros Hm.
  destruct (aggregate_facts l2_normalize np_dot state emotion_api task_id
              (reads.*1) ∅ reads) as (_ & _ & Hw & _).
  { apply Forall_forall. intros read Hin. apply list_elem_of_fmap. by exists read. }
  cbv zeta in Hw. specialize (Hw (map_Forall_empty _) nim meta Hm).
  split; [exact Hw|]. destruct Hw as (_ & _ & [Hnil|(label & Hl & _)] & _).
  - left. unfold dominant_emotion. by rewrite Hnil.
  - right. exists label. split; [done|]. unfold dominant_emotion. by rewrite Hl.
Qed.

Lemma evidence_entry_has_one_emotion_vote_witness :
  well_formed_entry "task-a" (sample_frames.*1) "S1"
    (mkMeta 2 [("happy", 1)] (Some "/hasil_crop/task-a_S1_0.jpg")).
Proof.
  assert (aggregate_evidence id sample_dot sample_state sample_emotion_api
            "task-a" sample_frames !! "S1"
          = Some (mkMeta 2 [("happy", 1)] (Some "/hasil_crop/task-a_S1_0.jpg")))
    as Hm by (vm_compute; reflexivity).
  exact (proj1 (evidence_entry_has_one_emotion_vote id sample_dot sample_state
                  sample_emotion_api "task-a" sample_frames "S1" _ Hm)).
Defined.

(** X20.  Once a student's entry holds a sample photo, the frames that
    follow change nothing of it but the count, which grows by the number of
    further faces taken for the student: the photo and the emotion of an
    entry come from the first frame that gave a crop. *)
Theorem first_sample_is_kept {ndarray : Type}
    (l2_normalize : ndarray → ndarray) (np_dot : ndarray → ndarray → Q)
    (state : SystemState ndarray) (emotion_api : string → option (option string))
    (task_id : string) (reads more : list (Z * Frame ndarray)) nim meta path :
  aggregate_evidence l2_normalize np_dot state emotion_api task_id reads !! nim
  = Some meta →
  sample meta = Some path →
  ∃ meta',
    aggregate_evidence l2_normalize np_dot state emotion_api task_id
      (reads ++ more) !! nim = Some meta'
    ∧ sample meta' = Some path
    ∧ emosi meta' = emosi meta
    ∧ count meta' = count meta + sightings l2_normalize np_dot state nim more.
Proof.
  intros Hm Hs.
  unfold aggregate_evidence in *. rewrite foldl_app.
  assert (nim ≠ "Unknown") as Hn.
  { destruct (aggregate_facts l2_normalize np_dot state emotion_api task_id
                (reads.*1) ∅ reads) as (_ & _ & Hw & _).
    - apply Forall_forall. intros read Hin. apply list_elem_of_fmap.
      by exists read.
    - cbv zeta in Hw.
      by destruct (Hw (map_Forall_empty _) nim meta Hm) as (? & _). }
  destruct (aggregate_facts l2_normalize np_dot state emotion_api task_id
              (more.*1)
              (foldl (analyze_frame l2_normalize np_dot state emotion_api task_id)
                 ∅ reads) more) as (Hc & _ & _ & Hf).
  { apply Forall_forall. intros read Hin. apply list_elem_of_fmap. by exists read. }
  cbv zeta in Hc, Hf.
  destruct (Hf nim meta path Hm Hs) as (meta' & Hm' & Hs' & He' & _).
  exists meta'. split_and!; [done..|].
  specialize (Hc nim Hn). unfold count_of in Hc. rewrite Hm', Hm in Hc.
  exact Hc.
Qed.

Lemma first_sample_is_kept_witness :
  ∃ meta',
    aggregate_evidence id sample_dot sample_state sample_emotion_api "task-a"
      (take 1 sample_frames ++ drop 1 sample_frames) !! "S1" = Some meta'
    ∧ sample meta' = Some "/hasil_crop/task-a_S1_0.jpg"
    ∧ emosi meta' = [("happy", 1)].
Proof.
  assert (aggregate_evidence id sample_dot sample_state sample_emotion_api
            "task-a" (take 1 sample_frames) !! "S1"
          = Some (mkMeta 1 [("happy", 1)] (Some "/hasil_crop/task-a_S1_0.jpg")))
    as Hm by (vm_compute; reflexivity).
  destruct (first_sample_is_kept id sample_dot sample_state sample_emotion_api
              "task-a" (take 1 sample_frames) (drop 1 sample_frames) "S1" _ _
              Hm eq_refl) as (meta' & H1 & H2 & H3 & _).
  exists meta'. split; [exact H1|]. split; [exact H2|exact H3].
Defined.

(** ** The crop of a face *)

Lemma slice_len_from_inside n a b :
  0 ≤ n → 0 ≤ a →
  slice_len n a b
  = Z.max 0 ((if b <? 0 then Z.max 0 (b + n) else Z.min b n) - Z.min a n).
Proof.
  intros Hn Ha. unfold slice_len, slice_bound.
  by destruct (Z.ltb_spec a 0); [lia|].
Qed.

(** X21.  The crop of a face never exceeds the frame, and for a box whose
    right and lower edges are not negative it is the part of the box inside
    the frame.  For a box left of the frame (negative right edge) the
    negative stop counts from the far side: the crop is then the frame
    without its last columns, not empty. *)
Theorem crop_is_inside_frame (h w b0 b1 b2 b3 : Z) :
  0 ≤ h → 0 ≤ w →
  let shape := crop_shape (h, w) (b0, b1, b2, b3) in
  0 ≤ shape.1 ≤ h ∧ 0 ≤ shape.2 ≤ w
  ∧ (0 ≤ b3 → shape.1 = Z.max 0 (Z.min h b3 - Z.max 0 b1))
  ∧ (0 ≤ b2 → shape.2 = Z.max 0 (Z.min w b2 - Z.max 0 b0))
  ∧ (b0 ≤ 0 → b2 < 0 → shape.2 = Z.max 0 (w + b2))
  ∧ (0 < crop_size (h, w) (b0, b1, b2, b3) ↔ 0 < shape.1 ∧ 0 < shape.2).
Proof.
  intros Hh Hw. cbv zeta. unfold crop_size, crop_shape. cbn [fst snd].
  rewrite !slice_len_from_inside by lia.
  assert (∀ a b, 0 ≤ a → 0 ≤ b → (0 < a * b * 3 ↔ 0 < a ∧ 0 < b)) as Hsize
    by (intros; nia).
  destruct (Z.ltb_spec (Z.min h b3) 0), (Z.ltb_spec (Z.min w b2) 0);
    (split_and!; [lia..|apply Hsize; lia]).
Qed.

Lemma crop_is_inside_frame_witness :
  0 ≤ (crop_shape (480, 640) (-30, 0, -10, 50)).1 ≤ 480
  ∧ (crop_shape (480, 640) (-30, 0, -10, 50)).2 = Z.max 0 (640 + -10).
Proof.
  destruct (crop_is_inside_frame 480 640 (-30) 0 (-10) 50)
    as (H1 & _ & _ & _ & H5 & _); [lia|lia|].
  split; [exact H1|]. apply H5; lia.
Defined.

(** ** From the frames to the ledger *)

(** X22.  For a student whom the enrollment test lets through and who has
    no row for the session today, analysing a video in which the index
    recognises the student leaves an AI_VIDEO row whose appearance count is
    the number of faces taken for the student over the analysed frames; its
    emotion is "Neutral" unless the row also carries a photo. *)
Theorem first_video_row_counts_recognised_faces {ndarray : Type}
    (l2_normalize : ndarray → ndarray) (np_dot : ndarray → ndarray → Q)
    (state : SystemState ndarray) (emotion_api : string → option (option string))
    (task_id : string) (frames : list (Z * Frame ndarray)) jid now db j nim :
  find_jadwal db jid = Some j →
  passes_enrollment db j nim →
  nim ≠ "Unknown" →
  0 < sightings l2_normalize np_dot state nim frames →
  find_log (log_absensi db) nim jid (date_of now) = None →
  ∃ (i : nat) r,
    find_log
      (log_absensi
         (background_video_analyzer task_id jid
            (aggregate_evidence l2_normalize np_dot state emotion_api task_id
               frames) now db).2)
      nim jid (date_of now) = Some (i, r)
    ∧ LogAbsensi.metode r = "AI_VIDEO"
    ∧ LogAbsensi.task_id r = Some task_id
    ∧ LogAbsensi.jumlah_muncul r
      = sightings l2_normalize np_dot state nim frames
    ∧ (LogAbsensi.emosi_dominan r = Some "Neutral"
       ∨ is_Some (LogAbsensi.bukti_foto r)).
Proof.
  intros Hj Hp Hn Hseen Hf.
  set (detected := aggregate_evidence _ _ _ _ _ _).
  destruct (aggregate_facts l2_normalize np_dot state emotion_api task_id
              (frames.*1) ∅ frames) as (Hc & Hk & Hw & _).
  { apply Forall_forall. intros read Hin. apply list_elem_of_fmap. by exists read. }
  cbv zeta in Hc, Hk, Hw. fold (aggregate_evidence l2_normalize np_dot state
    emotion_api task_id frames) in Hc, Hk, Hw. fold detected in Hc, Hk, Hw.
  destruct (proj2 (Hk nim)) as [meta Hd]; [by right|].
  destruct (Hw (map_Forall_empty _) nim meta Hd) as (_ & _ & Hem & _).
  specialize (Hc nim Hn). unfold count_of in Hc.
  rewrite Hd, lookup_empty in Hc. simpl in Hc.
  rewrite (analyzer_unfold _ _ _ _ _ j Hj). simpl.
  destruct (analyzer_entry detected nim meta Hd) as [Hnd Hin].
  destruct (complete_task_tables task_id db) as (_ & _ & _ & Hl & _).
  destruct (loop_insert task_id jid (enrolled_nims_of db j) now
              (map_to_list detected) (complete_task task_id db) nim meta)
    as (i & id & Hfound); [done..|by apply not_enrolled_false|by rewrite Hl|].
  eexists i, _. split; [exact Hfound|]. simpl.
  split; [done|]. split; [done|]. split; [lia|].
  destruct Hem as [Hnil|(label & Hl1 & Hs)]; [left|by right].
  unfold dominant_emotion. by rewrite Hnil.
Qed.

Lemma first_video_row_counts_recognised_faces_witness :
  ∃ (i : nat) r,
    find_log
      (log_absensi
         (background_video_analyzer "task-a" 1
            (aggregate_evidence id sample_dot sample_state sample_emotion_api
               "task-a" sample_frames) 100 sample_db).2)
      "S1" 1 (date_of 100) = Some (i, r)
    ∧ LogAbsensi.metode r = "AI_VIDEO"
    ∧ LogAbsensi.jumlah_muncul r
      = sightings id sample_dot sample_state "S1" sample_frames.
Proof.
  assert ("S1" ≠ "Unknown") as Hn by discriminate.
  assert (0 < sightings id sample_dot sample_state "S1" sample_frames) as Hseen
    by (vm_compute; reflexivity).
  destruct (first_video_row_counts_recognised_faces id sample_dot sample_state
              sample_emotion_api "task-a" sample_frames 1 100 sample_db
              sample_jadwal "S1" eq_refl sample_S1_admitted Hn Hseen eq_refl)
    as (i & r & H1 & H2 & _ & H4 & _).
  exists i, r. split; [exact H1|]. split; [exact H2|exact H4].
Defined.

(** ** The helper's divisions by zero *)



(** ** The history of a student *)

Lemma list_find_unique_key {A} (f : A → Z) (l : list A) (x : A) :
  NoDup (f <$> l) → x ∈ l →
  ∃ i : nat, list_find (λ y, f y = f x) l = Some (i, x).
Proof.
  intros Hnd Hin. apply list_elem_of_lookup_1 in Hin as [i Hi].
  exists i. apply list_find_Some. split_and!; [done..|].
  intros k y Hk Hlt Heq. assert (k = i); [|lia].
  eapply (NoDup_lookup _ k i (f x)); [exact Hnd| |].
  - by rewrite list_lookup_fmap, Hk, <- Heq.
  - by rewrite list_lookup_fmap, Hi.
Qed.

Lemma elem_of_history_join kelas nim db row :
  row ∈ history_join kelas nim db
  ↔ ∃ log j k e,
      log ∈ log_absensi db ∧ j ∈ jadwal db ∧ k ∈ kelas
      ∧ e ∈ kelas_enrollment db
      ∧ LogAbsensi.jadwal_id log = Some (Jadwal.jadwal_id j)
      ∧ Jadwal.kelas_id j = Some (Kelas.kelas_id k)
      ∧ KelasEnrollment.student_class_id e = Jadwal.student_class_id j
      ∧ KelasEnrollment.nim e = nim
      ∧ LogAbsensi.nim log = nim
      ∧ row = history_row log j k.
Proof.
  unfold history_join. split.
  - intros (log & Hrow & Hlog)%list_elem_of_bind.
    apply list_elem_of_bind in Hrow as (j & Hrow & Hj).
    apply list_elem_of_bind in Hrow as (k & Hrow & Hk).
    apply list_elem_of_bind in Hrow as (e & Hrow & He).
    case_bool_decide as Hc; [|by apply elem_of_nil in Hrow].
    apply list_elem_of_singleton in Hrow as ->.
    destruct Hc as (? & ? & ? & ? & ?). by exists log, j, k, e.
  - intros (log & j & k & e & Hlog & Hj & Hk & He & H1 & H2 & H3 & H4 & H5 & ->).
    apply list_elem_of_bind. exists log. split; [|done].
    apply list_elem_of_bind. exists j. split; [|done].
    apply list_elem_of_bind. exists k. split; [|done].
    apply list_elem_of_bind. exists e. split; [|done].
    rewrite bool_decide_eq_true_2 by done. apply list_elem_of_here.
Qed.

(** X24.  The history of a student comes latest first, and it shows only
    rows of that student for sessions of a class the student is enrolled
    in.  While log ids and session ids are unique, every row of the history
    can be disputed: a report on its log id by that student is accepted. *)
Theorem history_rows_can_be_reported kelas nim db :
  StronglySorted later_first (student_get_history kelas nim db)
  ∧ (NoDup (LogAbsensi.log_id <$> log_absensi db) →
     NoDup (Jadwal.jadwal_id <$> jadwal db) →
     ∀ row alasan foto,
       row ∈ student_get_history kelas nim db →
       ∃ r j bukti db',
         r ∈ log_absensi db
         ∧ LogAbsensi.nim r = nim
         ∧ LogAbsensi.log_id r = hist_log_id row
         ∧ LogAbsensi.metode r = hist_metode row
         ∧ LogAbsensi.is_disputed r = hist_is_disputed row
         ∧ jadwal_of_log db r = Some j
         ∧ is_enrolled db nim (Jadwal.student_class_id j)
         ∧ student_submit_report (hist_log_id row) alasan foto nim db
           = Ok (bukti, db')).
Proof.
  unfold student_get_history. split.
  - assert (Transitive later_first)
      by (intros a b c; unfold later_first; lia).
    assert (Total later_first) by (intros a b; unfold later_first; lia).
    by apply StronglySorted_merge_sort.
  - intros Hlogs Hjadwal row alasan foto Hrow.
    rewrite merge_sort_Permutation in Hrow.
    apply elem_of_history_join in Hrow
      as (log & j & k & e & Hlog & Hj & Hk & He & H1 & H2 & H3 & H4 & H5 & ->).
    destruct (list_find_unique_key LogAbsensi.log_id _ log Hlogs Hlog)
      as [i Hfind].
    destruct (list_find_unique_key Jadwal.jadwal_id _ j Hjadwal Hj)
      as [ij Hfj].
    assert (jadwal_of_log db log = Some j) as Hjl.
    { unfold jadwal_of_log, find_jadwal. rewrite H1.
      by rewrite Hfj. }
    assert (is_enrolled db nim (Jadwal.student_class_id j)) as Hen
      by (by exists e).
    assert (may_report db nim log) as Hmay.
    { split; [done|]. intros cls. unfold report_class. rewrite Hjl.
      case_bool_decide; [done|]. by intros [= <-]. }
    pose proof (submit_report_accepted (LogAbsensi.log_id log) alasan foto nim
                  db i log Hfind Hmay) as Hok.
    eexists log, j, _, _. split_and!; [done..|]. exact Hok.
Qed.

Lemma history_rows_can_be_reported_witness :
  ∃ r j bukti db',
    r ∈ log_absensi sample_db_after_a
    ∧ LogAbsensi.nim r = "S1"
    ∧ LogAbsensi.log_id r = 1
    ∧ jadwal_of_log sample_db_after_a r = Some j
    ∧ student_submit_report 1 "bukan saya" no_foto "S1" sample_db_after_a
      = Ok (bukti, db').
Proof.
  assert (NoDup (LogAbsensi.log_id <$> log_absensi sample_db_after_a)) as Hl.
  { apply (bool_decide_unpack
             (NoDup (LogAbsensi.log_id <$> log_absensi sample_db_after_a))).
    vm_compute. exact I. }
  assert (NoDup (Jadwal.jadwal_id <$> jadwal sample_db_after_a)) as Hj.
  { apply (bool_decide_unpack
             (NoDup (Jadwal.jadwal_id <$> jadwal sample_db_after_a))).
    vm_compute. exact I. }
  assert (mkHistoryRow 1 (Some 1) 100 "AI_VIDEO" false None
            (Some "/hasil_crop/task-a_S1_0.jpg") 3 (Some "happy") "Senin"
            (Some "08:00-10:00") "Kecerdasan Buatan" "H.4.1"
          ∈ student_get_history sample_kelas "S1" sample_db_after_a) as Hin.
  { apply list_elem_of_In. vm_compute. left. reflexivity. }
  destruct (proj2 (history_rows_can_be_reported sample_kelas "S1"
                     sample_db_after_a) Hl Hj _ "bukan saya" no_foto Hin)
    as (r & j & bukti & db' & H1 & H2 & H3 & _ & _ & H6 & _ & H8).
  exists r, j, bukti, db'.
  split; [exact H1|]. split; [exact H2|]. split; [exact H3|].
  split; [exact H6|exact H8].
Defined.

(** ** From the store to the evidence *)

Section PipelineFacts.
Context {ndarray : Type}.
Variable np_array : list Q → option ndarray.
Variable l2_normalize : ndarray → ndarray.
Variable np_dot : ndarray → ndarray → Q.

(** With ids and rows in pairs the lookup of the best id cannot fail. *)
Lemma identify_in_index (state : SystemState ndarray) embedding :
  index_paired state →
  (identify_face_fast l2_normalize np_dot state embedding).1 = "Unknown"
  ∨ (identify_face_fast l2_normalize np_dot state embedding).1
    ∈ known_ids state.
Proof.
  intros Hp. unfold identify_face_fast.
  destruct (known_matrix state) as [matrix|] eqn:Hm; [|by left].
  case_bool_decide as Hlen; [by left|]. cbv zeta.
  specialize (Hp matrix Hm).
  set (scores := (λ row, np_dot row (l2_normalize embedding)) <$> matrix).
  destruct (np_argmax_spec scores) as (best & s & -> & Hs & _).
  { intros Hnil. apply (f_equal List.length) in Hnil.
    subst scores. rewrite length_fmap in Hnil. simpl in Hnil. lia. }
  rewrite Hs. destruct (Qltb FACE_SIMILARITY_THRESHOLD s); [|by left].
  destruct (known_ids state !! best) as [nim|] eqn:Hk.
  - right. simpl. by eapply list_elem_of_lookup_2.
  - apply lookup_ge_None in Hk. apply lookup_lt_Some in Hs.
    subst scores. rewrite length_fmap in Hs. lia.
Qed.

Lemma load_rows_ids_subset rows nim :
  nim ∈ (load_rows np_array l2_normalize rows).1 → nim ∈ rows.*1.
Proof.
  induction rows as [|[n v] rows IH]; simpl; [done|].
  destruct (load_rows np_array l2_normalize rows) as [ids vs].
  destruct (np_array v); simpl in *.
  - intros [->|Hin]%elem_of_cons; [left|right; by apply IH].
  - intros Hin. right. by apply IH.
Qed.

Lemma reload_from_store db now (state : SystemState ndarray) :
  let state' :=
    reload_face_database_async np_array l2_normalize
      (fetch_rows (select_embeddings db)) now state in
  index_paired state' ∧ ∀ nim, nim ∈ known_ids state' → has_face db nim.
Proof.
  cbv zeta. unfold reload_face_database_async.
  pose proof (load_rows_paired np_array l2_normalize (select_embeddings db))
    as Hlen.
  pose proof (load_rows_ids_subset (select_embeddings db)) as Hsub.
  destruct (load_rows np_array l2_normalize (select_embeddings db))
    as [ids vs]. simpl in Hlen, Hsub.
  assert (∀ nim, nim ∈ ids → has_face db nim) as Hface.
  { intros nim Hin. apply Hsub in Hin.
    apply list_elem_of_fmap in Hin as ([n v] & -> & Hin).
    apply elem_of_select_embeddings in Hin as (m & Hm & Hn & He).
    exists m. split_and!; [done..|]. by rewrite He. }
  destruct vs as [|v vs]; simpl.
  - split; [by intros m Hm|]. by intros nim Hin%elem_of_nil.
  - split; [|done]. intros m [= <-]. simpl in *. lia.
Qed.

(** X25.  With an index whose ids and rows go in pairs, every key of the
    evidence of a video is an id of the index.  After a reload from the
    store this makes every student of the evidence one who has an
    embedding in the store, whatever the frames showed. *)
Theorem evidence_keys_have_embeddings
    (emotion_api : string → option (option string)) db now
    (old_state : SystemState ndarray) task_id
    (frames : list (Z * Frame ndarray)) nim :
  let state :=
    reload_face_database_async np_array l2_normalize
      (fetch_rows (select_embeddings db)) now old_state in
  is_Some (aggregate_evidence l2_normalize np_dot state emotion_api task_id
             frames !! nim) →
  nim ∈ known_ids state ∧ has_face db nim.
Proof.
  cbv zeta. intros Hkey.
  destruct (reload_from_store db now old_state) as [Hp Hface].
  cbv zeta in Hp, Hface.
  set (state := reload_face_database_async _ _ _ _ _) in *.
  destruct (aggregate_facts l2_normalize np_dot state emotion_api task_id
              (frames.*1) ∅ frames) as (_ & Hk & _ & _).
  { apply Forall_forall. intros read Hin. apply list_elem_of_fmap. by exists read. }
  cbv zeta in Hk. apply Hk in Hkey as [Hempty|[Hn Hseen]].
  { rewrite lookup_empty in Hempty. by destruct Hempty. }
  unfold sightings in Hseen.
  destruct (filter _ _) as [|face faces] eqn:Hfilter; [simpl in Hseen; lia|].
  assert (face ∈ face :: faces) as Hin by left.
  rewrite <- Hfilter in Hin. apply list_elem_of_filter in Hin as [Hid _].
  assert (nim ∈ known_ids state) as Hidx.
  { destruct (identify_in_index state (face_embedding face) Hp) as [Hu|Hi];
      [congruence|by rewrite <- Hid]. }
  split; [exact Hidx|by apply Hface].
Qed.

End PipelineFacts.

Lemma evidence_keys_have_embeddings_witness : has_face sample_db "S1".
Proof.
  assert (is_Some
            (aggregate_evidence id sample_dot
               (reload_face_database_async Some id
                  (fetch_rows (select_embeddings sample_db)) 9 initial_state)
               sample_emotion_api "task-a" sample_frames !! "S1")) as Hkey.
  { exists (mkMeta 2 [("happy", 1)] (Some "/hasil_crop/task-a_S1_0.jpg")).
    vm_compute. reflexivity. }
  exact (proj2 (evidence_keys_have_embeddings Some id sample_dot
                  sample_emotion_api sample_db 9 initial_state "task-a"
                  sample_frames "S1" Hkey)).
Defined.
